(** * Telecom dashboard: the in-memory aggregation and derived-metrics engine

    A shallow embedding of the JavaScript sources
    - [data/generate_dataset.js]   (class [TelecomDataService]),
    - [js/dashboard-controller.js] (classes [DashboardController],
      [AdminDashboardController], [DataProcessor], [TableManager]),
    - the insights / map module    (classes [InsightsManager], [MapManager],
      and the login, sign-up and guard script),
    followed by the properties of the specification that are stated about
    them, and by further properties of the same code.

    JavaScript numbers are IEEE-754 binary64 values; they are modelled by
    Rocq's primitive floats, so every arithmetic step and every comparison in
    the model is the one the engine performs, [NaN] included.

    Conventions of the model:
    - a measure of a record is a number or absent, the operator a string or
      absent, the other fields of a record are present;
    - array lengths and the counters the sources increment by one are
      natural numbers, converted to a double where the sources divide;
    - an object used as a dictionary is the list of its own properties in
      creation order, read in the order of [Object.entries]; where the
      names of the data key it, the properties assume that none of them
      is a name inherited from [Object.prototype];
    - text is ASCII, one character per code unit: [toUpperCase] and
      [toLowerCase] act on the ASCII letters, the default sort compares
      the characters by their codes;
    - a dropdown is the value it shows and the options it offers after
      "All"; [localStorage] is a dictionary from keys to strings;
    - a method that reads [this.filteredData] takes the list as argument. *)

From Stdlib Require Import List String Ascii ZArith NArith Bool Floats Lia.
From Stdlib Require Import Permutation DecimalString Sorted.
From Stdlib Require DecimalPos DecimalN.
Import ListNotations.
Local Open Scope string_scope.

(* Decimal literals stand for the nearest double, as in the sources. *)
#[local] Set Warnings "-inexact-float".

(* ================================================================== *)
(** * The JavaScript runtime the sources rely on *)
(* ================================================================== *)

Module JS.

(** ** Numbers *)

(** [ToBoolean] on a number: [+0], [-0] and [NaN] are falsy. *)
Definition truthy (x : float) : bool :=
  negb (x =? 0)%float && negb (PrimFloat.is_nan x).

(** [x || d] where [x] is a number. *)
Definition orElse (x d : float) : float := if truthy x then x else d.

(** A non-negative integer as a number (exact below [2^53]). *)
Definition ofZ (z : Z) : float := PrimFloat.of_uint63 (Uint63.of_Z z).

(** Array lengths and counters incremented by [++] / [+= 1] hold
    non-negative integers; they are kept as [nat] and converted where the
    source divides by them. *)
Definition ofNat (n : nat) : float := ofZ (Z.of_nat n).

(** A numeric field of a parsed JSON record: present with a number, or
    absent ([undefined]). *)
Definition field := option float.

(** [r.f || 0]. *)
Definition orZero (v : field) : float :=
  match v with
  | Some x => orElse x 0
  | None => 0%float
  end.

(** [ToNumber] as applied by [acc + r.f] and [acc += r.f] when [acc] is a
    number: [undefined] becomes [NaN]. *)
Definition toNumber (v : field) : float :=
  match v with
  | Some x => x
  | None => PrimFloat.nan
  end.

(** ** Strings *)

(** [String(v)] / template interpolation of a string-valued field that may
    be absent. *)
Definition strOf (v : option string) : string :=
  match v with
  | Some s => s
  | None => "undefined"
  end.

(** [v !== s] where [s] is a string: an absent value differs from every
    string. *)
Definition differs (v : option string) (s : string) : bool :=
  match v with
  | Some x => negb (x =? s)
  | None => true
  end.

(** [ToBoolean] on a possibly absent string: [undefined] and [""] are
    falsy. *)
Definition truthyStr (v : option string) : bool :=
  match v with
  | Some s => negb (s =? "")
  | None => false
  end.

Definition upperChar (c : ascii) : ascii :=
  let n := N_of_ascii c in
  if ((97 <=? n) && (n <=? 122))%N then ascii_of_N (n - 32) else c.

Definition lowerChar (c : ascii) : ascii :=
  let n := N_of_ascii c in
  if ((65 <=? n) && (n <=? 90))%N then ascii_of_N (n + 32) else c.

(** [String.prototype.toUpperCase] and [toLowerCase] on ASCII text (the
    operator and place names of the dataset); other bytes are kept. *)
Fixpoint toUpperCase (s : string) : string :=
  match s with
  | EmptyString => EmptyString
  | String c s' => String (upperChar c) (toUpperCase s')
  end.

Fixpoint toLowerCase (s : string) : string :=
  match s with
  | EmptyString => EmptyString
  | String c s' => String (lowerChar c) (toLowerCase s')
  end.

(** ** [Number.prototype.toFixed(2)] *)

(** The decimal numeral of a non-negative integer. *)
Definition decimal (n : Z) : string :=
  NilZero.string_of_uint (N.to_uint (Z.to_N n)).

Fixpoint padLeft (k : nat) (s : string) : string :=
  match k with
  | O => s
  | S k' => String "0" (padLeft k' s)
  end.

(** Hundredths to text: at least three digits, a point before the last
    two. *)
Definition hundredths (n : Z) : string :=
  let d := decimal n in
  let d := padLeft (3 - String.length d) d in
  let k := (String.length d - 2)%nat in
  substring 0 k d ++ "." ++ substring k 2 d.

(** [x.toFixed(2)]: the integer [n] for which [n / 100 - |x|] is closest
    to zero, the larger one on a tie, computed on the exact value
    [m * 2^e] of the double.  (From [1e21] on the engine switches to
    exponent notation; the model keeps printing digits.) *)
Definition toFixed2 (x : float) : string :=
  match Prim2SF x with
  | S754_nan => "NaN"
  | S754_infinity s => if s then "-Infinity" else "Infinity"
  | S754_zero _ => "0.00"
  | S754_finite s m e =>
      let n := if (0 <=? e)%Z
               then (100 * Zpos m * 2 ^ e)%Z
               else ((200 * Zpos m + 2 ^ (- e)) / 2 ^ (1 - e))%Z in
      (if s then "-" else "") ++ hundredths n
  end.

(** ** [parseFloat] *)

Definition digitOf (c : ascii) : option Z :=
  let n := N_of_ascii c in
  if ((48 <=? n) && (n <=? 57))%N then Some (Z.of_N (n - 48)) else None.

(** Reads a run of digits: the value so far, the number of digits read,
    and the rest of the text. *)
Fixpoint digitsOf (s : string) (acc : Z) (k : nat) : Z * nat * string :=
  match s with
  | EmptyString => (acc, k, s)
  | String c s' =>
      match digitOf c with
      | Some d => digitsOf s' (10 * acc + d)%Z (S k)
      | None => (acc, k, s)
      end
  end.

Definition unsignedOf (s : string) : float :=
  if prefix "Infinity" s then PrimFloat.infinity
  else
    let '(ip, ni, rest) := digitsOf s 0%Z 0%nat in
    let '(fp, nf) :=
      match rest with
      | String "." rest' =>
          let '(v, k, _) := digitsOf rest' ip 0%nat in (v, k)
      | _ => (ip, 0%nat)
      end in
    if (ni + nf =? 0)%nat then PrimFloat.nan
    else (ofZ fp / ofZ (10 ^ Z.of_nat nf))%float.

(** [parseFloat(s)] for a decimal literal without exponent part, the form
    [toFixed] prints: an optional sign, digits, an optional fraction; any
    other text gives [NaN].  The quotient of the two integers is the
    correctly rounded value as long as the digits fit in 53 bits. *)
Definition parseFloat (s : string) : float :=
  match s with
  | String "-" s' => (- unsignedOf s')%float
  | String "+" s' => unsignedOf s'
  | _ => unsignedOf s
  end.

(** ** Objects used as dictionaries *)

(** An object literal that only receives own data properties: the
    properties with their values, in creation order.  [get], [set] and
    [upsert] below speak for [o[k]] on keys that are not names inherited
    from [Object.prototype] (see [inherited]); the properties about
    objects keyed by names of the data carry this as a hypothesis. *)
Definition obj (V : Type) := list (string * V).

Fixpoint get {V} (k : string) (o : obj V) : option V :=
  match o with
  | [] => None
  | (k', v) :: o' => if k =? k' then Some v else get k o'
  end.

(** [o[k] = v]: overwrite in place, or create the property last. *)
Fixpoint set {V} (k : string) (v : V) (o : obj V) : obj V :=
  match o with
  | [] => [(k, v)]
  | (k', v') :: o' =>
      if k =? k' then (k', v) :: o' else (k', v') :: set k v o'
  end.

(** The grouping idiom of the sources,
    [if (!o[k]) o[k] = init; ... o[k] updated by f], on a key that is not
    inherited. *)
Definition upsert {V} (k : string) (init : V) (f : V -> V) (o : obj V)
  : obj V :=
  match get k o with
  | Some v => set k (f v) o
  | None => set k (f init) o
  end.

(** A key is an array index when it is the canonical numeral of an
    integer below [2^32 - 1]. *)
Definition arrayIndex (k : string) : option Z :=
  let '(v, n, rest) := digitsOf k 0%Z 0%nat in
  if negb (n =? 0)%nat && (rest =? "") && (decimal v =? k)
     && (v <? 4294967295)%Z
  then Some v else None.

Fixpoint insertIndex {V} (i : Z) (e : string * V)
    (l : list (Z * (string * V))) : list (Z * (string * V)) :=
  match l with
  | [] => [(i, e)]
  | (j, e') :: l' =>
      if (i <? j)%Z then (i, e) :: l else (j, e') :: insertIndex i e l'
  end.

Fixpoint indexEntries {V} (o : obj V) : list (Z * (string * V)) :=
  match o with
  | [] => []
  | (k, v) :: o' =>
      match arrayIndex k with
      | Some i => insertIndex i (k, v) (indexEntries o')
      | None => indexEntries o'
      end
  end.

Definition isNamed {V} (e : string * V) : bool :=
  match arrayIndex (fst e) with
  | Some _ => false
  | None => true
  end.

(** [Object.entries(o)]: array-index keys first, in ascending numeric
    order, then the other keys in creation order. *)
Definition entries {V} (o : obj V) : list (string * V) :=
  map snd (indexEntries o) ++ filter isNamed o.

Definition keys {V} (o : obj V) : list string := map fst (entries o).
Definition values {V} (o : obj V) : list V := map snd (entries o).

(** ** [Array.prototype.sort] *)

(** The sort is stable; an element moves behind another one only when the
    comparator returns a positive number for the pair ([NaN] counts as
    zero).  On a consistent comparator every conforming engine returns
    this order. *)
Fixpoint insertBy {A} (cmp : A -> A -> float) (x : A) (l : list A)
  : list A :=
  match l with
  | [] => [x]
  | y :: l' =>
      if (0 <? cmp x y)%float then y :: insertBy cmp x l' else x :: l
  end.

Definition sort {A} (cmp : A -> A -> float) (l : list A) : list A :=
  fold_right (insertBy cmp) [] l.

(** The same sort when the comparator can raise an exception ([None]),
    which then ends the sort. *)
Fixpoint insertByM {A} (cmp : A -> A -> option float) (x : A)
    (l : list A) : option (list A) :=
  match l with
  | [] => Some [x]
  | y :: l' =>
      match cmp x y with
      | None => None
      | Some c =>
          if (0 <? c)%float
          then option_map (cons y) (insertByM cmp x l')
          else Some (x :: l)
      end
  end.

Fixpoint sortM {A} (cmp : A -> A -> option float) (l : list A)
  : option (list A) :=
  match l with
  | [] => Some []
  | x :: l' =>
      match sortM cmp l' with
      | None => None
      | Some sorted => insertByM cmp x sorted
      end
  end.

(** [a.localeCompare(b)], taken as the comparison of the code units. *)
Definition localeCompare (a b : string) : float :=
  match String.compare a b with
  | Lt => (-1)%float
  | Eq => 0%float
  | Gt => 1%float
  end.

(** ** Inherited members *)

(** The property names every object inherits from [Object.prototype].  On
    such a key [o[k]] reads the inherited member of an object [o] without
    own property [k] -- a function, or the prototype itself -- which is
    truthy: [if (!o[k]) o[k] = init] then creates nothing, and what
    follows acts on the member. *)
Definition inherited : list string :=
  [ "constructor"; "hasOwnProperty"; "isPrototypeOf";
    "propertyIsEnumerable"; "toLocaleString"; "toString"; "valueOf";
    "__proto__"; "__defineGetter__"; "__defineSetter__";
    "__lookupGetter__"; "__lookupSetter__" ].

Definition isInherited (k : string) : bool :=
  existsb (String.eqb k) inherited.

(** [o[k]] on any key: the own property, else the inherited member, else
    [undefined]. *)
Inductive Lookup (V : Type) : Type :=
| Own (v : V)
| Member
| Undefined.
Arguments Own {V} _.
Arguments Member {V}.
Arguments Undefined {V}.

Definition lookup {V} (k : string) (o : obj V) : Lookup V :=
  match get k o with
  | Some v => Own v
  | None => if isInherited k then Member else Undefined
  end.

(** ** Values stored in the result objects *)

Inductive value : Type :=
| Num (x : float)
| Str (s : string).

(** ** [Set] *)

(** [Set.prototype.add] on a set kept in insertion order; [same] is the
    equality of the values ([SameValueZero]). *)
Definition setAdd {A} (same : A -> A -> bool) (v : A) (s : list A)
  : list A :=
  if existsb (same v) s then s else (s ++ [v])%list.

(** [new Set(array)]: the distinct values, each where it first occurs. *)
Definition setOf {A} (same : A -> A -> bool) (l : list A) : list A :=
  fold_left (fun s v => setAdd same v s) l [].

(** ** The default sort *)

(** The comparison [Array.prototype.sort()] uses without a comparator, on
    strings: the order of the code units. *)
Definition sortCompare (x y : string) : float :=
  if String.ltb x y then (-1)%float
  else if String.ltb y x then 1%float
  else 0%float.

(** [array.sort()] on an array of strings. *)
Definition sortStrings (l : list string) : list string :=
  JS.sort sortCompare l.

(** ** Integers *)

(** An integer as a number, and as a property name. *)
Definition ofInt (z : Z) : float :=
  if (z <? 0)%Z then (- JS.ofZ (- z))%float else JS.ofZ z.

Definition numeral (z : Z) : string :=
  if (z <? 0)%Z then "-" ++ JS.decimal (- z) else JS.decimal z.

(** [(a, b) => a - b] on integers: the difference is computed exactly and
    rounded once, as the subtraction of the two numbers is. *)
Definition minus (a b : Z) : float := ofInt (a - b).

(** ** More of [String] *)

(** [s.includes(sub)]. *)
Definition includes (sub s : string) : bool :=
  match String.index 0 sub s with
  | Some _ => true
  | None => false
  end.

(** The double quote. *)
Definition quote : string := String (ascii_of_nat 34) "".

(** [parseFloat(x)] on a number: the number is printed and read back,
    which returns it, except that [-0] prints as "0". *)
Definition parseFloatNumber (x : float) : float :=
  if (x =? 0)%float then 0%float else x.

(** [parseFloat(v)] on a property that may be absent; [undefined] gives
    [NaN]. *)
Definition parseFloatValue (v : option JS.value) : float :=
  match v with
  | Some (JS.Num x) => parseFloatNumber x
  | Some (JS.Str s) => JS.parseFloat s
  | None => PrimFloat.nan
  end.

(** [delete o[k]] / [removeItem(k)]. *)
Definition remove {V} (k : string) (o : JS.obj V) : JS.obj V :=
  filter (fun e => negb (fst e =? k)) o.

End JS.

(* ================================================================== *)
(** * The data model *)
(* ================================================================== *)

(** One observation of [data.json].  The measures and the operator may be
    absent from a record; the other fields are taken as present. *)
Module Rec.

Record t : Type := mk {
  state : string;
  city : string;
  area : string;
  operator : option string;
  network_type : string;
  year : Z;
  month : Z;
  hour : Z;
  is_peak_hour : Z;
  download_mbps : JS.field;
  upload_mbps : JS.field;
  latency_ms : JS.field;
  confidence_score : JS.field;
  latitude : float;
  longitude : float
}.

End Rec.

(** A running total with the number of records it covers:
    [{ total: 0, count: 0 }] / [{ sum: 0, count: 0 }]. *)
Record Bucket : Type := mkBucket {
  total : float;
  count : nat
}.

(** [b.total / b.count]. *)
Definition average (b : Bucket) : float :=
  (total b / JS.ofNat (count b))%float.

(** [b.total += x; b.count += 1]. *)
Definition addTo (x : float) (b : Bucket) : Bucket :=
  mkBucket (total b + x)%float (S (count b)).

(** [data.reduce((sum, r) => sum + f(r), 0)]. *)
Definition sumOf {A} (f : A -> float) (l : list A) : float :=
  fold_left (fun sum r => (sum + f r)%float) l 0%float.

(* ================================================================== *)
(** * [DataProcessor] (user dashboard) *)
(* ================================================================== *)

Module DataProcessor.

(** [this.filters]. *)
Record Filters : Type := mkFilters {
  state : string;
  city : string;
  area : string;
  network : string;
  operator : string
}.

(** The filter state of the constructor and of [resetFilters]. *)
Definition initialFilters : Filters :=
  mkFilters "All" "All" "All" "All" "All".

(** The callback of [applyFilters]. *)
Definition keeps (f : Filters) (record : Rec.t) : bool :=
  if negb (state f =? "All") && negb (Rec.state record =? state f)
  then false
  else if negb (city f =? "All") && negb (Rec.city record =? city f)
  then false
  else if negb (area f =? "All") && negb (Rec.area record =? area f)
  then false
  else if negb (network f =? "All")
          && negb (Rec.network_type record =? network f)
  then false
  else if negb (operator f =? "All")
          && JS.differs (Rec.operator record) (operator f)
  then false
  else true.

(** The fields of the processor the core reads and writes. *)
Record t : Type := mk {
  rawData : list Rec.t;
  filteredData : list Rec.t;
  filters : Filters
}.

(** The processor once [loadData] has succeeded. *)
Definition loaded (data : list Rec.t) : t := mk data data initialFilters.

(** [applyFilters()]: [this.filteredData = this.rawData.filter(...)]. *)
Definition applyFilters (dp : t) : t :=
  mk (rawData dp) (filter (keeps (filters dp)) (rawData dp)) (filters dp).

(** [this.filters[filterName] = value].  A name other than the five
    filters creates a property no other method reads. *)
Definition assign (filterName value : string) (f : Filters) : Filters :=
  if filterName =? "state"
  then mkFilters value (city f) (area f) (network f) (operator f)
  else if filterName =? "city"
  then mkFilters (state f) value (area f) (network f) (operator f)
  else if filterName =? "area"
  then mkFilters (state f) (city f) value (network f) (operator f)
  else if filterName =? "network"
  then mkFilters (state f) (city f) (area f) value (operator f)
  else if filterName =? "operator"
  then mkFilters (state f) (city f) (area f) (network f) value
  else f.

(** [updateFilter(filterName, value)]: the assignment, the reset of the
    dependent filters, then [applyFilters()]. *)
Definition updateFilter (filterName value : string) (dp : t) : t :=
  let f := assign filterName value (filters dp) in
  let f :=
    if filterName =? "state"
    then mkFilters (state f) "All" "All" (network f) (operator f)
    else if filterName =? "city"
    then mkFilters (state f) (city f) "All" (network f) (operator f)
    else f in
  applyFilters (mk (rawData dp) (filteredData dp) f).

(** The methods below read [this.filteredData]; they take it as their
    argument. *)

(** The grouping key of [calculateKPIs]:
    [(r.operator || 'Unknown').toUpperCase()]. *)
Definition operatorKey (r : Rec.t) : string :=
  JS.toUpperCase
    (if JS.truthyStr (Rec.operator r) then JS.strOf (Rec.operator r)
     else "Unknown").

(** [operatorScores] after the [forEach] of [calculateKPIs]. *)
Definition operatorScores (filteredData : list Rec.t) : JS.obj Bucket :=
  fold_left
    (fun acc r =>
       JS.upsert (operatorKey r) (mkBucket 0 0)
                 (addTo (JS.orZero (Rec.confidence_score r))) acc)
    filteredData [].

(** One turn of the loop over [Object.entries(operatorScores)]; the state
    is [(bestOperator, bestScore)]. *)
Definition betterOperator (best : string * float) (e : string * Bucket)
  : string * float :=
  let avgOpScore := average (snd e) in
  if (snd best <? avgOpScore)%float then (fst e, avgOpScore) else best.

(** [bestOperator] when the loop ends. *)
Definition bestOperator (filteredData : list Rec.t) : string :=
  fst (fold_left betterOperator (JS.entries (operatorScores filteredData))
                 ("N/A", 0%float)).

(** [calculateKPIs()]. *)
Definition calculateKPIs (filteredData : list Rec.t) : JS.obj JS.value :=
  match filteredData with
  | [] =>
      [ ("bestOperator", JS.Str "N/A");
        ("avgDownload", JS.Num 0);
        ("avgUpload", JS.Num 0);
        ("avgScore", JS.Num 0) ]
  | _ =>
      let n := JS.ofNat (List.length filteredData) in
      let avgDownload :=
        (sumOf (fun r => JS.toNumber (Rec.download_mbps r)) filteredData
         / n)%float in
      let avgUpload :=
        (sumOf (fun r => JS.toNumber (Rec.upload_mbps r)) filteredData
         / n)%float in
      let avgScore :=
        (sumOf (fun r => JS.orZero (Rec.confidence_score r)) filteredData
         / n)%float in
      [ ("bestOperator", JS.Str (bestOperator filteredData));
        ("avgDownload", JS.Str (JS.toFixed2 avgDownload));
        ("avgUpload", JS.Str (JS.toFixed2 avgUpload));
        ("avgScore", JS.Str (JS.toFixed2 avgScore)) ]
  end.

(** The accumulator of one [area_operator] key in [getAreaWiseData]. *)
Record AreaTotals : Type := mkAreaTotals {
  at_area : string;
  at_operator : option string;
  downloadTotal : float;
  uploadTotal : float;
  scoreTotal : float;
  at_count : nat
}.

(** One row of the area-wise table. *)
Record AreaSummary : Type := mkAreaSummary {
  as_area : string;
  as_operator : option string;
  avgDownload : string;
  avgUpload : string;
  avgScore : string
}.

(** [`${r.area}_${r.operator}`]. *)
Definition areaKey (r : Rec.t) : string :=
  Rec.area r ++ "_" ++ JS.strOf (Rec.operator r).

Definition addRecord (r : Rec.t) (item : AreaTotals) : AreaTotals :=
  mkAreaTotals (at_area item) (at_operator item)
    (downloadTotal item + JS.toNumber (Rec.download_mbps r))%float
    (uploadTotal item + JS.toNumber (Rec.upload_mbps r))%float
    (scoreTotal item + JS.toNumber (Rec.confidence_score r))%float
    (S (at_count item)).

(** [data] after the [forEach] of [getAreaWiseData]. *)
Definition areaTotals (filteredData : list Rec.t) : JS.obj AreaTotals :=
  fold_left
    (fun data r =>
       JS.upsert (areaKey r)
         (mkAreaTotals (Rec.area r) (Rec.operator r) 0 0 0 0)
         (addRecord r) data)
    filteredData [].

Definition summarize (item : AreaTotals) : AreaSummary :=
  let n := JS.ofNat (at_count item) in
  mkAreaSummary (at_area item) (at_operator item)
    (JS.toFixed2 (downloadTotal item / n))
    (JS.toFixed2 (uploadTotal item / n))
    (JS.toFixed2 (scoreTotal item / n)).

(** [getAreaWiseData()]: the rows, sorted by score, best first. *)
Definition getAreaWiseData (filteredData : list Rec.t)
  : list AreaSummary :=
  JS.sort
    (fun a b =>
       (JS.parseFloat (avgScore b) - JS.parseFloat (avgScore a))%float)
    (map summarize (JS.values (areaTotals filteredData))).

(** The accumulator of one area in [getMapData]; [operators] is the
    [Set], in insertion order. *)
Record MapGroup : Type := mkMapGroup {
  mg_area : string;
  mg_city : string;
  mg_state : string;
  lat : float;
  lng : float;
  mg_scoreTotal : float;
  mg_count : nat;
  operators : list (option string)
}.

Definition sameOperator (a b : option string) : bool :=
  match a, b with
  | Some x, Some y => x =? y
  | None, None => true
  | _, _ => false
  end.

(** [Set.prototype.add]. *)
Definition setAdd (v : option string) (s : list (option string))
  : list (option string) :=
  if existsb (sameOperator v) s then s else s ++ [v].

Definition addToGroup (r : Rec.t) (g : MapGroup) : MapGroup :=
  mkMapGroup (mg_area g) (mg_city g) (mg_state g) (lat g) (lng g)
    (mg_scoreTotal g + JS.toNumber (Rec.confidence_score r))%float
    (S (mg_count g))
    (setAdd (Rec.operator r) (operators g)).

(** [data] after the [forEach] of [getMapData]. *)
Definition mapGroups (filteredData : list Rec.t) : JS.obj MapGroup :=
  fold_left
    (fun data r =>
       JS.upsert (Rec.area r)
         (mkMapGroup (Rec.area r) (Rec.city r) (Rec.state r)
                     (Rec.latitude r) (Rec.longitude r) 0 0 [])
         (addToGroup r) data)
    filteredData [].

(** An item of the array [getMapData()] returns: the group, its average
    score as text, and the operators joined by [", "]. *)
Record MapItem : Type := mkMapItem {
  group : MapGroup;
  mi_avgScore : string;
  mi_operators : string
}.

(** [Array.prototype.join(', ')]; [undefined] elements print as the empty
    text. *)
Fixpoint join (l : list (option string)) : string :=
  match l with
  | [] => ""
  | [v] => match v with Some s => s | None => "" end
  | v :: l' => match v with Some s => s | None => "" end ++ ", " ++ join l'
  end.

Definition getMapData (filteredData : list Rec.t) : list MapItem :=
  map (fun g =>
         mkMapItem g
           (JS.toFixed2 (mg_scoreTotal g / JS.ofNat (mg_count g)))
           (join (operators g)))
      (JS.values (mapGroups filteredData)).

(** [getScoreLabel(score)]. *)
Definition getScoreLabel (score : option JS.value) : string :=
  if (0.5 <=? JS.parseFloatValue score)%float then "Good" else "Poor".

(** [getUniqueValues(field)], [field] being the accessor of the text field
    it names ('state', 'city', 'area', 'network_type'). *)
Definition getUniqueValues (field : Rec.t -> string) (dp : DataProcessor.t)
  : list string :=
  JS.sortStrings
    (JS.setOf String.eqb (map field (DataProcessor.rawData dp))).

(** [getCitiesForState(state)]. *)
Definition getCitiesForState (state : string) (dp : DataProcessor.t)
  : list string :=
  if state =? "All" then getUniqueValues Rec.city dp
  else
    JS.sortStrings
      (JS.setOf String.eqb
         (map Rec.city
              (filter (fun r => Rec.state r =? state)
                      (DataProcessor.rawData dp)))).

(** [getAreasForCity(city)]. *)
Definition getAreasForCity (city : string) (dp : DataProcessor.t)
  : list string :=
  if city =? "All" then getUniqueValues Rec.area dp
  else
    JS.sortStrings
      (JS.setOf String.eqb
         (map Rec.area
              (filter (fun r => Rec.city r =? city)
                      (DataProcessor.rawData dp)))).

(** One line of a chart: [{ label, data }]. *)
Record Dataset : Type := mkDataset {
  ds_label : string;
  ds_data : list JS.value
}.

(** [{ labels, datasets }]. *)
Record Chart (L : Type) : Type := mkChart {
  labels : list L;
  datasets : list Dataset
}.
Arguments mkChart {L} _ _.
Arguments labels {L} _.
Arguments datasets {L} _.

(** [allOperators] after the [forEach] of the three chart methods. *)
Definition allOperators (filteredData : list Rec.t) : list string :=
  fold_left
    (fun s r => JS.setAdd String.eqb (DataProcessor.operatorKey r) s)
    filteredData [].

(** The point charted for a bucket:
    [(b.total / b.count).toFixed(2)], or the number 0 without bucket. *)
Definition charted (b : option Bucket) : JS.value :=
  match b with
  | Some b => JS.Str (JS.toFixed2 (average b))
  | None => JS.Num 0
  end.

(** [o[k1][k2]], falsy when [o[k1]] is. *)
Definition get2 {V} (k1 k2 : string) (o : JS.obj (JS.obj V)) : option V :=
  match JS.get k1 o with
  | Some inner => JS.get k2 inner
  | None => None
  end.

(** [data] after the [forEach] of [getDownloadSpeedByOperatorCity]. *)
Definition cityTotals (filteredData : list Rec.t)
  : JS.obj (JS.obj Bucket) :=
  fold_left
    (fun data r =>
       JS.upsert (Rec.city r) []
         (JS.upsert (DataProcessor.operatorKey r) (mkBucket 0 0)
            (addTo (JS.toNumber (Rec.download_mbps r))))
         data)
    filteredData [].

(** [getDownloadSpeedByOperatorCity()]. *)
Definition getDownloadSpeedByOperatorCity (filteredData : list Rec.t)
  : Chart string :=
  let data := cityTotals filteredData in
  let cities := firstn 5 (JS.keys data) in
  let operators := JS.sortStrings (allOperators filteredData) in
  mkChart cities
    (map (fun op =>
            mkDataset op (map (fun city => charted (get2 city op data))
                              cities))
         operators).

(** [const hourType = r.is_peak_hour === 1 ? 'Peak' : 'Non-Peak']. *)
Definition hourType (r : Rec.t) : string :=
  if (Rec.is_peak_hour r =? 1)%Z then "Peak" else "Non-Peak".

(** [data] after the [forEach] of [getLatencyByPeakHour]; it starts as
    [{ 'Non-Peak': {}, 'Peak': {} }]. *)
Definition peakTotals (filteredData : list Rec.t)
  : JS.obj (JS.obj Bucket) :=
  fold_left
    (fun data r =>
       JS.upsert (hourType r) []
         (JS.upsert (DataProcessor.operatorKey r) (mkBucket 0 0)
            (addTo (JS.toNumber (Rec.latency_ms r))))
         data)
    filteredData [("Non-Peak", []); ("Peak", [])].

(** [getLatencyByPeakHour()]. *)
Definition getLatencyByPeakHour (filteredData : list Rec.t)
  : Chart string :=
  let data := peakTotals filteredData in
  let labels := ["Non-Peak"; "Peak"] in
  let operators := JS.sortStrings (allOperators filteredData) in
  mkChart labels
    (map (fun op =>
            mkDataset op (map (fun label => charted (get2 label op data))
                              labels))
         operators).

(** [data] after the [forEach] of [getHourlyDownloadSpeed]. *)
Definition hourTotals (filteredData : list Rec.t)
  : JS.obj (JS.obj Bucket) :=
  fold_left
    (fun data r =>
       JS.upsert (JS.numeral (Rec.hour r)) []
         (JS.upsert (DataProcessor.operatorKey r) (mkBucket 0 0)
            (addTo (JS.toNumber (Rec.download_mbps r))))
         data)
    filteredData [].

(** [Array.from({ length: 24 }, (_, i) => i)]. *)
Definition hours : list Z := map Z.of_nat (seq 0 24).

(** [getHourlyDownloadSpeed()]. *)
Definition getHourlyDownloadSpeed (filteredData : list Rec.t)
  : Chart Z :=
  let data := hourTotals filteredData in
  let operators := JS.sortStrings (allOperators filteredData) in
  mkChart hours
    (map (fun op =>
            mkDataset op
              (map (fun hour => charted (get2 (JS.numeral hour) op data))
                   hours))
         operators).

End DataProcessor.

(* ================================================================== *)
(** * [TelecomDataService] (admin dashboard) *)
(* ================================================================== *)

Module TelecomDataService.

(** The filter object [AdminDashboardController] passes to [filterData].
    It never carries a [year] property, so the single-year test of
    [filterData] is always skipped. *)
Record Filters : Type := mkFilters {
  state : string;
  city : string;
  operator : string;
  network_type : string;
  years : list Z;
  month_start : Z
}.

Definition initialFilters : Filters :=
  mkFilters "All" "All" "All" "All" [] 1.

(** [filters.d && filters.d !== 'All' && v !== filters.d]. *)
Definition rejects (selected : string) (v : option string) : bool :=
  negb (selected =? "") && negb (selected =? "All")
  && JS.differs v selected.

(** The callback of [filterData]. *)
Definition keeps (filters : Filters) (record : Rec.t) : bool :=
  if rejects (state filters) (Some (Rec.state record)) then false
  else if rejects (city filters) (Some (Rec.city record)) then false
  else if rejects (operator filters) (Rec.operator record) then false
  else if rejects (network_type filters) (Some (Rec.network_type record))
  then false
  else if (0 <? List.length (years filters))%nat
          && negb (existsb (Z.eqb (Rec.year record)) (years filters))
  then false
  else if negb (month_start filters =? 0)%Z
          && negb (Rec.month record =? month_start filters)%Z
  then false
  else true.

Definition filterData (rawData : list Rec.t) (filters : Filters)
  : list Rec.t :=
  filter (keeps filters) rawData.

(** The accumulator of the [reduce] in [getAggregatedMetrics]. *)
Record Sums : Type := mkSums {
  download : float;
  upload : float;
  latency : float;
  networkScore : float
}.

Definition addSums (acc : Sums) (curr : Rec.t) : Sums :=
  mkSums (download acc + JS.orZero (Rec.download_mbps curr))%float
         (upload acc + JS.orZero (Rec.upload_mbps curr))%float
         (latency acc + JS.orZero (Rec.latency_ms curr))%float
         (networkScore acc + JS.orZero (Rec.confidence_score curr))%float.

(** [getAggregatedMetrics(data)]; [None] is the [null] returned for an
    empty array. *)
Definition getAggregatedMetrics (data : list Rec.t)
  : option (JS.obj JS.value) :=
  match data with
  | [] => None
  | _ =>
      let total := List.length data in
      let sums := fold_left addSums data (mkSums 0 0 0 0) in
      let n := JS.ofNat total in
      Some [ ("avgDownload", JS.Str (JS.toFixed2 (download sums / n)));
             ("avgUpload", JS.Str (JS.toFixed2 (upload sums / n)));
             ("avgLatency", JS.Str (JS.toFixed2 (latency sums / n)));
             ("avgNetworkScore",
               JS.Str (JS.toFixed2 (networkScore sums / n)));
             ("totalRecords", JS.Num n) ]
  end.

(** [{ peakSum: 0, peakCount: 0, nonPeakSum: 0, nonPeakCount: 0 }]. *)
Record PeakBucket : Type := mkPeakBucket {
  peakSum : float;
  peakCount : nat;
  nonPeakSum : float;
  nonPeakCount : nat
}.

(** [{ '4G': { sum: 0, count: 0 }, '5G': { sum: 0, count: 0 } }]. *)
Record NetBuckets : Type := mkNetBuckets {
  lat4G : Bucket;
  lat5G : Bucket
}.

(** [{ '4G': 0, '5G': 0 }]. *)
Record NetCounts : Type := mkNetCounts {
  count4G : nat;
  count5G : nat
}.

(** The six objects [getChartData] fills and returns. *)
Record ChartData : Type := mkChartData {
  downloadByOpPeak : JS.obj PeakBucket;
  latencyByCityNet : JS.obj NetBuckets;
  coverageGrowth : JS.obj NetCounts;
  downloadByYearOp : JS.obj (JS.obj Bucket);
  latencyByYearPeak : JS.obj PeakBucket;
  scoreByOp : JS.obj Bucket
}.

(** The property name a year is stored under. *)
Definition yearKey (y : Z) : string :=
  if (y <? 0)%Z then "-" ++ JS.decimal (- y) else JS.decimal y.

(** [if (r.is_peak_hour === 1) { peakSum += x; peakCount++ }
     else { nonPeakSum += x; nonPeakCount++ }]. *)
Definition addPeak (r : Rec.t) (x : float) (b : PeakBucket) : PeakBucket :=
  if (Rec.is_peak_hour r =? 1)%Z
  then mkPeakBucket (peakSum b + x)%float (S (peakCount b))
                    (nonPeakSum b) (nonPeakCount b)
  else mkPeakBucket (peakSum b) (peakCount b)
                    (nonPeakSum b + x)%float (S (nonPeakCount b)).

(** [if (o[r.network_type]) { o[r.network_type].sum += x; ...count++ }]:
    only the two properties of the literal exist. *)
Definition addNet (r : Rec.t) (x : float) (b : NetBuckets) : NetBuckets :=
  if Rec.network_type r =? "4G"
  then mkNetBuckets (addTo x (lat4G b)) (lat5G b)
  else if Rec.network_type r =? "5G"
  then mkNetBuckets (lat4G b) (addTo x (lat5G b))
  else b.

(** [if (o[r.network_type] !== undefined) o[r.network_type]++]. *)
Definition addCoverage (r : Rec.t) (c : NetCounts) : NetCounts :=
  if Rec.network_type r =? "4G"
  then mkNetCounts (S (count4G c)) (count5G c)
  else if Rec.network_type r =? "5G"
  then mkNetCounts (count4G c) (S (count5G c))
  else c.

(** The body of the [forEach] of [getChartData]. *)
Definition chartStep (d : ChartData) (r : Rec.t) : ChartData :=
  let op := JS.strOf (Rec.operator r) in
  let y := yearKey (Rec.year r) in
  let down := JS.toNumber (Rec.download_mbps r) in
  let late := JS.toNumber (Rec.latency_ms r) in
  mkChartData
    (JS.upsert op (mkPeakBucket 0 0 0 0) (addPeak r down)
               (downloadByOpPeak d))
    (JS.upsert (Rec.city r)
               (mkNetBuckets (mkBucket 0 0) (mkBucket 0 0))
               (addNet r late) (latencyByCityNet d))
    (JS.upsert y (mkNetCounts 0 0) (addCoverage r) (coverageGrowth d))
    (JS.upsert y []
               (JS.upsert op (mkBucket 0 0) (addTo down))
               (downloadByYearOp d))
    (JS.upsert y (mkPeakBucket 0 0 0 0) (addPeak r late)
               (latencyByYearPeak d))
    (JS.upsert op (mkBucket 0 0)
               (addTo (JS.toNumber (Rec.confidence_score r)))
               (scoreByOp d)).

(** [getChartData(data)]. *)
Definition getChartData (data : list Rec.t) : ChartData :=
  fold_left chartStep data (mkChartData [] [] [] [] [] []).

(** The five sets of [getFilterOptions], in insertion order. *)
Record FilterOptions : Type := mkFilterOptions {
  opt_states : list string;
  opt_cities : list string;
  opt_operators : list string;
  opt_networkTypes : list string;
  opt_years : list Z
}.

(** [if (v) set.add(v)] for a text value. *)
Definition addText (v : option string) (set : list string) : list string :=
  if JS.truthyStr v then JS.setAdd String.eqb (JS.strOf v) set else set.

(** The body of the [forEach] of [getFilterOptions]. *)
Definition collect (options : FilterOptions) (record : Rec.t)
  : FilterOptions :=
  mkFilterOptions
    (addText (Some (Rec.state record)) (opt_states options))
    (addText (Some (Rec.city record)) (opt_cities options))
    (addText (Rec.operator record) (opt_operators options))
    (addText (Some (Rec.network_type record)) (opt_networkTypes options))
    (if negb (Rec.year record =? 0)%Z
     then JS.setAdd Z.eqb (Rec.year record) (opt_years options)
     else opt_years options).

(** [getFilterOptions()]. *)
Definition getFilterOptions (rawData : list Rec.t) : FilterOptions :=
  let options :=
    fold_left collect rawData (mkFilterOptions [] [] [] [] []) in
  mkFilterOptions
    (JS.sortStrings (opt_states options))
    (JS.sortStrings (opt_cities options))
    (JS.sortStrings (opt_operators options))
    (JS.sortStrings (opt_networkTypes options))
    (JS.sort JS.minus (opt_years options)).

(** [stateMap] after the [forEach] of [getStateToCitiesMap]. *)
Definition stateMap (rawData : list Rec.t) : JS.obj (list string) :=
  fold_left
    (fun stateMap record =>
       if negb (Rec.state record =? "") && negb (Rec.city record =? "")
       then JS.upsert (Rec.state record) []
              (JS.setAdd String.eqb (Rec.city record)) stateMap
       else stateMap)
    rawData [].

(** [getStateToCitiesMap()]. *)
Definition getStateToCitiesMap (rawData : list Rec.t)
  : JS.obj (list string) :=
  let stateMap := stateMap rawData in
  fold_left
    (fun result state =>
       match JS.get state stateMap with
       | Some cities => JS.set state (JS.sortStrings cities) result
       | None => result
       end)
    (JS.keys stateMap) [].

(** [getScoreLabel(score)]. *)
Definition getScoreLabel (score : option JS.value) : string :=
  if (0.5 <=? JS.parseFloatValue score)%float then "Good" else "Poor".

End TelecomDataService.

(* ================================================================== *)
(** * [AdminDashboardController]: the series handed to the charts *)
(* ================================================================== *)

Module AdminDashboardController.

Import TelecomDataService.

(** [count ? (sum / count) : 0], the guard every series of the admin
    charts is computed with. *)
Definition ratio (sum : float) (count : nat) : float :=
  if JS.truthy (JS.ofNat count) then (sum / JS.ofNat count)%float
  else 0%float.

(** [renderDownloadOpChart]: [labels], [peakData], [nonPeakData]. *)
Definition downloadOpLabels (data : JS.obj PeakBucket) : list string :=
  JS.keys data.

Definition peakSeries (data : JS.obj PeakBucket) : list float :=
  map (fun b => ratio (peakSum b) (peakCount b)) (JS.values data).

Definition nonPeakSeries (data : JS.obj PeakBucket) : list float :=
  map (fun b => ratio (nonPeakSum b) (nonPeakCount b)) (JS.values data).

(** [renderLatencyCityChart]: [data4G], [data5G] of the first five
    cities. *)
Definition latency4GSeries (data : JS.obj NetBuckets) : list float :=
  map (fun b => ratio (total (lat4G b)) (count (lat4G b)))
      (firstn 5 (JS.values data)).

Definition latency5GSeries (data : JS.obj NetBuckets) : list float :=
  map (fun b => ratio (total (lat5G b)) (count (lat5G b)))
      (firstn 5 (JS.values data)).

(** [renderScoreOpChart]: [values]. *)
Definition scoreSeries (data : JS.obj Bucket) : list float :=
  map (fun b => ratio (total b) (count b)) (JS.values data).

(** [this.filters] and [this.stateToCities]. *)
Record t : Type := mk {
  filters : TelecomDataService.Filters;
  stateToCities : JS.obj (list string)
}.

(** The controller when [initFilters] has run on the loaded data. *)
Definition initial (rawData : list Rec.t) : t :=
  mk TelecomDataService.initialFilters
     (TelecomDataService.getStateToCitiesMap rawData).

(** The options [updateCityDropdown(selectedState)] puts after
    "All Cities", for a state that is not an inherited name. *)
Definition cityOptions (selectedState : string) (c : t) : list string :=
  if selectedState =? "All"
  then
    JS.sortStrings
      (fold_left
         (fun allCities cities =>
            fold_left (fun s city => JS.setAdd String.eqb city s)
                      cities allCities)
         (JS.values (stateToCities c)) [])
  else
    match JS.get selectedState (stateToCities c) with
    | Some cities => cities
    | None => []
    end.

(** [updateCityDropdown(selectedState)]: the state of the controller
    afterwards. *)
Definition updateCityDropdown (selectedState : string) (c : t) : t :=
  mk (TelecomDataService.mkFilters
        (TelecomDataService.state (filters c)) "All"
        (TelecomDataService.operator (filters c))
        (TelecomDataService.network_type (filters c))
        (TelecomDataService.years (filters c))
        (TelecomDataService.month_start (filters c)))
     (stateToCities c).

(** The listener of the state dropdown, up to [updateDashboard()]. *)
Definition onStateChange (value : string) (c : t) : t :=
  updateCityDropdown value
    (mk (TelecomDataService.mkFilters value
           (TelecomDataService.city (filters c))
           (TelecomDataService.operator (filters c))
           (TelecomDataService.network_type (filters c))
           (TelecomDataService.years (filters c))
           (TelecomDataService.month_start (filters c)))
        (stateToCities c)).

(** The listener of the city dropdown, up to [updateDashboard()]. *)
Definition onCityChange (value : string) (c : t) : t :=
  mk (TelecomDataService.mkFilters
        (TelecomDataService.state (filters c)) value
        (TelecomDataService.operator (filters c))
        (TelecomDataService.network_type (filters c))
        (TelecomDataService.years (filters c))
        (TelecomDataService.month_start (filters c)))
     (stateToCities c).

(** [toggleYear(year, btn)], up to [updateDashboard()]. *)
Definition toggleYear (year : Z) (c : t) : t :=
  let years := TelecomDataService.years (filters c) in
  mk (TelecomDataService.mkFilters
        (TelecomDataService.state (filters c))
        (TelecomDataService.city (filters c))
        (TelecomDataService.operator (filters c))
        (TelecomDataService.network_type (filters c))
        (if existsb (Z.eqb year) years
         then filter (fun y => negb (y =? year)%Z) years
         else (years ++ [year])%list)
        (TelecomDataService.month_start (filters c)))
     (stateToCities c).

(** What the four KPI cards were last assigned. *)
Record Cards : Type := mkCards {
  avg_upload : option JS.value;
  avg_download : option JS.value;
  avg_latency : option JS.value;
  avg_score : option JS.value
}.

(** [updateKPIs(metrics)]; [None] is [null]. *)
Definition updateKPIs (metrics : option (JS.obj JS.value)) (cards : Cards)
  : Cards :=
  match metrics with
  | None => cards
  | Some metrics =>
      mkCards (JS.get "avgUpload" metrics)
              (JS.get "avgDownload" metrics)
              (JS.get "avgLatency" metrics)
              (Some (JS.Str (TelecomDataService.getScoreLabel
                               (JS.get "avgNetworkScore" metrics))))
  end.

(** The page: the KPI cards and the data the six charts were last drawn
    from. *)
Record Page : Type := mkPage {
  cards : Cards;
  charts : TelecomDataService.ChartData
}.

(** [updateDashboard()], up to the insights. *)
Definition updateDashboard (rawData : list Rec.t) (c : t) (page : Page)
  : Page :=
  let filteredData := TelecomDataService.filterData rawData (filters c) in
  let aggregated := TelecomDataService.getAggregatedMetrics filteredData in
  let chartData := TelecomDataService.getChartData filteredData in
  mkPage (updateKPIs aggregated (cards page)) chartData.

(** [renderCoverageGrowthChart(data)]: [years], [data4G], [data5G]. *)
Definition coverageYears (data : JS.obj TelecomDataService.NetCounts)
  : list string :=
  JS.sortStrings (JS.keys data).

(** [years.map(y => data[y]['4G'] || 0)]: every [y] is a key of [data],
    and [n || 0] is [n] for a count [n]. *)
Definition coverage4G (data : JS.obj TelecomDataService.NetCounts)
  : list nat :=
  map (fun y =>
         match JS.get y data with
         | Some c => TelecomDataService.count4G c
         | None => 0
         end)
      (coverageYears data).

Definition coverage5G (data : JS.obj TelecomDataService.NetCounts)
  : list nat :=
  map (fun y =>
         match JS.get y data with
         | Some c => TelecomDataService.count5G c
         | None => 0
         end)
      (coverageYears data).

End AdminDashboardController.

(* ================================================================== *)
(** * [InsightsManager] *)
(* ================================================================== *)

Module InsightsManager.

(** [ToBoolean] of a property that may be absent. *)
Definition truthyValue (v : option JS.value) : bool :=
  match v with
  | Some (JS.Num x) => JS.truthy x
  | Some (JS.Str s) => negb (s =? "")
  | None => false
  end.

(** [parseFloat(v)]: a number is printed and read back, which returns
    it; [undefined] gives [NaN]. *)
Definition parseFloatOf (v : option JS.value) : float :=
  match v with
  | Some (JS.Num x) => x
  | Some (JS.Str s) => JS.parseFloat s
  | None => PrimFloat.nan
  end.

(** [a || b] on properties. *)
Definition either (a b : option JS.value) : option JS.value :=
  if truthyValue a then a else b.

(** [getLatencyStatus(latency_ms)]. *)
Definition getLatencyStatus (latency_ms : float) : string :=
  if (latency_ms <=? 50)%float then "good"
  else if (latency_ms <=? 100)%float then "average"
  else "bad".

(** The locals [down], [up] and [lat] of [renderInsights]. *)
Definition down (m : JS.obj JS.value) : float :=
  JS.orElse (parseFloatOf (JS.get "avgDownload" m)) 0.

Definition up (m : JS.obj JS.value) : float :=
  JS.orElse (parseFloatOf (JS.get "avgUpload" m)) 0.

Definition lat (m : JS.obj JS.value) : float :=
  JS.orElse
    (parseFloatOf (either (JS.get "avgLatency" m)
                          (JS.get "avgLatencyMs" m)))
    50.

(** The [item.trend] the "Operator Analysis" branch assigns. *)
Definition operatorTrend (down up lat : float) : string :=
  if (150 <? down)%float && (40 <? up)%float && (lat <? 40)%float
  then "stable"
  else if (down <? 100)%float && (up <? 30)%float && (60 <? lat)%float
  then "unstable"
  else "neutral".

(** The trend of the "Operator Analysis" card for the metrics [m]. *)
Definition operatorAnalysis (m : JS.obj JS.value) : string :=
  operatorTrend (down m) (up m) (lat m).

(** The [location] text of [renderInsights], from the [city] and [state]
    properties of the current filters. *)
Definition location (city state : option string) : string :=
  if JS.truthyStr city && JS.differs city "All" then JS.strOf city
  else if JS.truthyStr state && JS.differs state "All" then JS.strOf state
  else "your area".

(** The [item.trend] the "Latency Trends" / "Latency Analysis" branch
    assigns. *)
Definition latencyTrend (lat : float) : string :=
  let status := InsightsManager.getLatencyStatus lat in
  if status =? "good" then "up"
  else if status =? "average" then "neutral"
  else "down".

(** The [item.trend] of the "Speed Recommendation" branch. *)
Definition speedRecommendation (down : float) : string :=
  if (50 <? down)%float then "up" else "neutral".

(** [(quality, trend)] of the "Speed Overview" branch. *)
Definition speedOverview (down : float) : string * string :=
  if (100 <? down)%float then ("Excellent", "stable")
  else if (50 <? down)%float then ("Good", "up")
  else if (20 <? down)%float then ("Average", "neutral")
  else ("Poor", "down").

(** [getTrendIcon(trend)] and [getTrendText(trend)]. *)
Definition getTrendIcon (trend : string) : string :=
  if trend =? "up" then "bi-caret-up-fill"
  else if trend =? "down" then "bi-caret-down-fill"
  else if trend =? "neutral" then "bi-dash-lg"
  else if trend =? "new" then "bi-patch-check-fill"
  else if trend =? "stable" then "bi-check-circle-fill"
  else if trend =? "unstable" then "bi-exclamation-triangle-fill"
  else if trend =? "good" then "bi-check-circle-fill"
  else if trend =? "average" then "bi-info-circle-fill"
  else if trend =? "bad" then "bi-x-circle-fill"
  else "bi-info-circle".

Definition getTrendText (trend : string) : string :=
  if trend =? "up" then "Trending Up"
  else if trend =? "down" then "Trending Down"
  else if trend =? "neutral" then "Stable"
  else if trend =? "new" then "New Opportunity"
  else if trend =? "stable" then "Network Stable"
  else if trend =? "unstable" then "Network Unstable"
  else if trend =? "good" then "Latency: Good"
  else if trend =? "average" then "Latency: Average"
  else if trend =? "bad" then "Latency: Bad"
  else "Insight".

(** The trend [renderInsights] leaves on an item of the given category
    when metrics are at hand; [None] when the category has no branch that
    assigns one. *)
Definition dynamicTrend (category : string) (m : JS.obj JS.value)
  : option string :=
  let t0 : option string := None in
  let t3 :=
    if category =? "Operator Analysis"
    then Some (InsightsManager.operatorAnalysis m) else t0 in
  let t4 :=
    if (category =? "Latency Trends") || (category =? "Latency Analysis")
    then Some (latencyTrend (InsightsManager.lat m)) else t3 in
  let t5 :=
    if category =? "Speed Recommendation"
    then Some (speedRecommendation (InsightsManager.down m)) else t4 in
  if category =? "Speed Overview"
  then Some (snd (speedOverview (InsightsManager.down m))) else t5.

End InsightsManager.

(* ================================================================== *)
(** * [MapManager] *)
(* ================================================================== *)

Module MapManager.

(** [areaOperators] after the [forEach] of [updateMap]. *)
Definition areaOperators (filteredData : list Rec.t)
  : JS.obj (JS.obj Bucket) :=
  fold_left
    (fun acc record =>
       JS.upsert (Rec.area record) []
         (JS.upsert (JS.strOf (Rec.operator record)) (mkBucket 0 0)
            (addTo (JS.toNumber (Rec.confidence_score record))))
         acc)
    filteredData [].

(** One turn of the inner loop over [Object.keys(areaOperators[area])];
    the state is [(bestOp, bestScore)], [None] being [null]. *)
Definition betterOperator (ops : JS.obj Bucket)
    (best : option string * float) (op : string)
  : option string * float :=
  match JS.get op ops with
  | Some b =>
      let avg := average b in
      if (snd best <? avg)%float then (Some op, avg) else best
  | None => best
  end.

(** [bestOp] when the inner loop ends. *)
Definition bestOf (ops : JS.obj Bucket) : option string :=
  fst (fold_left (betterOperator ops) (JS.keys ops) (None, 0%float)).

(** [bestOperators] when the outer loop ends. *)
Definition bestOperators (filteredData : list Rec.t)
  : JS.obj (option string) :=
  let areas := areaOperators filteredData in
  fold_left
    (fun acc area =>
       match JS.get area areas with
       | Some ops => JS.set area (bestOf ops) acc
       | None => acc
       end)
    (JS.keys areas) [].

(** [bestOperators[item.area] || 'N/A'], the operator a marker shows, for
    an area that is not an inherited name. *)
Definition markerBestOperator (filteredData : list Rec.t) (area : string)
  : string :=
  match JS.get area (bestOperators filteredData) with
  | Some (Some op) => if op =? "" then "N/A" else op
  | _ => "N/A"
  end.

(** The per-operator buckets of a record list, as the inner objects of
    [areaOperators] are filled. *)
Definition operatorBuckets (records : list Rec.t) : JS.obj Bucket :=
  fold_left
    (fun acc record =>
       JS.upsert (JS.strOf (Rec.operator record)) (mkBucket 0 0)
         (addTo (JS.toNumber (Rec.confidence_score record))) acc)
    records [].

(** [getScoreColor(score)]. *)
Definition getScoreColor (score : option JS.value) : string :=
  let scoreNum := JS.parseFloatValue score in
  if (0.7 <=? scoreNum)%float then "#4CAF50"
  else if (0.5 <=? scoreNum)%float then "#FFC107"
  else if (0.3 <=? scoreNum)%float then "#FF9800"
  else "#F44336".

(** [getOperatorColor(operator)]: [colors[operator] || '#4A90E2'].  For a
    name inherited from [Object.prototype] the member is returned in the
    place of a colour: [None]. *)
Definition getOperatorColor (operator : string) : option string :=
  match JS.lookup operator
          [("Airtel", "#E63946"); ("Jio", "#0077B6"); ("VI", "#9B59B6")]
  with
  | JS.Own color => Some color
  | JS.Member => None
  | JS.Undefined => Some "#4A90E2"
  end.

(** What [updateMap] puts on the map for one area. *)
Record Marker : Type := mkMarker {
  position : float * float;
  scoreColor : string;
  scoreText : string;
  bestOp : string;
  opColor : option string;
  item : DataProcessor.MapItem
}.

(** The markers [updateMap()] adds: one for each item of [getMapData()]
    whose coordinates are numbers. *)
Definition markers (filteredData : list Rec.t) : list Marker :=
  flat_map
    (fun item =>
       let lat :=
         JS.parseFloatNumber
           (DataProcessor.lat (DataProcessor.group item)) in
       let lng :=
         JS.parseFloatNumber
           (DataProcessor.lng (DataProcessor.group item)) in
       if PrimFloat.is_nan lat || PrimFloat.is_nan lng then []
       else
         let avgScore := Some (JS.Str (DataProcessor.mi_avgScore item)) in
         let bestOp :=
           MapManager.markerBestOperator filteredData
             (DataProcessor.mg_area (DataProcessor.group item)) in
         [mkMarker (lat, lng) (getScoreColor avgScore)
                   (DataProcessor.getScoreLabel avgScore)
                   bestOp (getOperatorColor bestOp) item])
    (DataProcessor.getMapData filteredData).

End MapManager.

(* ================================================================== *)
(** * [TableManager] *)
(* ================================================================== *)

Module TableManager.

Import DataProcessor.

(** [this.currentSort] and [this.tableData]. *)
Record t : Type := mk {
  column : string;
  direction : string;
  tableData : list AreaSummary
}.

(** The state of the constructor. *)
Definition initial : t := mk "score" "desc" [].

(** The comparator of [applySorting]; [None] when [toLowerCase] is called
    on an absent operator. *)
Definition comparator (column : string) (multiplier : float)
    (a b : AreaSummary) : option float :=
  if column =? "area" then
    Some (multiplier
          * JS.localeCompare (JS.toLowerCase (as_area a))
                             (JS.toLowerCase (as_area b)))%float
  else if column =? "operator" then
    match as_operator a, as_operator b with
    | Some x, Some y =>
        Some (multiplier
              * JS.localeCompare (JS.toLowerCase x) (JS.toLowerCase y))%float
    | _, _ => None
    end
  else if column =? "download" then
    Some (multiplier
          * (JS.parseFloat (avgDownload a)
             - JS.parseFloat (avgDownload b)))%float
  else if column =? "upload" then
    Some (multiplier
          * (JS.parseFloat (avgUpload a) - JS.parseFloat (avgUpload b)))%float
  else if column =? "score" then
    Some (multiplier
          * (JS.parseFloat (avgScore a) - JS.parseFloat (avgScore b)))%float
  else Some 0%float.

Definition multiplier (direction : string) : float :=
  if direction =? "asc" then 1%float else (-1)%float.

(** [applySorting()]: sorts [tableData] in place. *)
Definition applySorting (tm : t) : option t :=
  option_map (mk (column tm) (direction tm))
    (JS.sortM (comparator (column tm) (multiplier (direction tm)))
              (tableData tm)).

(** [sortTable(column)]. *)
Definition sortTable (col : string) (tm : t) : option t :=
  applySorting
    (if column tm =? col
     then mk (column tm)
             (if direction tm =? "asc" then "desc" else "asc")
             (tableData tm)
     else mk col "desc" (tableData tm)).

(** [updateTable()] for a non-empty table: load the rows, then apply the
    current sort. *)
Definition updateTable (filteredData : list Rec.t) (tm : t) : option t :=
  applySorting
    (mk (column tm) (direction tm) (getAreaWiseData filteredData)).

(** The number the "score" comparator reads from a row. *)
Definition score (a : AreaSummary) : float := JS.parseFloat (avgScore a).

(** The class [getScoreIndicator(score)] gives the indicator. *)
Definition scoreClass (score : option JS.value) : string :=
  let scoreNum := JS.parseFloatValue score in
  if (0.7 <=? scoreNum)%float then "good"
  else if (0.5 <=? scoreNum)%float then "average"
  else "poor".

(** [getScoreIndicator(score)]. *)
Definition getScoreIndicator (score : option JS.value) : string :=
  "<span class=" ++ JS.quote ++ "score-indicator " ++ scoreClass score
  ++ JS.quote ++ ">" ++ DataProcessor.getScoreLabel score ++ "</span>".

(** The three averages of the totals row. *)
Record Totals : Type := mkTotals {
  tot_avgDownload : string;
  tot_avgUpload : string;
  tot_avgScore : string
}.

(** [calculateTotals()]. *)
Definition calculateTotals (tableData : list DataProcessor.AreaSummary)
  : Totals :=
  match tableData with
  | [] => mkTotals "0.00" "0.00" "0.00"
  | _ =>
      let n := JS.ofNat (List.length tableData) in
      let totalDownload :=
        sumOf (fun row => JS.parseFloat (DataProcessor.avgDownload row))
              tableData in
      let totalUpload :=
        sumOf (fun row => JS.parseFloat (DataProcessor.avgUpload row))
              tableData in
      let totalScore :=
        sumOf (fun row => JS.parseFloat (DataProcessor.avgScore row))
              tableData in
      mkTotals (JS.toFixed2 (totalDownload / n))
               (JS.toFixed2 (totalUpload / n))
               (JS.toFixed2 (totalScore / n))
  end.

End TableManager.

(* ================================================================== *)
(** * [DashboardController] (user dashboard) *)
(* ================================================================== *)

Module DashboardController.

(** A dropdown: the value it shows and the options after "All". *)
Record Select : Type := mkSelect {
  value : string;
  options : list string
}.

(** The data processor and the four filter dropdowns. *)
Record t : Type := mk {
  processor : DataProcessor.t;
  stateSelect : Select;
  citySelect : Select;
  areaSelect : Select;
  networkSelect : Select
}.

(** [populateDropdown(element, values, allLabel)]: the options are
    replaced, the previous value is restored if it still exists. *)
Definition populateDropdown (element : Select) (values : list string)
  : Select :=
  let currentValue := value element in
  mkSelect (if existsb (String.eqb currentValue) values
            then currentValue else "All")
           values.

(** [populateCityFilter()] and [populateAreaFilter()]. *)
Definition populateCityFilter (c : t) : t :=
  mk (processor c) (stateSelect c)
     (populateDropdown (citySelect c)
        (DataProcessor.getCitiesForState
           (DataProcessor.state (DataProcessor.filters (processor c)))
           (processor c)))
     (areaSelect c) (networkSelect c).

Definition populateAreaFilter (c : t) : t :=
  mk (processor c) (stateSelect c) (citySelect c)
     (populateDropdown (areaSelect c)
        (DataProcessor.getAreasForCity
           (DataProcessor.city (DataProcessor.filters (processor c)))
           (processor c)))
     (networkSelect c).

(** [initializeFilters()]: the state and the network dropdowns are
    populated; the other two are filled on the first change. *)
Definition initializeFilters (c : t) : t :=
  mk (processor c)
     (populateDropdown (stateSelect c)
        (DataProcessor.getUniqueValues Rec.state (processor c)))
     (citySelect c) (areaSelect c)
     (populateDropdown (networkSelect c)
        (DataProcessor.getUniqueValues Rec.network_type (processor c))).

(** The user picks [v] in a dropdown. *)
Definition pick (v : string) (element : Select) : Select :=
  mkSelect v (options element).

(** The four [change] listeners, up to [updateDashboard()]. *)
Definition onStateChange (v : string) (c : t) : t :=
  populateCityFilter
    (mk (DataProcessor.updateFilter "state" v (processor c))
        (pick v (stateSelect c)) (citySelect c) (areaSelect c)
        (networkSelect c)).

Definition onCityChange (v : string) (c : t) : t :=
  populateAreaFilter
    (mk (DataProcessor.updateFilter "city" v (processor c))
        (stateSelect c) (pick v (citySelect c)) (areaSelect c)
        (networkSelect c)).

Definition onAreaChange (v : string) (c : t) : t :=
  mk (DataProcessor.updateFilter "area" v (processor c))
     (stateSelect c) (citySelect c) (pick v (areaSelect c))
     (networkSelect c).

Definition onNetworkChange (v : string) (c : t) : t :=
  mk (DataProcessor.updateFilter "network" v (processor c))
     (stateSelect c) (citySelect c) (areaSelect c)
     (pick v (networkSelect c)).

(** [resetFilters()], up to [updateDashboard()]. *)
Definition resetFilters (c : t) : t :=
  let dp := processor c in
  let c :=
    mk (DataProcessor.mk (DataProcessor.rawData dp)
                         (DataProcessor.filteredData dp)
                         (DataProcessor.mkFilters "All" "All" "All" "All"
                                                  "All"))
       (pick "All" (stateSelect c)) (pick "All" (citySelect c))
       (pick "All" (areaSelect c)) (pick "All" (networkSelect c)) in
  let c := populateAreaFilter (populateCityFilter c) in
  mk (DataProcessor.applyFilters (processor c))
     (stateSelect c) (citySelect c) (areaSelect c) (networkSelect c).

End DashboardController.

(* ================================================================== *)
(** * The login, sign-up and guard script *)
(* ================================================================== *)

Module Auth.

(** [localStorage]. *)
Definition Storage := JS.obj string.

(** What a handler does to the page besides writing to the storage. *)
Inductive Effect : Type :=
| Alert (message : string)
| Redirect (href : string).

(** The characters of the class the third test of [validatePassword]
    looks for, the double quote among them. *)
Definition specialChars : string :=
  "!@#$%^&*(),.?" ++ JS.quote ++ ":{}|<>".

Fixpoint anyChar (p : ascii -> bool) (s : string) : bool :=
  match s with
  | EmptyString => false
  | String c s' => p c || anyChar p s'
  end.

Definition between (lo hi : N) (c : ascii) : bool :=
  ((lo <=? N_of_ascii c) && (N_of_ascii c <=? hi))%N.

(** [validatePassword(password)]. *)
Definition validatePassword (password : string) : bool :=
  let hasUpperCase := anyChar (between 65 90) password in
  let hasNumber := anyChar (between 48 57) password in
  let hasSpecialChar :=
    anyChar (fun c => anyChar (Ascii.eqb c) specialChars) password in
  hasUpperCase && hasNumber && hasSpecialChar.

Definition policyMessage : string :=
  "Password must contain at least one uppercase letter, "
  ++ "one special character, and one number.".

(** [getItem(k) === 'true']. *)
Definition flag (k : string) (ls : Storage) : bool :=
  match JS.get k ls with
  | Some v => v =? "true"
  | None => false
  end.

(** [email === getItem(k)]: [null] equals no string. *)
Definition stored (k : string) (v : string) (ls : Storage) : bool :=
  match JS.get k ls with
  | Some x => v =? x
  | None => false
  end.

(** [setItem(k, getItem(k'))]: [null] is stored as the text "null". *)
Definition orNull (v : option string) : string :=
  match v with
  | Some x => x
  | None => "null"
  end.

(** The [submit] listener of the login form. *)
Definition login (email password : string) (ls : Storage)
  : Storage * list Effect :=
  if (email =? "admin@gmail.com") && (password =? "admin123") then
    (JS.set "userEmail" email
       (JS.set "userName" "admin"
          (JS.set "userRole" "admin"
             (JS.set "adminLoggedIn" "true" ls))),
     [Redirect "dashboards/admin-dashboard.html"])
  else if negb (validatePassword password) then
    (ls, [Alert policyMessage])
  else if stored "registeredEmail" email ls
          && stored "registeredPassword" password ls then
    (JS.set "userEmail" (orNull (JS.get "registeredEmail" ls))
       (JS.set "userName" (orNull (JS.get "registeredName" ls))
          (JS.set "userRole" "user"
             (JS.set "userLoggedIn" "true" ls))),
     [Redirect "dashboards/user-dashboard.html"])
  else (ls, [Alert "invalid email and password"]).

(** The [submit] listener of the sign-up form. *)
Definition signup (name email password : string) (ls : Storage)
  : Storage * list Effect :=
  if negb (name =? "") && negb (email =? "") && negb (password =? "") then
    if negb (validatePassword password) then (ls, [Alert policyMessage])
    else
      (JS.set "registeredPassword" password
         (JS.set "registeredEmail" email
            (JS.set "registeredName" name ls)),
       [Alert "Registration successful! Please login.";
        Redirect "login.html"])
  else (ls, [Alert "Please fill in all fields"]).

(** [isLoggedIn] of the guards. *)
Definition isLoggedIn (ls : Storage) : bool :=
  flag "userLoggedIn" ls || flag "adminLoggedIn" ls.

(** The two guards run when a page has loaded: where they send the
    browser, if anywhere. *)
Definition guard (pathname : string) (ls : Storage) : option string :=
  let isDashboard := JS.includes "dashboard.html" pathname in
  let isAuthPage :=
    JS.includes "login.html" pathname
    || JS.includes "signup.html" pathname in
  let href1 :=
    if isDashboard && negb (isLoggedIn ls)
    then Some ((if JS.includes "/dashboards/" pathname then "../" else "")
               ++ "login.html")
    else None in
  if isAuthPage && isLoggedIn ls
  then Some (if flag "adminLoggedIn" ls
             then "dashboards/admin-dashboard.html"
             else "dashboards/user-dashboard.html")
  else href1.

(** [auth.logout()]. *)
Definition logout (pathname : string) (ls : Storage)
  : Storage * list Effect :=
  (JS.remove "userEmail"
     (JS.remove "userName"
        (JS.remove "userRole"
           (JS.remove "adminLoggedIn"
              (JS.remove "userLoggedIn" ls)))),
   [Redirect ((if JS.includes "/dashboards/" pathname then "../" else "")
              ++ "index.html")]).

(** [DashboardController.logout()]. *)
Definition dashboardLogout (ls : Storage) : Storage * list Effect :=
  (JS.remove "userLoggedIn" ls, [Redirect "../index.html"]).

End Auth.

(* ================================================================== *)
(** * Sample data *)
(* ================================================================== *)

Module Sample.

(** An observation with the given place, operator, network type and
    confidence score; the other measures are fixed. *)
Definition obs (area : string) (operator : option string)
    (network_type : string) (score : JS.field) : Rec.t :=
  Rec.mk "Karnataka" "Bengaluru" area operator network_type
         2023 1 10 0 (Some 40%float) (Some 10%float) (Some 30%float)
         score 12.5%float 77.5%float.

Definition jio : Rec.t := obs "Indiranagar" (Some "Jio") "4G" (Some 0.5%float).
Definition jioUpper : Rec.t :=
  obs "Indiranagar" (Some "JIO") "5G" (Some 0.75%float).
Definition airtel : Rec.t :=
  obs "Whitefield" (Some "Airtel") "5G" (Some 0.25%float).
Definition legacy : Rec.t :=
  obs "Whitefield" (Some "Airtel") "3G" (Some 0.25%float).
Definition unscored : Rec.t := obs "Whitefield" (Some "Airtel") "4G" None.
Definition unrated : Rec.t :=
  obs "Whitefield" (Some "VI") "4G" (Some 0%float).

(** A fast connection whose latency was measured as 0 ms, and the metrics
    of a selection made of this one record. *)
Definition instant : Rec.t :=
  Rec.mk "Karnataka" "Bengaluru" "Hebbal" (Some "Jio") "5G"
         2023 1 10 0 (Some 200%float) (Some 50%float) (Some 0%float)
         (Some 0.75%float) 12.5%float 77.5%float.

Definition instantMetrics : JS.obj JS.value :=
  [ ("avgDownload", JS.Str "200.00"); ("avgUpload", JS.Str "50.00");
    ("avgLatency", JS.Str "0.00"); ("avgNetworkScore", JS.Str "0.75");
    ("totalRecords", JS.Num 1) ].

(** A selection of four records: two spellings of one operator in one
    area, and two operators in another, one of them rated 0. *)
Definition selection : list Rec.t := [jio; jioUpper; airtel; unrated].

(** Rows of the area-wise table with three different scores. *)
Definition rows : list DataProcessor.AreaSummary :=
  [ DataProcessor.mkAreaSummary "Indiranagar" (Some "Jio")
                                "40.00" "10.00" "0.50";
    DataProcessor.mkAreaSummary "Whitefield" (Some "Airtel")
                                "55.25" "12.00" "0.75";
    DataProcessor.mkAreaSummary "Hebbal" (Some "VI")
                                "31.50" "9.50" "0.25" ].

(** An observation of February. *)
Definition february : Rec.t :=
  Rec.mk "Karnataka" "Bengaluru" "Hebbal" (Some "Jio") "5G"
         2023 2 10 0 (Some 200%float) (Some 50%float) (Some 20%float)
         (Some 0.75%float) 12.5%float 77.5%float.

End Sample.

(* ================================================================== *)
(** * The properties, in the words of the specification *)
(* ================================================================== *)

Module IEEE.

(** A number that is finite and not zero, or infinite, with the sign [s]
    ([true] for negative). *)
Definition signed (s : bool) (f : spec_float) : Prop :=
  match f with
  | S754_finite s' _ _ | S754_infinity s' => s' = s
  | _ => False
  end.

End IEEE.

Module Spec.

(** A snapshot "with all numeric fields 0 and [bestOperator = "N/A"]":
    average download, upload, latency and score, and the record count. *)
Definition zeroSnapshot (s : JS.obj JS.value) : Prop :=
  JS.get "avgDownload" s = Some (JS.Num 0)
  /\ JS.get "avgUpload" s = Some (JS.Num 0)
  /\ JS.get "avgLatency" s = Some (JS.Num 0)
  /\ JS.get "avgScore" s = Some (JS.Num 0)
  /\ JS.get "totalRecords" s = Some (JS.Num 0)
  /\ JS.get "bestOperator" s = Some (JS.Str "N/A").

(** A record satisfies a filter state when, for each dimension whose
    selected value is not ["All"], its field equals the selected value. *)
Definition satisfies (f : DataProcessor.Filters) (r : Rec.t) : Prop :=
  (DataProcessor.state f <> "All"
   -> Rec.state r = DataProcessor.state f)
  /\ (DataProcessor.city f <> "All"
      -> Rec.city r = DataProcessor.city f)
  /\ (DataProcessor.area f <> "All"
      -> Rec.area r = DataProcessor.area f)
  /\ (DataProcessor.network f <> "All"
      -> Rec.network_type r = DataProcessor.network f)
  /\ (DataProcessor.operator f <> "All"
      -> Rec.operator r = Some (DataProcessor.operator f)).

(** The same selection as a test: every dimension is ["All"] or matched. *)
Definition selects (f : DataProcessor.Filters) (r : Rec.t) : bool :=
  ((DataProcessor.state f =? "All")
   || (Rec.state r =? DataProcessor.state f))
  && ((DataProcessor.city f =? "All")
      || (Rec.city r =? DataProcessor.city f))
  && ((DataProcessor.area f =? "All")
      || (Rec.area r =? DataProcessor.area f))
  && ((DataProcessor.network f =? "All")
      || (Rec.network_type r =? DataProcessor.network f))
  && ((DataProcessor.operator f =? "All")
      || match Rec.operator r with
         | Some op => op =? DataProcessor.operator f
         | None => false
         end).

(** The three conditions of the operator-stability classification. *)
Definition stable (download upload latency : float) : Prop :=
  (150 <? download)%float = true /\ (40 <? upload)%float = true
  /\ (latency <? 40)%float = true.

Definition unstable (download upload latency : float) : Prop :=
  (download <? 100)%float = true /\ (upload <? 30)%float = true
  /\ (60 <? latency)%float = true.

(** A trend is the one the three conditions give for the three values. *)
Definition classifies (trend : string) (download upload latency : float)
  : Prop :=
  (trend = "stable" <-> stable download upload latency)
  /\ (trend = "unstable" <-> unstable download upload latency)
  /\ (trend = "neutral"
      <-> ~ stable download upload latency
          /\ ~ unstable download upload latency).

(** The download, upload and latency values of a metrics snapshot, and the
    classification of the snapshot by these values. *)
Definition downloadOf (m : JS.obj JS.value) : float :=
  InsightsManager.parseFloatOf (JS.get "avgDownload" m).

Definition uploadOf (m : JS.obj JS.value) : float :=
  InsightsManager.parseFloatOf (JS.get "avgUpload" m).

Definition latencyOf (m : JS.obj JS.value) : float :=
  InsightsManager.parseFloatOf
    (InsightsManager.either (JS.get "avgLatency" m)
                            (JS.get "avgLatencyMs" m)).

Definition classifiedByValues (m : JS.obj JS.value) : Prop :=
  classifies (InsightsManager.operatorAnalysis m)
             (downloadOf m) (uploadOf m) (latencyOf m).

(** The rule of the admin-side filter.  A record satisfies the filters
    when its field equals the selection for each of the four dimensions
    state, city, operator and network type whose selection is neither
    empty nor ["All"], its year is one of the selected years unless none
    is selected, and its month is the selected month unless that is 0. *)
Definition adminSatisfies (f : TelecomDataService.Filters) (r : Rec.t)
  : Prop :=
  (TelecomDataService.state f <> "" ->
   TelecomDataService.state f <> "All" ->
   Rec.state r = TelecomDataService.state f)
  /\ (TelecomDataService.city f <> "" ->
      TelecomDataService.city f <> "All" ->
      Rec.city r = TelecomDataService.city f)
  /\ (TelecomDataService.operator f <> "" ->
      TelecomDataService.operator f <> "All" ->
      Rec.operator r = Some (TelecomDataService.operator f))
  /\ (TelecomDataService.network_type f <> "" ->
      TelecomDataService.network_type f <> "All" ->
      Rec.network_type r = TelecomDataService.network_type f)
  /\ (TelecomDataService.years f <> [] ->
      In (Rec.year r) (TelecomDataService.years f))
  /\ (TelecomDataService.month_start f <> 0%Z ->
      Rec.month r = TelecomDataService.month_start f).

(** The same rule as a test. *)
Definition adminSelects (f : TelecomDataService.Filters) (r : Rec.t)
  : bool :=
  let free selection := (selection =? "") || (selection =? "All") in
  (free (TelecomDataService.state f)
   || (Rec.state r =? TelecomDataService.state f))
  && (free (TelecomDataService.city f)
      || (Rec.city r =? TelecomDataService.city f))
  && (free (TelecomDataService.operator f)
      || match Rec.operator r with
         | Some op => op =? TelecomDataService.operator f
         | None => false
         end)
  && (free (TelecomDataService.network_type f)
      || (Rec.network_type r =? TelecomDataService.network_type f))
  && (match TelecomDataService.years f with
      | [] => true
      | years => existsb (Z.eqb (Rec.year r)) years
      end)
  && ((TelecomDataService.month_start f =? 0)%Z
      || (Rec.month r =? TelecomDataService.month_start f)%Z).

End Spec.

Module Counts.

(** The bucket counts of a grouping, summed over all its buckets. *)
Definition countSum {V} (cnt : V -> nat) (o : JS.obj V) : nat :=
  list_sum (map cnt (JS.values o)).

Definition peakRecords (b : TelecomDataService.PeakBucket) : nat :=
  TelecomDataService.peakCount b + TelecomDataService.nonPeakCount b.

Definition netRecords (b : TelecomDataService.NetBuckets) : nat :=
  count (TelecomDataService.lat4G b) + count (TelecomDataService.lat5G b).

Definition coverageRecords (c : TelecomDataService.NetCounts) : nat :=
  TelecomDataService.count4G c + TelecomDataService.count5G c.

(** "Bucket counts sum to [len(records)]" for each of the six groupings of
    [getChartData]: operator x peak flag, city x network type, year x
    network type, year x operator, year x peak flag, operator score. *)
Definition addUpTo (d : TelecomDataService.ChartData) (n : nat) : Prop :=
  countSum peakRecords (TelecomDataService.downloadByOpPeak d) = n
  /\ countSum netRecords (TelecomDataService.latencyByCityNet d) = n
  /\ countSum coverageRecords (TelecomDataService.coverageGrowth d) = n
  /\ countSum (countSum count) (TelecomDataService.downloadByYearOp d) = n
  /\ countSum peakRecords (TelecomDataService.latencyByYearPeak d) = n
  /\ countSum count (TelecomDataService.scoreByOp d) = n.

(** The network types the two network groupings have a bucket for. *)
Definition tracked (r : Rec.t) : bool :=
  (Rec.network_type r =? "4G") || (Rec.network_type r =? "5G").

End Counts.

Module Ranking.

(** The average of a group entry. *)
Definition avg (e : string * Bucket) : float := average (snd e).

(** No entry has an average above the initial threshold 0. *)
Definition nonePositive (l : list (string * Bucket)) : Prop :=
  Forall (fun e => (0 <? avg e)%float = false) l.

(** [k] is the key of the first entry, in the order of [l], whose average
    no other entry exceeds, and that average is above the threshold 0:
    every entry before it is strictly smaller (or not a number), no entry
    after it is strictly greater. *)
Definition firstGreatest (l : list (string * Bucket)) (k : string) : Prop :=
  exists l1 b l2,
    l = (l1 ++ (k, b) :: l2)%list
    /\ (0 <? average b)%float = true
    /\ Forall (fun e => (average b <=? avg e)%float = false) l1
    /\ Forall (fun e => (average b <? avg e)%float = false) l2.

(** The normalized operator name of a record: the name of its operator in
    upper case, and "UNKNOWN" for a record without operator (an empty
    name counts as none). *)
Definition operatorName (r : Rec.t) : string :=
  match Rec.operator r with
  | Some name => if name =? "" then "UNKNOWN" else JS.toUpperCase name
  | None => "UNKNOWN"
  end.

(** The records of the operator named [k], and the operator's average
    confidence score (a missing or zero score counting as 0), summed in
    the order of the records. *)
Definition recordsOf (k : string) (records : list Rec.t) : list Rec.t :=
  filter (fun r => operatorName r =? k) records.

Definition operatorAverage (records : list Rec.t) (k : string) : float :=
  (sumOf (fun r => JS.orZero (Rec.confidence_score r)) (recordsOf k records)
   / JS.ofNat (List.length (recordsOf k records)))%float.

(** [k] is the normalized name of an operator of the records. *)
Definition isOperator (records : list Rec.t) (k : string) : Prop :=
  exists r, In r records /\ operatorName r = k.

(** The records of an area. *)
Definition inArea (area : string) (records : list Rec.t) : list Rec.t :=
  filter (fun r => Rec.area r =? area) records.

End Ranking.

Module Grouping.

(** The grouping loop of the sources, over any key and bucket. *)
Definition group {A V} (key : A -> string) (init : A -> V)
    (step : A -> V -> V) (l : list A) (o : JS.obj V) : JS.obj V :=
  fold_left (fun acc a => JS.upsert (key a) (init a) (step a) acc) l o.

(** What the loop does to the bucket of the key [k]. *)
Definition feed {A V} (key : A -> string) (init : A -> V)
    (step : A -> V -> V) (k : string) (l : list A) (v : option V)
  : option V :=
  fold_left
    (fun v a =>
       if key a =? k
       then Some (step a (match v with Some x => x | None => init a end))
       else v)
    l v.

End Grouping.

Module Casing.

(** Two operator names that differ only in letter case. *)
Definition differInCaseOnly (s1 s2 : string) : Prop :=
  s1 <> s2 /\ JS.toUpperCase s1 = JS.toUpperCase s2.

(** An upper-case string: upper-casing leaves it as it is. *)
Definition isUpperCase (s : string) : Prop := JS.toUpperCase s = s.

(** The key a row of the area-wise table was grouped under. *)
Definition rowKey (row : DataProcessor.AreaSummary) : string :=
  DataProcessor.as_area row ++ "_"
  ++ JS.strOf (DataProcessor.as_operator row).

End Casing.

Module Sorting.

Import DataProcessor.

(** Two rows whose scores are numbers, one strictly above the other. *)
Definition apart (a b : AreaSummary) : bool :=
  (TableManager.score a <? TableManager.score b)%float
  || (TableManager.score b <? TableManager.score a)%float.

(** Of any two rows one scores strictly above the other: the scores are
    numbers, no two of them equal. *)
Fixpoint distinctScores (rows : list AreaSummary) : bool :=
  match rows with
  | [] => true
  | a :: rows' => forallb (apart a) rows' && distinctScores rows'
  end.

(** The rows are in strictly descending order of score. *)
Inductive descending : list AreaSummary -> Prop :=
| descending_nil : descending []
| descending_cons (x : AreaSummary) (l : list AreaSummary) :
    (forall y, In y l ->
               (TableManager.score y <? TableManager.score x)%float = true) ->
    descending l -> descending (x :: l).

(** The rows after [applySorting] on the score column in a direction. *)
Definition byScore (direction : string) (rows : list AreaSummary)
  : option (list AreaSummary) :=
  option_map TableManager.tableData
    (TableManager.applySorting (TableManager.mk "score" direction rows)).

(** The rows after a click on the header of the score column. *)
Definition afterClick (direction : string) (rows : list AreaSummary)
  : option (list AreaSummary) :=
  option_map TableManager.tableData
    (TableManager.sortTable "score"
       (TableManager.mk "score" direction rows)).

(** No two rows have the same score. *)
Definition differentScores (rows : list DataProcessor.AreaSummary) : Prop :=
  ForallOrdPairs
    (fun a b =>
       (TableManager.score a =? TableManager.score b)%float = false)
    rows.

End Sorting.

Module Names.

(** The text the operator of a record is used as where it names a
    property: "undefined" for a record without operator. *)
Definition operatorText (r : Rec.t) : string := JS.strOf (Rec.operator r).

(** No record gives, for the key [key], a name that objects inherit from
    [Object.prototype]. *)
Definition own (key : Rec.t -> string) (records : list Rec.t) : Prop :=
  Forall (fun r => JS.isInherited (key r) = false) records.

End Names.

Module Listing.

(** Strings in strictly ascending order of their code units, and integers
    in strictly ascending order: sorted, and without repetition. *)
Definition before (a b : string) : Prop := String.ltb a b = true.

Definition ascending (l : list string) : Prop := StronglySorted before l.

Definition ascendingZ (l : list Z) : Prop := StronglySorted Z.lt l.

(** The integers a number holds exactly. *)
Definition safeInteger (z : Z) : Prop := (- 2 ^ 53 < z < 2 ^ 53)%Z.

End Listing.

Module Charted.

(** The records behind one point of a chart of [DataProcessor]: those of
    the selection that the test of the label holds of and whose
    normalized operator name is [op]. *)
Definition records (test : Rec.t -> bool) (op : string)
    (filteredData : list Rec.t) : list Rec.t :=
  filter (fun r => test r && (Ranking.operatorName r =? op))
         filteredData.

(** The point itself: the number 0 when there is no such record, else the
    average of the measure over them, summed in their order, as text with
    two decimals. *)
Definition point (measure : Rec.t -> JS.field) (l : list Rec.t)
  : JS.value :=
  match l with
  | [] => JS.Num 0
  | _ =>
      JS.Str (JS.toFixed2
                (sumOf (fun r => JS.toNumber (measure r)) l
                 / JS.ofNat (List.length l)))
  end.

(** The data of the line of [op] over the labels. *)
Definition line {L} (labels : list L) (test : L -> Rec.t -> bool)
    (measure : Rec.t -> JS.field) (filteredData : list Rec.t)
    (op : string) : list JS.value :=
  map (fun label => point measure (records (test label) op filteredData))
      labels.

End Charted.

Module Tabled.

(** Every row has a score that is a number. *)
Definition numericScores (rows : list DataProcessor.AreaSummary) : Prop :=
  Forall (fun row => PrimFloat.is_nan (TableManager.score row) = false)
         rows.

(** Best first: no row scores higher than a row listed before it. *)
Definition bestFirst (rows : list DataProcessor.AreaSummary) : Prop :=
  StronglySorted
    (fun a b =>
       (TableManager.score b <=? TableManager.score a)%float = true)
    rows.

(** The columns [applySorting] knows. *)
Definition sortable (column : string) : bool :=
  (column =? "area") || (column =? "operator") || (column =? "download")
  || (column =? "upload") || (column =? "score").

End Tabled.

Module Session.


(** What the user does with the four dropdowns of the user dashboard. *)
Inductive Pick : Type :=
| State (v : string)
| City (v : string)
| Area (v : string)
| Network (v : string).

(** The listener a pick triggers. *)
Definition handle (c : DashboardController.t) (p : Pick)
  : DashboardController.t :=
  match p with
  | State v => DashboardController.onStateChange v c
  | City v => DashboardController.onCityChange v c
  | Area v => DashboardController.onAreaChange v c
  | Network v => DashboardController.onNetworkChange v c
  end.

(** A sequence of picks. *)
Definition run (picks : list Pick) (c : DashboardController.t)
  : DashboardController.t :=
  fold_left handle picks c.

End Session.

(* ================================================================== *)
(** * Order of the numbers *)
(* ================================================================== *)

Section FloatOrder.

Local Ltac cmp_cases :=
  repeat match goal with
  | |- context [Z.compare ?a ?b] =>
      destruct (Z.compare_spec a b); subst
  | H : context [Z.compare ?a ?b] |- _ =>
      destruct (Z.compare_spec a b); subst
  | |- context [Pos.compare_cont Eq ?a ?b] =>
      change (Pos.compare_cont Eq a b) with (Pos.compare a b);
      destruct (Pos.compare_spec a b); subst
  | H : context [Pos.compare_cont Eq ?a ?b] |- _ =>
      change (Pos.compare_cont Eq a b) with (Pos.compare a b) in H;
      destruct (Pos.compare_spec a b); subst
  end.

Local Ltac sf_order :=
  intros;
  repeat match goal with
  | x : spec_float |- _ => destruct x
  | b : bool |- _ => destruct b
  end;
  simpl in *; try congruence;
  cmp_cases; simpl in *; try congruence; try lia.

Lemma SFcompare_Lt_trans (a b c : spec_float) :
  SFcompare a b = Some Lt -> SFcompare b c = Some Lt ->
  SFcompare a c = Some Lt.
Proof. sf_order. Qed.

Lemma SFcompare_Lt_Eq_trans (a b c : spec_float) :
  SFcompare a b = Some Lt -> SFcompare b c = Some Eq ->
  SFcompare a c = Some Lt.
Proof. sf_order. Qed.

Lemma SFcompare_Lt_Gt (a b : spec_float) :
  SFcompare a b = Some Lt -> SFcompare b a = Some Gt.
Proof. sf_order. Qed.

Local Ltac to_spec :=
  rewrite ?ltb_spec, ?leb_spec, ?eqb_spec in *;
  unfold SFltb, SFleb, SFeqb in *.

Lemma ltb_trans (a b c : float) :
  (a <? b)%float = true -> (b <? c)%float = true -> (a <? c)%float = true.
Proof.
  to_spec. intros Hab Hbc.
  destruct (SFcompare (Prim2SF a) (Prim2SF b)) as [[]|] eqn:E1;
    try discriminate.
  destruct (SFcompare (Prim2SF b) (Prim2SF c)) as [[]|] eqn:E2;
    try discriminate.
  now rewrite (SFcompare_Lt_trans _ _ _ E1 E2).
Qed.

Lemma ltb_leb_trans (a b c : float) :
  (a <? b)%float = true -> (b <=? c)%float = true -> (a <? c)%float = true.
Proof.
  to_spec. intros Hab Hbc.
  destruct (SFcompare (Prim2SF a) (Prim2SF b)) as [[]|] eqn:E1;
    try discriminate.
  destruct (SFcompare (Prim2SF b) (Prim2SF c)) as [[]|] eqn:E2;
    try discriminate.
  - now rewrite (SFcompare_Lt_Eq_trans _ _ _ E1 E2).
  - now rewrite (SFcompare_Lt_trans _ _ _ E1 E2).
Qed.

Lemma ltb_leb (a b : float) :
  (a <? b)%float = true -> (a <=? b)%float = true.
Proof.
  to_spec.
  now destruct (SFcompare (Prim2SF a) (Prim2SF b)) as [[]|].
Qed.

Lemma ltb_not_leb (a b : float) :
  (a <? b)%float = true -> (b <=? a)%float = false.
Proof.
  to_spec. intros Hab.
  destruct (SFcompare (Prim2SF a) (Prim2SF b)) as [[]|] eqn:E1;
    try discriminate.
  now rewrite (SFcompare_Lt_Gt _ _ E1).
Qed.

Lemma ltb_asym (a b : float) :
  (a <? b)%float = true -> (b <? a)%float = false.
Proof.
  to_spec. intros Hab.
  destruct (SFcompare (Prim2SF a) (Prim2SF b)) as [[]|] eqn:E1;
    try discriminate.
  now rewrite (SFcompare_Lt_Gt _ _ E1).
Qed.

Lemma ltb_irrefl (a : float) : (a <? a)%float = false.
Proof.
  destruct (a <? a)%float eqn:E; [|reflexivity].
  now rewrite (ltb_asym _ _ E) in E.
Qed.

(** Equal numbers compare alike with a third one. *)
Lemma eqb_ltb_r (a b c : float) :
  (a =? b)%float = true -> (c <? b)%float = (c <? a)%float.
Proof.
  to_spec. intros Hab.
  destruct (Prim2SF a) as [[]|[]| |[] ? ?], (Prim2SF b) as [[]|[]| |[] ? ?];
    simpl in Hab; try discriminate;
    destruct (Prim2SF c) as [[]|[]| |[] ? ?]; simpl; try reflexivity;
    revert Hab; cmp_cases; simpl; try congruence; try lia;
    cmp_cases; simpl; congruence || lia.
Qed.

Lemma eqb_ltb_l (a b c : float) :
  (a =? b)%float = true -> (b <? c)%float = (a <? c)%float.
Proof.
  to_spec. intros Hab.
  destruct (Prim2SF a) as [[]|[]| |[] ? ?], (Prim2SF b) as [[]|[]| |[] ? ?];
    simpl in Hab; try discriminate;
    destruct (Prim2SF c) as [[]|[]| |[] ? ?]; simpl; try reflexivity;
    revert Hab; cmp_cases; simpl; try congruence; try lia;
    cmp_cases; simpl; congruence || lia.
Qed.

End FloatOrder.

(* ================================================================== *)
(** * Signs of differences and of products by 1 and -1 *)
(* ================================================================== *)

Section FloatSigns.

Local Open Scope Z_scope.

Lemma digits2_pos_bounds (m : positive) :
  2 ^ (Zpos (digits2_pos m) - 1) <= Zpos m < 2 ^ Zpos (digits2_pos m).
Proof.
  induction m as [m IH|m IH|]; cbn [digits2_pos].
  - rewrite Pos2Z.inj_succ.
    replace (Z.succ (Zpos (digits2_pos m)) - 1) with (Z.succ (Zpos (digits2_pos m) - 1)) by lia.
    rewrite !Z.pow_succ_r by lia. lia.
  - rewrite Pos2Z.inj_succ.
    replace (Z.succ (Zpos (digits2_pos m)) - 1) with (Z.succ (Zpos (digits2_pos m) - 1)) by lia.
    rewrite !Z.pow_succ_r by lia. lia.
  - simpl. lia.
Qed.

Lemma shr_m_shr_1 (mrs : shr_record) :
  0 <= shr_m mrs -> shr_m (shr_1 mrs) = shr_m mrs / 2.
Proof.
  destruct mrs as [m r s]. simpl. intros Hm.
  destruct m as [|[p|p|]|p]; simpl; try reflexivity; try lia.
  - rewrite Pos2Z.inj_xI.
    apply Z.div_unique with (r := 1); lia.
  - rewrite Pos2Z.inj_xO.
    apply Z.div_unique with (r := 0); lia.
Qed.

Lemma shr_m_iter (p : positive) (mrs : shr_record) :
  0 <= shr_m mrs ->
  shr_m (iter_pos shr_1 p mrs) = shr_m mrs / 2 ^ Zpos p.
Proof.
  assert (Hpow : forall q : positive, 0 < 2 ^ Zpos q)
    by (intros q; apply Z.pow_pos_nonneg; lia).
  revert mrs. induction p as [p IH|p IH|]; intros mrs Hm; cbn [iter_pos].
  - assert (H1 : 0 <= shr_m (shr_1 mrs)).
    { rewrite shr_m_shr_1 by assumption. apply Z.div_pos; lia. }
    assert (H2 : 0 <= shr_m (iter_pos shr_1 p (shr_1 mrs))).
    { rewrite IH by assumption. apply Z.div_pos; [assumption|apply Hpow]. }
    rewrite IH, IH, shr_m_shr_1 by assumption.
    pose proof (Hpow p).
    rewrite !Z.div_div by lia.
    f_equal.
    replace (Zpos p~1) with (1 + Zpos p + Zpos p) by lia.
    rewrite !Z.pow_add_r by lia. lia.
  - assert (H2 : 0 <= shr_m (iter_pos shr_1 p mrs)).
    { rewrite IH by assumption. apply Z.div_pos; [assumption|apply Hpow]. }
    rewrite IH, IH by assumption.
    pose proof (Hpow p).
    rewrite !Z.div_div by lia.
    f_equal.
    replace (Zpos p~0) with (Zpos p + Zpos p) by lia.
    rewrite !Z.pow_add_r by lia. lia.
  - rewrite shr_m_shr_1 by assumption. reflexivity.
Qed.

(** Shifting out fewer bits than the number has leaves a positive number. *)
Lemma shift_positive (m p : positive) :
  Zpos p < Zpos (digits2_pos m) -> 0 < Zpos m / 2 ^ Zpos p.
Proof.
  intros Hp. pose proof (digits2_pos_bounds m) as [Hlo _].
  apply Z.div_str_pos. split; [apply Z.pow_pos_nonneg; lia|].
  apply Z.le_trans with (2 ^ (Zpos (digits2_pos m) - 1)); [|assumption].
  apply Z.pow_le_mono_r; lia.
Qed.

Lemma shr_positive (mrs : shr_record) (e n : Z) :
  0 < shr_m mrs -> n < Zdigits2 (shr_m mrs) ->
  0 < shr_m (fst (shr mrs e n)).
Proof.
  intros Hm Hn. unfold shr. destruct n as [|p|p]; simpl; try assumption.
  rewrite shr_m_iter by lia.
  destruct (shr_m mrs) as [|m|m]; try lia.
  now apply shift_positive.
Qed.

Lemma round_nearest_even_ge (m : Z) (l : location) :
  m <= round_nearest_even m l.
Proof.
  destruct l as [|[]]; simpl; try lia. destruct (Z.even m); lia.
Qed.

(** Rounding a number that is at least the smallest subnormal gives a
    finite number or an infinity, of the same sign. *)
Lemma binary_round_aux_signed (s : bool) (m : positive) (e : Z) :
  emin < Zpos (digits2_pos m) + e ->
  IEEE.signed s (binary_round_aux prec emax s (Zpos m) e loc_Exact).
Proof.
  intros He. unfold binary_round_aux, shr_fexp.
  set (n1 := fexp prec emax (Zdigits2 (Zpos m) + e) - e).
  assert (Hn1 : n1 < Zdigits2 (Zpos m)).
  { subst n1. unfold fexp, SpecFloat.emin in *. simpl Zdigits2.
    change prec with 53 in *. change emax with 1024 in *. lia. }
  pose proof (shr_positive (shr_record_of_loc (Zpos m) loc_Exact) e n1
                eq_refl Hn1) as Hpos1.
  assert (He1 : emin <= snd (shr (shr_record_of_loc (Zpos m) loc_Exact) e n1)
                \/ shr (shr_record_of_loc (Zpos m) loc_Exact) e n1
                   = (shr_record_of_loc (Zpos m) loc_Exact, e)).
  { unfold shr. destruct n1 as [|p|p] eqn:E; auto.
    left. simpl. rewrite <- E. subst n1.
    unfold fexp, SpecFloat.emin. change prec with 53. change emax with 1024. lia. }
  destruct (shr (shr_record_of_loc (Zpos m) loc_Exact) e n1) as [mrs' e'].
  simpl in Hpos1, He1.
  set (m2 := round_nearest_even (shr_m mrs') (loc_of_shr_record mrs')).
  assert (Hm2 : 0 < m2).
  { pose proof (round_nearest_even_ge (shr_m mrs') (loc_of_shr_record mrs')).
    subst m2. lia. }
  set (n2 := fexp prec emax (Zdigits2 m2 + e') - e').
  assert (Hn2 : n2 < Zdigits2 m2).
  { destruct He1 as [He1|He1].
    - subst n2. destruct m2 as [|q|q]; try lia.
      unfold fexp, SpecFloat.emin in *. simpl Zdigits2.
      change prec with 53 in *. change emax with 1024 in *. lia.
    - injection He1 as -> ->. subst m2 n2.
      cbn [round_nearest_even loc_of_shr_record shr_record_of_loc shr_m
           Zdigits2].
      unfold fexp, SpecFloat.emin in *.
      change prec with 53 in *. change emax with 1024 in *. lia. }
  pose proof (shr_positive (shr_record_of_loc m2 loc_Exact) e' n2
                Hm2 Hn2) as Hpos2.
  destruct (shr (shr_record_of_loc m2 loc_Exact) e' n2) as [mrs'' e''].
  simpl in Hpos2.
  destruct (shr_m mrs'') as [|q|q]; try lia.
  now destruct (e'' <=? emax - prec).
Qed.

Lemma digits2_pos_iter_xO (m d : positive) :
  Zpos (digits2_pos (Pos.iter xO m d)) = Zpos (digits2_pos m) + Zpos d.
Proof.
  induction d as [|d IH] using Pos.peano_ind.
  - simpl. lia.
  - rewrite Pos.iter_succ. cbn [digits2_pos]. lia.
Qed.

Lemma iter_xO_value (m d : positive) :
  Zpos (Pos.iter xO m d) = Zpos m * 2 ^ Zpos d.
Proof.
  induction d as [|d IH] using Pos.peano_ind.
  - simpl. lia.
  - rewrite Pos.iter_succ, Pos2Z.inj_succ, Z.pow_succ_r by lia.
    rewrite Pos2Z.inj_xO, IH. lia.
Qed.

Lemma binary_round_signed (s : bool) (m : positive) (e : Z) :
  emin < Zpos (digits2_pos m) + e ->
  IEEE.signed s (binary_round prec emax s m e).
Proof.
  intros He. unfold binary_round, shl_align.
  destruct (fexp prec emax (Zpos (digits2_pos m) + e) - e) as [|d|d] eqn:E;
    try now apply binary_round_aux_signed.
  apply binary_round_aux_signed. rewrite digits2_pos_iter_xO.
  unfold fexp, SpecFloat.emin in *.
  change prec with 53 in *. change emax with 1024 in *. lia.
Qed.

Lemma binary_normalize_signed (m e : Z) (szero : bool) :
  m <> 0 -> emin <= e ->
  IEEE.signed (m <? 0) (binary_normalize prec emax m e szero).
Proof.
  intros Hm He. destruct m as [|p|p]; [contradiction| |];
    apply binary_round_signed; lia.
Qed.

(** What validity says of a finite number. *)
Lemma valid_finite (s : bool) (m : positive) (e : Z) :
  valid_binary (S754_finite s m e) = true ->
  emin <= e /\ Zpos m < 2 ^ 53 /\ (e = emin \/ 2 ^ 52 <= Zpos m).
Proof.
  unfold valid_binary, SpecFloat.valid_binary, bounded, canonical_mantissa.
  intros H. apply andb_true_iff in H. destruct H as [H _].
  apply Z.eqb_eq in H.
  pose proof (digits2_pos_bounds m) as [Hlo Hhi].
  unfold fexp, SpecFloat.emin in *.
  change prec with 53 in *. change emax with 1024 in *.
  assert (Hd : Zpos (digits2_pos m) <= 53) by lia.
  split; [lia|]. split.
  - apply Z.lt_le_trans with (2 ^ Zpos (digits2_pos m)); [assumption|].
    apply Z.pow_le_mono_r; lia.
  - destruct (Z.eq_dec e (3 - 1024 - 53)) as [->|Hne]; [now left|right].
    assert (Hd53 : Zpos (digits2_pos m) = 53) by lia.
    rewrite Hd53 in Hlo. exact Hlo.
Qed.

Lemma shl_align_value (m : positive) (e ez : Z) :
  ez <= e -> Zpos (fst (shl_align m e ez)) = Zpos m * 2 ^ (e - ez).
Proof.
  intros Hle. unfold shl_align.
  destruct (ez - e) as [|d|d] eqn:E; simpl fst.
  - replace (e - ez) with 0 by lia. simpl. lia.
  - lia.
  - rewrite iter_xO_value. f_equal. f_equal. lia.
Qed.

(** Of two valid finite numbers, the one with the smaller exponent has the
    smaller magnitude. *)
Lemma smaller_exponent (s1 s2 : bool) (m1 m2 : positive) (e1 e2 : Z) :
  valid_binary (S754_finite s1 m1 e1) = true ->
  valid_binary (S754_finite s2 m2 e2) = true ->
  e1 < e2 -> Zpos m1 < Zpos m2 * 2 ^ (e2 - e1).
Proof.
  intros H1 H2 Hlt.
  apply valid_finite in H1, H2.
  destruct H1 as (He1 & Hm1 & _), H2 as (He2 & _ & [->|Hm2]); [lia|].
  assert (Hp : 2 ^ 1 <= 2 ^ (e2 - e1)) by (apply Z.pow_le_mono_r; lia).
  change (2 ^ 1) with 2 in Hp. change (2 ^ 53) with (2 ^ 52 * 2) in Hm1.
  nia.
Qed.

(** The difference of two valid numbers, the first below the second, is a
    number below zero; the opposite difference is above zero. *)
Lemma SFsub_signed (x y : spec_float) :
  valid_binary x = true -> valid_binary y = true ->
  SFcompare x y = Some Lt ->
  IEEE.signed true (SF64sub x y) /\ IEEE.signed false (SF64sub y x).
Proof.
  intros Hx Hy Hlt.
  destruct x as [sx|sx| |sx mx ex], y as [sy|sy| |sy my ey];
    try discriminate;
    try (destruct sx; try discriminate);
    try (destruct sy; try discriminate);
    try (split; reflexivity).
  - (* both negative *)
    unfold SF64sub, SFsub. simpl in Hlt.
    pose proof (valid_finite _ _ _ Hx) as (Hex & _).
    pose proof (valid_finite _ _ _ Hy) as (Hey & _).
    rewrite (Z.min_comm ey ex).
    rewrite !shl_align_value by lia. unfold cond_Zopp.
    pose proof (Z.pow_pos_nonneg 2 (ex - Z.min ex ey)) as Px.
    pose proof (Z.pow_pos_nonneg 2 (ey - Z.min ex ey)) as Py.
    assert (Hd : - (Zpos mx * 2 ^ (ex - Z.min ex ey))
                 < - (Zpos my * 2 ^ (ey - Z.min ex ey))).
    { destruct (Z.compare_spec ex ey) as [->|Hc|Hc]; try discriminate.
      - rewrite Z.min_id, Z.sub_diag. simpl (2 ^ 0).
        change (Pos.compare_cont Eq mx my) with (Pos.compare mx my) in Hlt.
        destruct (Pos.compare_spec mx my); try discriminate. lia.
      - pose proof (smaller_exponent _ _ _ _ _ _ Hy Hx Hc).
        rewrite Z.min_r by lia. rewrite Z.sub_diag. simpl (2 ^ 0). lia. }
    split.
    + replace true with
        (- (Zpos mx * 2 ^ (ex - Z.min ex ey))
         - - (Zpos my * 2 ^ (ey - Z.min ex ey)) <? 0)
        by (apply Z.ltb_lt; lia).
      apply binary_normalize_signed; lia.
    + replace false with
        (- (Zpos my * 2 ^ (ey - Z.min ex ey))
         - - (Zpos mx * 2 ^ (ex - Z.min ex ey)) <? 0)
        by (apply Z.ltb_ge; lia).
      apply binary_normalize_signed; lia.
  - (* negative, positive *)
    unfold SF64sub, SFsub.
    pose proof (valid_finite _ _ _ Hx) as (Hex & _).
    pose proof (valid_finite _ _ _ Hy) as (Hey & _).
    rewrite (Z.min_comm ey ex).
    rewrite !shl_align_value by lia. unfold cond_Zopp.
    pose proof (Z.pow_pos_nonneg 2 (ex - Z.min ex ey)) as Px.
    pose proof (Z.pow_pos_nonneg 2 (ey - Z.min ex ey)) as Py.
    split.
    + replace true with
        (- (Zpos mx * 2 ^ (ex - Z.min ex ey))
         - Zpos my * 2 ^ (ey - Z.min ex ey) <? 0)
        by (apply Z.ltb_lt; nia).
      apply binary_normalize_signed; nia.
    + replace false with
        (Zpos my * 2 ^ (ey - Z.min ex ey)
         - - (Zpos mx * 2 ^ (ex - Z.min ex ey)) <? 0)
        by (apply Z.ltb_ge; nia).
      apply binary_normalize_signed; nia.
  - (* both positive *)
    unfold SF64sub, SFsub. simpl in Hlt.
    pose proof (valid_finite _ _ _ Hx) as (Hex & _).
    pose proof (valid_finite _ _ _ Hy) as (Hey & _).
    rewrite (Z.min_comm ey ex).
    rewrite !shl_align_value by lia. unfold cond_Zopp.
    assert (Hd : Zpos mx * 2 ^ (ex - Z.min ex ey)
                 < Zpos my * 2 ^ (ey - Z.min ex ey)).
    { destruct (Z.compare_spec ex ey) as [->|Hc|Hc]; try discriminate.
      - rewrite Z.min_id, Z.sub_diag. simpl (2 ^ 0).
        change (Pos.compare_cont Eq mx my) with (Pos.compare mx my) in Hlt.
        destruct (Pos.compare_spec mx my); try discriminate. lia.
      - pose proof (smaller_exponent _ _ _ _ _ _ Hx Hy Hc).
        rewrite Z.min_l by lia. rewrite Z.sub_diag. simpl (2 ^ 0). lia. }
    split.
    + replace true with
        (Zpos mx * 2 ^ (ex - Z.min ex ey)
         - Zpos my * 2 ^ (ey - Z.min ex ey) <? 0)
        by (apply Z.ltb_lt; lia).
      apply binary_normalize_signed; lia.
    + replace false with
        (Zpos my * 2 ^ (ey - Z.min ex ey)
         - Zpos mx * 2 ^ (ex - Z.min ex ey) <? 0)
        by (apply Z.ltb_ge; lia).
      apply binary_normalize_signed; lia.
Qed.

Lemma digits2_pos_lower (m : positive) (k : Z) :
  2 ^ k <= Zpos m -> k < Zpos (digits2_pos m).
Proof.
  intros Hk. pose proof (digits2_pos_bounds m) as [_ Hhi].
  destruct (Z.lt_ge_cases k (Zpos (digits2_pos m))) as [|Hge];
    [assumption|].
  assert (2 ^ Zpos (digits2_pos m) <= 2 ^ k)
    by (apply Z.pow_le_mono_r; lia).
  lia.
Qed.

(** Multiplying by 1 or by -1 keeps, or flips, the sign of a number that is
    neither zero nor [NaN]. *)
Lemma SFmul_unit_signed (su s : bool) (z : spec_float) :
  valid_binary z = true -> IEEE.signed s z ->
  IEEE.signed (xorb su s)
         (SF64mul (S754_finite su 4503599627370496 (-52)) z).
Proof.
  intros Hz Hs.
  destruct z as [sz|sz| |sz mz ez]; simpl in Hs; try contradiction;
    subst sz; [reflexivity|].
  unfold SF64mul, SFmul. apply binary_round_aux_signed.
  pose proof (valid_finite _ _ _ Hz) as (Hez & _).
  assert (Hd : 52 < Zpos (digits2_pos (4503599627370496 * mz))).
  { apply digits2_pos_lower. rewrite Pos2Z.inj_mul.
    change (Zpos 4503599627370496) with (2 ^ 52). lia. }
  lia.
Qed.

Lemma positive_test (f : float) :
  (IEEE.signed false (Prim2SF f) -> (0 <? f)%float = true)
  /\ (IEEE.signed true (Prim2SF f) -> (0 <? f)%float = false).
Proof.
  rewrite ltb_spec. change (Prim2SF 0) with (S754_zero false).
  unfold SFltb.
  destruct (Prim2SF f) as [s|s| |s m e]; simpl; split;
    try contradiction; now intros ->.
Qed.

(** The number [multiplier * (a - b)] a comparator returns for [a < b]: it
    is below zero for the multiplier 1, above zero for -1, and the other
    way round with the operands swapped. *)
Lemma comparator_sign (a b : float) :
  (a <? b)%float = true ->
  (0 <? 1 * (a - b))%float = false
  /\ (0 <? 1 * (b - a))%float = true
  /\ (0 <? (-1) * (a - b))%float = true
  /\ (0 <? (-1) * (b - a))%float = false.
Proof.
  rewrite ltb_spec. unfold SFltb. intros Hlt.
  destruct (SFcompare (Prim2SF a) (Prim2SF b)) as [[]|] eqn:E;
    try discriminate.
  destruct (SFsub_signed _ _ (Prim2SF_valid a) (Prim2SF_valid b) E)
    as [Hab Hba].
  rewrite <- !sub_spec in Hab, Hba.
  pose proof (SFmul_unit_signed false _ _ (Prim2SF_valid (a - b)) Hab) as H1.
  pose proof (SFmul_unit_signed false _ _ (Prim2SF_valid (b - a)) Hba) as H2.
  pose proof (SFmul_unit_signed true _ _ (Prim2SF_valid (a - b)) Hab) as H3.
  pose proof (SFmul_unit_signed true _ _ (Prim2SF_valid (b - a)) Hba) as H4.
  change (S754_finite false 4503599627370496 (-52)) with (Prim2SF 1)
    in H1, H2.
  change (S754_finite true 4503599627370496 (-52)) with (Prim2SF (-1))
    in H3, H4.
  rewrite <- mul_spec in H1, H2, H3, H4. simpl xorb in *.
  repeat split; now apply positive_test.
Qed.

End FloatSigns.

(* ================================================================== *)
(** * Objects used as dictionaries *)
(* ================================================================== *)

Section ObjectFacts.

Context {V : Type}.
Implicit Types (o : JS.obj V) (k : string) (v : V).

Lemma get_set_same k v o : JS.get k (JS.set k v o) = Some v.
Proof.
  induction o as [|[k' v'] o IH]; simpl.
  - now rewrite String.eqb_refl.
  - destruct (k =? k') eqn:E; simpl; rewrite E; auto.
Qed.

Lemma get_set_other k k' v o :
  k <> k' -> JS.get k' (JS.set k v o) = JS.get k' o.
Proof.
  intros Hne. induction o as [|[k0 v0] o IH]; simpl.
  - apply not_eq_sym, String.eqb_neq in Hne. now rewrite Hne.
  - destruct (k =? k0) eqn:E; simpl.
    + apply String.eqb_eq in E. subst k0.
      apply not_eq_sym, String.eqb_neq in Hne. now rewrite Hne.
    + now rewrite IH.
Qed.

Lemma get_In k v o : JS.get k o = Some v -> In (k, v) o.
Proof.
  induction o as [|[k' v'] o IH]; simpl; [discriminate|].
  destruct (k =? k') eqn:E.
  - apply String.eqb_eq in E. intros [= ->]. subst. now left.
  - auto.
Qed.

Lemma get_None k o : JS.get k o = None <-> ~ In k (map fst o).
Proof.
  induction o as [|[k' v'] o IH]; simpl.
  - tauto.
  - destruct (k =? k') eqn:E.
    + apply String.eqb_eq in E. subst. split; [discriminate|tauto].
    + apply String.eqb_neq in E. rewrite IH. split; [|tauto].
      intros H [H'|H']; [now apply E|auto].
Qed.

Lemma In_get k v o :
  NoDup (map fst o) -> In (k, v) o -> JS.get k o = Some v.
Proof.
  induction o as [|[k' v'] o IH]; simpl; [tauto|].
  intros Hnd [[= -> ->]|Hin].
  - now rewrite String.eqb_refl.
  - inversion_clear Hnd as [|? ? Hk Hnd'].
    destruct (k =? k') eqn:E.
    + apply String.eqb_eq in E. subst k'. exfalso. apply Hk.
      now apply (in_map fst) in Hin.
    + auto.
Qed.

Lemma keys_set k v o :
  map fst (JS.set k v o)
  = match JS.get k o with
    | Some _ => map fst o
    | None => (map fst o ++ [k])%list
    end.
Proof.
  induction o as [|[k' v'] o IH]; simpl; [reflexivity|].
  destruct (k =? k') eqn:E; simpl; [reflexivity|].
  rewrite IH. now destruct (JS.get k o).
Qed.

Lemma NoDup_set k v o :
  NoDup (map fst o) -> NoDup (map fst (JS.set k v o)).
Proof.
  intros Hnd. rewrite keys_set.
  destruct (JS.get k o) eqn:E; [assumption|].
  apply get_None in E.
  apply NoDup_rev in Hnd. rewrite <- (rev_involutive (_ ++ _)%list).
  apply NoDup_rev. rewrite rev_app_distr. simpl.
  constructor; [now rewrite <- in_rev|assumption].
Qed.

Lemma NoDup_upsert k v0 (f : V -> V) o :
  NoDup (map fst o) -> NoDup (map fst (JS.upsert k v0 f o)).
Proof. unfold JS.upsert. destruct (JS.get k o); apply NoDup_set. Qed.

Lemma get_upsert_same k v0 (f : V -> V) o :
  JS.get k (JS.upsert k v0 f o)
  = Some (f (match JS.get k o with Some v => v | None => v0 end)).
Proof. unfold JS.upsert. destruct (JS.get k o); apply get_set_same. Qed.

Lemma get_upsert_other k k' v0 (f : V -> V) o :
  k <> k' -> JS.get k' (JS.upsert k v0 f o) = JS.get k' o.
Proof.
  unfold JS.upsert. destruct (JS.get k o); now apply get_set_other.
Qed.

Lemma insertIndex_Permutation i (e : string * V) l :
  Permutation (JS.insertIndex i e l) ((i, e) :: l).
Proof.
  induction l as [|[j e'] l IH]; simpl; [reflexivity|].
  destruct (i <? j)%Z; [reflexivity|].
  rewrite IH. apply perm_swap.
Qed.

Lemma indexEntries_Permutation o :
  Permutation (map snd (JS.indexEntries o))
              (filter (fun e => negb (JS.isNamed e)) o).
Proof.
  induction o as [|[k v] o IH]; simpl; [reflexivity|].
  unfold JS.isNamed at 1. simpl.
  destruct (JS.arrayIndex k); simpl; [|assumption].
  rewrite insertIndex_Permutation. simpl. now constructor.
Qed.

Lemma filter_split_Permutation {A} (p : A -> bool) (l : list A) :
  Permutation (filter (fun x => negb (p x)) l ++ filter p l)%list l.
Proof.
  induction l as [|x l IH]; simpl; [reflexivity|].
  destruct (p x); simpl.
  - symmetry. apply Permutation_cons_app. now symmetry.
  - now constructor.
Qed.

(** [Object.entries] lists every property once. *)
Lemma entries_Permutation o : Permutation (JS.entries o) o.
Proof.
  unfold JS.entries. rewrite indexEntries_Permutation.
  apply filter_split_Permutation.
Qed.

Lemma In_entries (e : string * V) o : In e (JS.entries o) <-> In e o.
Proof.
  split; apply Permutation_in;
    [apply entries_Permutation|symmetry; apply entries_Permutation].
Qed.

Lemma NoDup_keys o : NoDup (map fst o) -> NoDup (JS.keys o).
Proof.
  intros Hnd. unfold JS.keys.
  eapply Permutation_NoDup; [|exact Hnd].
  apply Permutation_map. symmetry. apply entries_Permutation.
Qed.

End ObjectFacts.

Lemma list_sum_Permutation (l l' : list nat) :
  Permutation l l' -> list_sum l = list_sum l'.
Proof. induction 1; simpl; lia. Qed.

(* ================================================================== *)
(** * KPIs of an empty selection *)
(* ================================================================== *)

(** C1, as stated, fails: for the empty record sequence the snapshot of
    [calculateKPIs] is not one whose average download, upload, latency and
    score and whose record count are all 0 with best operator "N/A" -- it
    carries no latency and no record count at all. *)
Lemma calculateKPIs_empty_not_zeroSnapshot :
  ~ Spec.zeroSnapshot (DataProcessor.calculateKPIs []).
Proof. intros (_ & _ & H & _). discriminate H. Qed.

(** C1, amended: for the empty record sequence [calculateKPIs] returns,
    without raising an error, the snapshot with [bestOperator = "N/A"] and
    the numbers 0 for average download, upload and score; that snapshot has
    no average-latency and no total-records field, and
    [getAggregatedMetrics] returns [null] instead of a snapshot. *)
Theorem calculateKPIs_empty :
  DataProcessor.calculateKPIs []
  = [ ("bestOperator", JS.Str "N/A"); ("avgDownload", JS.Num 0);
      ("avgUpload", JS.Num 0); ("avgScore", JS.Num 0) ]
  /\ JS.get "avgLatency" (DataProcessor.calculateKPIs []) = None
  /\ JS.get "totalRecords" (DataProcessor.calculateKPIs []) = None
  /\ TelecomDataService.getAggregatedMetrics [] = None.
Proof. repeat split. Qed.

(** On any non-empty selection both calculations do return a snapshot, and
    the admin one reports the number of records. *)
Lemma getAggregatedMetrics_nonempty (r : Rec.t) (data : list Rec.t) :
  exists s,
    TelecomDataService.getAggregatedMetrics (r :: data) = Some s
    /\ JS.get "totalRecords" s
       = Some (JS.Num (JS.ofNat (List.length (r :: data)))).
Proof. eexists. split; reflexivity. Qed.

(* ================================================================== *)
(** * Filtering *)
(* ================================================================== *)

Lemma keeps_selects (f : DataProcessor.Filters) (r : Rec.t) :
  DataProcessor.keeps f r = Spec.selects f r.
Proof.
  unfold DataProcessor.keeps, Spec.selects, JS.differs.
  destruct (DataProcessor.state f =? "All"),
           (Rec.state r =? DataProcessor.state f),
           (DataProcessor.city f =? "All"),
           (Rec.city r =? DataProcessor.city f),
           (DataProcessor.area f =? "All"),
           (Rec.area r =? DataProcessor.area f),
           (DataProcessor.network f =? "All"),
           (Rec.network_type r =? DataProcessor.network f),
           (DataProcessor.operator f =? "All");
    simpl; try reflexivity;
    destruct (Rec.operator r) as [op|]; simpl; try reflexivity;
    now destruct (op =? DataProcessor.operator f).
Qed.

Lemma selects_satisfies (f : DataProcessor.Filters) (r : Rec.t) :
  Spec.selects f r = true <-> Spec.satisfies f r.
Proof.
  unfold Spec.selects, Spec.satisfies.
  rewrite !andb_true_iff, !orb_true_iff, !String.eqb_eq.
  destruct (Rec.operator r) as [op|].
  - rewrite String.eqb_eq.
    destruct (string_dec (DataProcessor.state f) "All"),
             (string_dec (DataProcessor.city f) "All"),
             (string_dec (DataProcessor.area f) "All"),
             (string_dec (DataProcessor.network f) "All"),
             (string_dec (DataProcessor.operator f) "All");
      intuition congruence.
  - destruct (string_dec (DataProcessor.state f) "All"),
             (string_dec (DataProcessor.city f) "All"),
             (string_dec (DataProcessor.area f) "All"),
             (string_dec (DataProcessor.network f) "All"),
             (string_dec (DataProcessor.operator f) "All");
      intuition congruence.
Qed.

(** [applyFilters] returns exactly the records of the raw collection
    that satisfy every dimension whose selected value is not "All" (all
    constraints together); with every dimension "All" it returns the whole
    collection; its result is always a subset of the raw collection. *)
Lemma applyFilters_exact (dp : DataProcessor.t) :
  let f := DataProcessor.filters dp in
  let rawData := DataProcessor.rawData dp in
  let result := DataProcessor.filteredData (DataProcessor.applyFilters dp) in
  result = filter (Spec.selects f) rawData
  /\ (forall r, Spec.selects f r = true <-> Spec.satisfies f r)
  /\ (forall r, In r result <-> In r rawData /\ Spec.satisfies f r)
  /\ DataProcessor.filteredData
       (DataProcessor.applyFilters
          (DataProcessor.mk rawData (DataProcessor.filteredData dp)
             (DataProcessor.mkFilters "All" "All" "All" "All" "All")))
     = rawData
  /\ incl result rawData.
Proof.
  cbv zeta. unfold DataProcessor.applyFilters. simpl.
  split; [|split; [|split; [|split]]].
  - apply filter_ext. intros r. apply keeps_selects.
  - apply selects_satisfies.
  - intros r. rewrite filter_In, keeps_selects, selects_satisfies.
    reflexivity.
  - induction (DataProcessor.rawData dp) as [|r l IH]; simpl;
      [reflexivity|]. now rewrite IH.
  - intros r Hin. apply filter_In in Hin. tauto.
Qed.

Lemma unless_true (a b : bool) :
  (if a then false else b) = true <-> a = false /\ b = true.
Proof. destruct a, b; intuition discriminate. Qed.

Lemma rejects_false (selected : string) (v : option string) :
  TelecomDataService.rejects selected v = false
  <-> (selected <> "" -> selected <> "All" -> v = Some selected).
Proof.
  unfold TelecomDataService.rejects, JS.differs.
  destruct (String.eqb_spec selected ""),
           (String.eqb_spec selected "All"); simpl; try tauto.
  destruct v as [x|]; simpl.
  - destruct (String.eqb_spec x selected); simpl;
      intuition congruence.
  - intuition congruence.
Qed.

(** The admin-side [filterData] applies the same rule to its four
    dimensions (an empty selection counting as "All"), and keeps, besides,
    only the selected years and the selected month. *)
Lemma filterData_In (rawData : list Rec.t)
    (f : TelecomDataService.Filters) (r : Rec.t) :
  In r (TelecomDataService.filterData rawData f)
  <-> In r rawData
      /\ (TelecomDataService.state f <> "" ->
          TelecomDataService.state f <> "All" ->
          Rec.state r = TelecomDataService.state f)
      /\ (TelecomDataService.city f <> "" ->
          TelecomDataService.city f <> "All" ->
          Rec.city r = TelecomDataService.city f)
      /\ (TelecomDataService.operator f <> "" ->
          TelecomDataService.operator f <> "All" ->
          Rec.operator r = Some (TelecomDataService.operator f))
      /\ (TelecomDataService.network_type f <> "" ->
          TelecomDataService.network_type f <> "All" ->
          Rec.network_type r = TelecomDataService.network_type f)
      /\ (TelecomDataService.years f <> [] ->
          In (Rec.year r) (TelecomDataService.years f))
      /\ (TelecomDataService.month_start f <> 0%Z ->
          Rec.month r = TelecomDataService.month_start f).
Proof.
  unfold TelecomDataService.filterData. rewrite filter_In.
  apply and_iff_compat_l.
  unfold TelecomDataService.keeps.
  rewrite !unless_true, !rejects_false.
  assert (Hy : (0 <? List.length (TelecomDataService.years f))%nat
               && negb (existsb (Z.eqb (Rec.year r))
                                (TelecomDataService.years f)) = false
               <-> (TelecomDataService.years f <> [] ->
                    In (Rec.year r) (TelecomDataService.years f))).
  { destruct (existsb _ _) eqn:E.
    - rewrite andb_false_r. apply existsb_exists in E.
      destruct E as (y & Hin & Heq). apply Z.eqb_eq in Heq. subst y.
      tauto.
    - rewrite andb_true_r.
      destruct (TelecomDataService.years f) as [|y ys] eqn:Ey; simpl.
      + tauto.
      + split; [discriminate|]. intros H. exfalso.
        assert (Hin : In (Rec.year r) (y :: ys)) by (apply H; discriminate).
        assert (Hex : existsb (Z.eqb (Rec.year r)) (y :: ys) = true).
        { apply existsb_exists. exists (Rec.year r).
          now rewrite Z.eqb_refl. }
        congruence. }
  assert (Hm : negb (TelecomDataService.month_start f =? 0)%Z
               && negb (Rec.month r =? TelecomDataService.month_start f)%Z
               = false
               <-> (TelecomDataService.month_start f <> 0%Z ->
                    Rec.month r = TelecomDataService.month_start f)).
  { destruct (Z.eqb_spec (TelecomDataService.month_start f) 0),
             (Z.eqb_spec (Rec.month r) (TelecomDataService.month_start f));
      simpl; intuition congruence. }
  rewrite Hy, Hm.
  split.
  - intros (H1 & H2 & H3 & H4 & H5 & H6 & _). repeat split; try assumption.
    + intros a b. specialize (H1 a b). congruence.
    + intros a b. specialize (H2 a b). congruence.
    + intros a b. specialize (H4 a b). congruence.
  - intros (H1 & H2 & H3 & H4 & H5 & H6). repeat split; try assumption.
    + intros a b. now rewrite (H1 a b).
    + intros a b. now rewrite (H2 a b).
    + intros a b. now rewrite (H4 a b).
Qed.

(** With the four selections at "All", no year chosen and no month, the
    admin-side filter returns the whole collection. *)
Lemma filterData_unconstrained (rawData : list Rec.t) :
  TelecomDataService.filterData rawData
    (TelecomDataService.mkFilters "All" "All" "All" "All" [] 0)
  = rawData.
Proof.
  unfold TelecomDataService.filterData.
  induction rawData as [|r l IH]; [reflexivity|].
  cbn [filter]. rewrite IH. reflexivity.
Qed.

Lemma free_or (selection : string) (P : Prop) :
  ((selection = "" \/ selection = "All") \/ P)
  <-> (selection <> "" -> selection <> "All" -> P).
Proof.
  destruct (string_dec selection ""), (string_dec selection "All"); tauto.
Qed.

Lemma adminSelects_satisfies (f : TelecomDataService.Filters) (r : Rec.t) :
  Spec.adminSelects f r = true <-> Spec.adminSatisfies f r.
Proof.
  unfold Spec.adminSelects, Spec.adminSatisfies. cbv zeta.
  rewrite !andb_true_iff, !orb_true_iff, !String.eqb_eq, !Z.eqb_eq.
  assert (Hop : match Rec.operator r with
                | Some op => op =? TelecomDataService.operator f
                | None => false
                end = true
                <-> Rec.operator r = Some (TelecomDataService.operator f)).
  { destruct (Rec.operator r) as [op|].
    - rewrite String.eqb_eq. split; congruence.
    - split; discriminate. }
  assert (Hy : match TelecomDataService.years f with
               | [] => true
               | _ :: _ =>
                   existsb (Z.eqb (Rec.year r)) (TelecomDataService.years f)
               end = true
               <-> (TelecomDataService.years f <> [] ->
                    In (Rec.year r) (TelecomDataService.years f))).
  { destruct (TelecomDataService.years f) as [|y ys]; [tauto|].
    rewrite existsb_exists. split.
    - intros (z & Hz & Heq) _. apply Z.eqb_eq in Heq. now subst z.
    - intros H. exists (Rec.year r). split; [now apply H|apply Z.eqb_refl]. }
  assert (Hm : (TelecomDataService.month_start f = 0%Z
                \/ Rec.month r = TelecomDataService.month_start f)
               <-> (TelecomDataService.month_start f <> 0%Z ->
                    Rec.month r = TelecomDataService.month_start f)).
  { destruct (Z.eq_dec (TelecomDataService.month_start f) 0); tauto. }
  rewrite Hop, Hm, !free_or.
  assert (Hyears : match TelecomDataService.years f with
                   | [] => true
                   | _ :: _ =>
                       existsb (Z.eqb (Rec.year r))
                               (TelecomDataService.years f)
                   end
                   = match TelecomDataService.years f with
                     | [] => true
                     | y :: ys => existsb (Z.eqb (Rec.year r)) (y :: ys)
                     end)
    by now destruct (TelecomDataService.years f).
  rewrite <- Hyears, Hy. tauto.
Qed.

Lemma keeps_adminSelects (f : TelecomDataService.Filters) (r : Rec.t) :
  TelecomDataService.keeps f r = Spec.adminSelects f r.
Proof.
  apply eq_true_iff_eq. rewrite adminSelects_satisfies.
  pose proof (filterData_In [r] f r) as H.
  unfold TelecomDataService.filterData in H. rewrite filter_In in H.
  unfold Spec.adminSatisfies. split.
  - intros Hk. apply H. split; [now left|assumption].
  - intros Hs. apply H. split; [now left|assumption].
Qed.

(** C2, as stated, fails for the admin-side filter: with every one of
    its four dimensions at "All" and no year selected -- the filters the
    admin dashboard starts with -- [filterData] does not return the whole
    collection, but the records of the selected month alone. *)
Lemma filterData_All_not_everything :
  let f := TelecomDataService.initialFilters in
  TelecomDataService.state f = "All"
  /\ TelecomDataService.city f = "All"
  /\ TelecomDataService.operator f = "All"
  /\ TelecomDataService.network_type f = "All"
  /\ TelecomDataService.years f = []
  /\ TelecomDataService.filterData [Sample.jio; Sample.february] f
     = [Sample.jio]
  /\ TelecomDataService.filterData [Sample.jio; Sample.february] f
     <> [Sample.jio; Sample.february].
Proof. vm_compute. repeat split. discriminate. Qed.

(** C2, amended: [applyFilters] returns exactly the records of the raw
    collection that satisfy every dimension whose selected value is not
    "All" (all constraints together); with every dimension "All" it
    returns the whole collection.  [filterData] follows a rule of its
    own: it returns exactly the records that match each of its four
    dimensions whose selection is neither empty nor "All", whose year is
    among the selected years when there are any, and whose month is the
    selected month when that is not 0; it returns the whole collection
    when these constraints are all absent.  Both results are subsets of
    the raw collection. *)
Theorem filtering_exact (dp : DataProcessor.t) (collection : list Rec.t)
    (g : TelecomDataService.Filters) :
  (let f := DataProcessor.filters dp in
   let rawData := DataProcessor.rawData dp in
   let result :=
     DataProcessor.filteredData (DataProcessor.applyFilters dp) in
   result = filter (Spec.selects f) rawData
   /\ (forall r, Spec.selects f r = true <-> Spec.satisfies f r)
   /\ (forall r, In r result <-> In r rawData /\ Spec.satisfies f r)
   /\ DataProcessor.filteredData
        (DataProcessor.applyFilters
           (DataProcessor.mk rawData (DataProcessor.filteredData dp)
              (DataProcessor.mkFilters "All" "All" "All" "All" "All")))
      = rawData
   /\ incl result rawData)
  /\ (let result := TelecomDataService.filterData collection g in
      result = filter (Spec.adminSelects g) collection
      /\ (forall r, Spec.adminSelects g r = true
                    <-> Spec.adminSatisfies g r)
      /\ (forall r, In r result
                    <-> In r collection /\ Spec.adminSatisfies g r)
      /\ ((forall r, In r collection -> Spec.adminSatisfies g r) ->
          result = collection)
      /\ TelecomDataService.filterData collection
           (TelecomDataService.mkFilters "All" "All" "All" "All" [] 0)
         = collection
      /\ incl result collection).
Proof.
  split; [apply applyFilters_exact|].
  cbv zeta. unfold TelecomDataService.filterData.
  split; [|split; [|split; [|split; [|split]]]].
  - apply filter_ext. intros r. apply keeps_adminSelects.
  - intros r. apply adminSelects_satisfies.
  - intros r. rewrite filter_In, keeps_adminSelects, adminSelects_satisfies.
    reflexivity.
  - intros Hall. induction collection as [|r l IH]; [reflexivity|].
    cbn [filter]. rewrite keeps_adminSelects.
    rewrite (proj2 (adminSelects_satisfies g r)) by (apply Hall; now left).
    f_equal. apply IH. intros r' Hr'. apply Hall. now right.
  - apply filterData_unconstrained.
  - intros r Hin. apply filter_In in Hin. tauto.
Qed.

(* ================================================================== *)
(** * Dependent filters *)
(* ================================================================== *)

(** C9: a single filter update never leaves a dependent selection behind:
    updating the state resets the city and the area to "All", and updating
    the city resets the area to "All"; the other selections are kept. *)
Theorem updateFilter_resets_dependents (value : string)
    (dp : DataProcessor.t) :
  let f := DataProcessor.filters dp in
  DataProcessor.filters (DataProcessor.updateFilter "state" value dp)
  = DataProcessor.mkFilters value "All" "All"
      (DataProcessor.network f) (DataProcessor.operator f)
  /\ DataProcessor.filters (DataProcessor.updateFilter "city" value dp)
     = DataProcessor.mkFilters (DataProcessor.state f) value "All"
         (DataProcessor.network f) (DataProcessor.operator f).
Proof. split; reflexivity. Qed.

(** The three filters without dependents only change their own selection. *)
Lemma updateFilter_leaf (value : string) (dp : DataProcessor.t) :
  let f := DataProcessor.filters dp in
  DataProcessor.filters (DataProcessor.updateFilter "area" value dp)
  = DataProcessor.mkFilters (DataProcessor.state f) (DataProcessor.city f)
      value (DataProcessor.network f) (DataProcessor.operator f)
  /\ DataProcessor.filters (DataProcessor.updateFilter "network" value dp)
     = DataProcessor.mkFilters (DataProcessor.state f)
         (DataProcessor.city f) (DataProcessor.area f) value
         (DataProcessor.operator f)
  /\ DataProcessor.filters (DataProcessor.updateFilter "operator" value dp)
     = DataProcessor.mkFilters (DataProcessor.state f)
         (DataProcessor.city f) (DataProcessor.area f)
         (DataProcessor.network f) value.
Proof. repeat split; reflexivity. Qed.

(** Every update leaves the filtered view in step with the new filters. *)
Lemma updateFilter_filteredData (filterName value : string)
    (dp : DataProcessor.t) :
  let dp' := DataProcessor.updateFilter filterName value dp in
  DataProcessor.rawData dp' = DataProcessor.rawData dp
  /\ DataProcessor.filteredData dp'
     = filter (Spec.selects (DataProcessor.filters dp'))
              (DataProcessor.rawData dp).
Proof.
  cbv zeta. unfold DataProcessor.updateFilter, DataProcessor.applyFilters.
  simpl. split; [reflexivity|].
  apply filter_ext. intros r. apply keeps_selects.
Qed.

(* ================================================================== *)
(** * Operator stability *)
(* ================================================================== *)

Lemma stable_not_unstable (download upload latency : float) :
  Spec.stable download upload latency ->
  ~ Spec.unstable download upload latency.
Proof.
  intros (Hd & _) (Hd' & _).
  pose proof (ltb_trans _ _ _ Hd Hd') as H. discriminate H.
Qed.

(** On the three numbers it compares, the "Operator Analysis" branch is
    "stable" exactly when download > 150, upload > 40 and latency < 40,
    "unstable" exactly when download < 100, upload < 30 and latency > 60,
    and "neutral" in every other case. *)
Lemma operatorTrend_exact (download upload latency : float) :
  Spec.classifies (InsightsManager.operatorTrend download upload latency)
                  download upload latency.
Proof.
  pose proof (stable_not_unstable download upload latency) as Hex.
  unfold Spec.classifies, InsightsManager.operatorTrend, Spec.stable,
    Spec.unstable in *.
  destruct (150 <? download)%float, (40 <? upload)%float,
           (latency <? 40)%float, (download <? 100)%float,
           (upload <? 30)%float, (60 <? latency)%float; simpl;
    repeat split; try discriminate; try tauto;
    intuition discriminate.
Qed.

(** The three examples of the specification. *)
Example operatorTrend_examples :
  InsightsManager.operatorTrend 200 50 20 = "stable"
  /\ InsightsManager.operatorTrend 50 10 80 = "unstable"
  /\ InsightsManager.operatorTrend 120 35 50 = "neutral".
Proof. repeat split. Qed.

(** The latency classes of the specification: 50 ms is good, 51 ms and
    100 ms are average, 101 ms is bad. *)
Example getLatencyStatus_examples :
  InsightsManager.getLatencyStatus 50 = "good"
  /\ InsightsManager.getLatencyStatus 51 = "average"
  /\ InsightsManager.getLatencyStatus 100 = "average"
  /\ InsightsManager.getLatencyStatus 101 = "bad".
Proof. repeat split. Qed.

(** The metrics of a record with download 200, upload 50 and latency 0:
    the three values satisfy the conditions of "stable", and the card is
    classified "neutral", the latency being read as 50. *)
Example instantMetrics_neutral :
  TelecomDataService.getAggregatedMetrics [Sample.instant]
  = Some Sample.instantMetrics
  /\ Spec.stable (Spec.downloadOf Sample.instantMetrics)
                 (Spec.uploadOf Sample.instantMetrics)
                 (Spec.latencyOf Sample.instantMetrics)
  /\ InsightsManager.lat Sample.instantMetrics = 50%float
  /\ InsightsManager.operatorAnalysis Sample.instantMetrics = "neutral".
Proof. repeat split. Qed.

(** C6, as stated, fails: the metrics of a record with download 200,
    upload 50 and latency 0 are not classified by their download, upload
    and latency values -- these satisfy download > 150, upload > 40 and
    latency < 40, and the classification is not "stable". *)
Lemma operatorAnalysis_zero_latency :
  ~ Spec.classifiedByValues Sample.instantMetrics.
Proof.
  intros (H & _).
  assert (Hs : Spec.stable (Spec.downloadOf Sample.instantMetrics)
                           (Spec.uploadOf Sample.instantMetrics)
                           (Spec.latencyOf Sample.instantMetrics))
    by (repeat split).
  apply H in Hs. discriminate Hs.
Qed.

(** C6, amended: the classification reads the download and the upload of
    the snapshot as 0 when they are missing or not a number, and the
    latency as 50 when it is missing, not a number or 0; on the values so
    read it is "stable" exactly when download > 150, upload > 40 and
    latency < 40, "unstable" exactly when download < 100, upload < 30 and
    latency > 60, and "neutral" in every other case. *)
Theorem operatorAnalysis_rule (m : JS.obj JS.value) :
  Spec.classifies (InsightsManager.operatorAnalysis m)
    (JS.orElse (Spec.downloadOf m) 0)
    (JS.orElse (Spec.uploadOf m) 0)
    (JS.orElse (Spec.latencyOf m) 50).
Proof.
  unfold InsightsManager.operatorAnalysis.
  change (InsightsManager.down m) with (JS.orElse (Spec.downloadOf m) 0).
  change (InsightsManager.up m) with (JS.orElse (Spec.uploadOf m) 0).
  change (InsightsManager.lat m) with (JS.orElse (Spec.latencyOf m) 50).
  generalize (JS.orElse (Spec.downloadOf m) 0),
             (JS.orElse (Spec.uploadOf m) 0),
             (JS.orElse (Spec.latencyOf m) 50).
  intros download upload latency.
  pose proof (stable_not_unstable download upload latency) as Hex.
  unfold Spec.classifies, InsightsManager.operatorTrend, Spec.stable,
    Spec.unstable in *.
  destruct (150 <? download)%float, (40 <? upload)%float,
           (latency <? 40)%float, (download <? 100)%float,
           (upload <? 30)%float, (60 <? latency)%float; simpl;
    repeat split; try discriminate; try tauto;
    intuition discriminate.
Qed.

(** Where the values of the snapshot are numbers and the latency is not 0,
    they are read as they are, and the snapshot is classified by them. *)
Lemma operatorAnalysis_readings (m : JS.obj JS.value) :
  PrimFloat.is_nan (Spec.downloadOf m) = false ->
  PrimFloat.is_nan (Spec.uploadOf m) = false ->
  JS.truthy (Spec.latencyOf m) = true ->
  Spec.classifiedByValues m.
Proof.
  intros Hd Hu Hl. unfold Spec.classifiedByValues.
  assert (E : InsightsManager.operatorAnalysis m
              = InsightsManager.operatorTrend
                  (Spec.downloadOf m) (Spec.uploadOf m) (Spec.latencyOf m)).
  { unfold InsightsManager.operatorAnalysis, InsightsManager.down,
      InsightsManager.up, InsightsManager.lat, JS.orElse.
    fold (Spec.downloadOf m) (Spec.uploadOf m) (Spec.latencyOf m).
    rewrite Hl. unfold JS.truthy. rewrite Hd, Hu, !andb_true_r.
    unfold InsightsManager.operatorTrend.
    destruct (Spec.downloadOf m =? 0)%float eqn:E1;
      destruct (Spec.uploadOf m =? 0)%float eqn:E2; cbn [negb];
      rewrite <- ?(eqb_ltb_r _ _ 150%float E1),
              <- ?(eqb_ltb_l _ _ 100%float E1),
              <- ?(eqb_ltb_r _ _ 40%float E2),
              <- ?(eqb_ltb_l _ _ 30%float E2);
      reflexivity. }
  rewrite E. apply operatorTrend_exact.
Qed.

(** A snapshot without latency, such as the KPIs of the user dashboard, is
    classified with the latency 50, hence always "neutral". *)
Lemma operatorAnalysis_without_latency (m : JS.obj JS.value) :
  JS.get "avgLatency" m = None -> JS.get "avgLatencyMs" m = None ->
  InsightsManager.operatorAnalysis m = "neutral".
Proof.
  intros H1 H2.
  unfold InsightsManager.operatorAnalysis, InsightsManager.lat.
  rewrite H1, H2. unfold InsightsManager.operatorTrend.
  change (JS.orElse _ 50) with 50%float.
  change (50 <? 40)%float with false. change (60 <? 50)%float with false.
  now rewrite !andb_false_r.
Qed.

(* ================================================================== *)
(** * Bucket counts *)
(* ================================================================== *)

Section CountFacts.

Context {V : Type} (cnt : V -> nat).

Lemma countSum_raw (o : JS.obj V) :
  Counts.countSum cnt o = list_sum (map (fun e => cnt (snd e)) o).
Proof.
  unfold Counts.countSum, JS.values. rewrite map_map.
  apply list_sum_Permutation, Permutation_map, entries_Permutation.
Qed.

Lemma countSum_set (k : string) (v : V) (o : JS.obj V) :
  Counts.countSum cnt (JS.set k v o)
  + match JS.get k o with Some old => cnt old | None => 0 end
  = Counts.countSum cnt o + cnt v.
Proof.
  rewrite !countSum_raw.
  induction o as [|[k' v'] o IH]; simpl; [lia|].
  destruct (k =? k'); simpl; lia.
Qed.

(** An update that adds [w] to the count of the bucket it touches, starting
    new buckets at 0, adds [w] to the sum of the counts. *)
Lemma countSum_upsert (k : string) (v0 : V) (f : V -> V) (w : nat)
    (o : JS.obj V) :
  cnt v0 = 0 -> (forall v, cnt (f v) = cnt v + w) ->
  Counts.countSum cnt (JS.upsert k v0 f o) = Counts.countSum cnt o + w.
Proof.
  intros H0 Hf. unfold JS.upsert.
  destruct (JS.get k o) as [old|] eqn:E.
  - pose proof (countSum_set k (f old) o) as H. rewrite E, Hf in H. lia.
  - pose proof (countSum_set k (f v0) o) as H. rewrite E, Hf, H0 in H. lia.
Qed.

Lemma countSum_group {A} (key : A -> string) (init : A -> V)
    (step : A -> V -> V) (w : A -> bool) (l : list A) (o : JS.obj V) :
  (forall a, cnt (init a) = 0) ->
  (forall a v, cnt (step a v) = cnt v + if w a then 1 else 0) ->
  Counts.countSum cnt
    (fold_left (fun acc a => JS.upsert (key a) (init a) (step a) acc) l o)
  = Counts.countSum cnt o + List.length (filter w l).
Proof.
  intros H0 Hs. revert o.
  induction l as [|a l IH]; intros o; simpl; [lia|].
  rewrite IH, (countSum_upsert _ _ _ (if w a then 1 else 0)) by auto.
  destruct (w a); simpl; lia.
Qed.

End CountFacts.

Lemma filter_all {A} (l : list A) : filter (fun _ => true) l = l.
Proof. induction l; simpl; congruence. Qed.

(** The six objects of [getChartData], each as a grouping of its own. *)
Lemma getChartData_components (data : list Rec.t)
    (d : TelecomDataService.ChartData) :
  let d' := fold_left TelecomDataService.chartStep data d in
  let op r := JS.strOf (Rec.operator r) in
  let y r := TelecomDataService.yearKey (Rec.year r) in
  let down r := JS.toNumber (Rec.download_mbps r) in
  let late r := JS.toNumber (Rec.latency_ms r) in
  TelecomDataService.downloadByOpPeak d'
  = fold_left
      (fun acc r =>
         JS.upsert (op r) (TelecomDataService.mkPeakBucket 0 0 0 0)
                   (TelecomDataService.addPeak r (down r)) acc)
      data (TelecomDataService.downloadByOpPeak d)
  /\ TelecomDataService.latencyByCityNet d'
     = fold_left
         (fun acc r =>
            JS.upsert (Rec.city r)
              (TelecomDataService.mkNetBuckets (mkBucket 0 0) (mkBucket 0 0))
              (TelecomDataService.addNet r (late r)) acc)
         data (TelecomDataService.latencyByCityNet d)
  /\ TelecomDataService.coverageGrowth d'
     = fold_left
         (fun acc r =>
            JS.upsert (y r) (TelecomDataService.mkNetCounts 0 0)
                      (TelecomDataService.addCoverage r) acc)
         data (TelecomDataService.coverageGrowth d)
  /\ TelecomDataService.downloadByYearOp d'
     = fold_left
         (fun acc r =>
            JS.upsert (y r) []
              (JS.upsert (op r) (mkBucket 0 0) (addTo (down r))) acc)
         data (TelecomDataService.downloadByYearOp d)
  /\ TelecomDataService.latencyByYearPeak d'
     = fold_left
         (fun acc r =>
            JS.upsert (y r) (TelecomDataService.mkPeakBucket 0 0 0 0)
                      (TelecomDataService.addPeak r (late r)) acc)
         data (TelecomDataService.latencyByYearPeak d)
  /\ TelecomDataService.scoreByOp d'
     = fold_left
         (fun acc r =>
            JS.upsert (op r) (mkBucket 0 0)
              (addTo (JS.toNumber (Rec.confidence_score r))) acc)
         data (TelecomDataService.scoreByOp d).
Proof.
  revert d. induction data as [|r data IH]; intros d; simpl.
  - repeat split.
  - specialize (IH (TelecomDataService.chartStep d r)). simpl in IH.
    exact IH.
Qed.

(** C5, as stated, fails: a single record whose network type is neither
    "4G" nor "5G" is counted by no bucket of the two network groupings. *)
Lemma chart_counts_miss_untracked_network :
  ~ Counts.addUpTo (TelecomDataService.getChartData [Sample.legacy])
                   (List.length [Sample.legacy]).
Proof. intros (_ & H & _). vm_compute in H. discriminate H. Qed.

(** C5, amended: for every record sequence in which no operator and no
    city is a name inherited from [Object.prototype], the bucket counts of
    the operator x peak-flag, year x operator, year x peak-flag and
    operator-score groupings add up to the number of input records, and
    those of the city x network-type and year x network-type groupings add
    up to the number of input records whose network type is "4G" or
    "5G". *)
Theorem chart_counts (data : list Rec.t) :
  Names.own Names.operatorText data ->
  Names.own Rec.city data ->
  let d := TelecomDataService.getChartData data in
  let n := List.length data in
  let tracked := List.length (filter Counts.tracked data) in
  Counts.countSum Counts.peakRecords
    (TelecomDataService.downloadByOpPeak d) = n
  /\ Counts.countSum Counts.netRecords
       (TelecomDataService.latencyByCityNet d) = tracked
  /\ Counts.countSum Counts.coverageRecords
       (TelecomDataService.coverageGrowth d) = tracked
  /\ Counts.countSum (Counts.countSum count)
       (TelecomDataService.downloadByYearOp d) = n
  /\ Counts.countSum Counts.peakRecords
       (TelecomDataService.latencyByYearPeak d) = n
  /\ Counts.countSum count (TelecomDataService.scoreByOp d) = n.
Proof.
  intros _ _. cbv zeta. unfold TelecomDataService.getChartData.
  destruct (getChartData_components data
              (TelecomDataService.mkChartData [] [] [] [] [] []))
    as (E1 & E2 & E3 & E4 & E5 & E6).
  cbv zeta in E1, E2, E3, E4, E5, E6. simpl in E1, E2, E3, E4, E5, E6.
  rewrite E1, E2, E3, E4, E5, E6.
  assert (Hpeak : forall r x b,
             Counts.peakRecords (TelecomDataService.addPeak r x b)
             = Counts.peakRecords b + 1).
  { intros r x b. unfold TelecomDataService.addPeak, Counts.peakRecords.
    destruct (Rec.is_peak_hour r =? 1)%Z; simpl; lia. }
  repeat split.
  - rewrite (countSum_group _ _ _ _ (fun _ => true)), filter_all;
      [reflexivity|reflexivity|]. intros; apply Hpeak.
  - rewrite (countSum_group _ _ _ _ Counts.tracked);
      [reflexivity|reflexivity|].
    intros r b. unfold TelecomDataService.addNet, Counts.netRecords,
      Counts.tracked.
    destruct (Rec.network_type r =? "4G"), (Rec.network_type r =? "5G");
      simpl; lia.
  - rewrite (countSum_group _ _ _ _ Counts.tracked);
      [reflexivity|reflexivity|].
    intros r c. unfold TelecomDataService.addCoverage,
      Counts.coverageRecords, Counts.tracked.
    destruct (Rec.network_type r =? "4G"), (Rec.network_type r =? "5G");
      simpl; lia.
  - rewrite (countSum_group _ _ _ _ (fun _ => true)), filter_all;
      [reflexivity|reflexivity|].
    intros r inner. apply countSum_upsert; [reflexivity|].
    intros b. simpl. lia.
  - rewrite (countSum_group _ _ _ _ (fun _ => true)), filter_all;
      [reflexivity|reflexivity|]. intros; apply Hpeak.
  - rewrite (countSum_group _ _ _ _ (fun _ => true)), filter_all;
      [reflexivity|reflexivity|]. intros r b. simpl. lia.
Qed.

(* ================================================================== *)
(** * Grouping *)
(* ================================================================== *)

Section GroupFacts.

Context {A V : Type} (key : A -> string) (init : A -> V)
        (step : A -> V -> V).

Local Abbreviation group := (Grouping.group key init step).
Local Abbreviation feed := (Grouping.feed key init step).

Lemma get_group (k : string) (l : list A) (o : JS.obj V) :
  JS.get k (group l o) = feed k l (JS.get k o).
Proof.
  unfold Grouping.group, Grouping.feed. revert o.
  induction l as [|a l IH]; intros o; simpl; [reflexivity|].
  rewrite IH. f_equal.
  destruct (String.eqb_spec (key a) k) as [->|Hne].
  - apply get_upsert_same.
  - now apply get_upsert_other.
Qed.

Lemma feed_filter (k : string) (l : list A) (v : option V) :
  feed k l v = feed k (filter (fun a => key a =? k) l) v.
Proof.
  unfold Grouping.feed. revert v.
  induction l as [|a l IH]; intros v; simpl; [reflexivity|].
  destruct (key a =? k) eqn:E; simpl; [rewrite E|]; apply IH.
Qed.

Lemma feed_Some (k : string) (l : list A) (x : V) :
  Forall (fun a => key a = k) l ->
  feed k l (Some x) = Some (fold_left (fun v a => step a v) l x).
Proof.
  unfold Grouping.feed. revert x.
  induction l as [|a l IH]; intros x Hall; simpl; [reflexivity|].
  inversion_clear Hall as [|? ? Ha Hl].
  rewrite Ha, String.eqb_refl. now apply IH.
Qed.

Lemma NoDup_group (l : list A) (o : JS.obj V) :
  NoDup (map fst o) -> NoDup (map fst (group l o)).
Proof.
  unfold Grouping.group. revert o.
  induction l as [|a l IH]; intros o Hnd; simpl; [assumption|].
  apply IH. now apply NoDup_upsert.
Qed.

(** The bucket of a key holds the records of that key, in their order;
    there is no bucket for a key without records. *)
Lemma get_group_nil (k : string) (l : list A) :
  JS.get k (group l [])
  = match filter (fun a => key a =? k) l with
    | [] => None
    | a :: l' => Some (fold_left (fun v a => step a v) l' (step a (init a)))
    end.
Proof.
  rewrite get_group, feed_filter. simpl.
  assert (Hall : Forall (fun a => key a = k)
                        (filter (fun a => key a =? k) l)).
  { apply Forall_forall. intros a Ha. apply filter_In in Ha.
    now apply String.eqb_eq. }
  destruct (filter (fun a => key a =? k) l) as [|a l']; [reflexivity|].
  inversion_clear Hall as [|? ? Ha Hl].
  unfold Grouping.feed. simpl. rewrite Ha, String.eqb_refl.
  now apply (feed_Some k l').
Qed.

End GroupFacts.

Lemma fold_addTo {A} (f : A -> float) (l : list A) (b : Bucket) :
  fold_left (fun v a => addTo (f a) v) l b
  = mkBucket (fold_left (fun sum a => (sum + f a)%float) l (total b))
             (List.length l + count b).
Proof.
  revert b. induction l as [|a l IH]; intros b; simpl.
  - now destruct b.
  - rewrite IH. simpl. f_equal. lia.
Qed.

(* ================================================================== *)
(** * Choosing the best entry *)
(* ================================================================== *)

Section Selection.

(** The loops of [calculateKPIs] and of [updateMap] differ in what they
    remember of the winner ([B], through [inj]) and in nothing else. *)
Context {B : Type} (inj : string -> B).

Local Abbreviation better :=
  (fun (best : B * float) (e : string * Bucket) =>
     if (snd best <? average (snd e))%float
     then (inj (fst e), average (snd e)) else best).

(** Strict [>] against a running best score: the state is left alone when
    no entry exceeds it, and otherwise ends on the first entry with the
    greatest average. *)
Lemma select_spec (l : list (string * Bucket)) (b0 : B) (s0 : float) :
  (fold_left better l (b0, s0) = (b0, s0)
   /\ Forall (fun e => (s0 <? Ranking.avg e)%float = false) l)
  \/ (exists l1 k b l2,
         l = (l1 ++ (k, b) :: l2)%list
         /\ fold_left better l (b0, s0) = (inj k, average b)
         /\ (s0 <? average b)%float = true
         /\ Forall (fun e => (average b <=? Ranking.avg e)%float = false) l1
         /\ Forall (fun e => (average b <? Ranking.avg e)%float = false) l2).
Proof.
  revert b0 s0. induction l as [|e l IH]; intros b0 s0.
  - left. split; [reflexivity|constructor].
  - simpl. destruct (s0 <? average (snd e))%float eqn:E.
    + destruct (IH (inj (fst e)) (average (snd e)))
        as [[Hfold Hall]|(l1 & k & b & l2 & Hl & Hfold & Hlt & H1 & H2)].
      * right. exists [], (fst e), (snd e), l.
        rewrite <- surjective_pairing. repeat split; auto.
      * right. exists (e :: l1), k, b, l2. subst l.
        repeat split; auto.
        -- now apply ltb_trans with (average (snd e)).
        -- constructor; [|assumption]. now apply ltb_not_leb.
    + destruct (IH b0 s0)
        as [[Hfold Hall]|(l1 & k & b & l2 & Hl & Hfold & Hlt & H1 & H2)].
      * left. split; [assumption|]. now constructor.
      * right. exists (e :: l1), k, b, l2. subst l.
        repeat split; auto.
        constructor; [|assumption].
        unfold Ranking.avg.
        destruct (average b <=? average (snd e))%float eqn:E';
          [|reflexivity].
        now rewrite (ltb_leb_trans _ _ _ Hlt E') in E.
Qed.

End Selection.

(** An entry that is the first greatest one is exceeded by no entry. *)
Lemma firstGreatest_max (l : list (string * Bucket)) (k : string) :
  Ranking.firstGreatest l k ->
  exists b, In (k, b) l /\ (0 <? average b)%float = true
            /\ Forall (fun e => (average b <? Ranking.avg e)%float = false) l.
Proof.
  intros (l1 & b & l2 & -> & Hpos & H1 & H2).
  exists b. split; [apply in_elt|]. split; [assumption|].
  apply Forall_app. split.
  - eapply Forall_impl; [|exact H1]. intros e He. simpl in He.
    destruct (average b <? Ranking.avg e)%float eqn:E; [|reflexivity].
    now rewrite (ltb_leb _ _ E) in He.
  - constructor; [apply ltb_irrefl|assumption].
Qed.

Lemma zero_not_positive (x : float) :
  (x =? 0)%float = true -> (0 <? x)%float = false.
Proof.
  intros H. rewrite <- (eqb_ltb_r _ _ 0%float H). reflexivity.
Qed.

(* ================================================================== *)
(** * The best operator of the KPIs *)
(* ================================================================== *)

(** [calculateKPIs] groups a record under its normalized operator name. *)
Lemma operatorKey_name (r : Rec.t) :
  DataProcessor.operatorKey r = Ranking.operatorName r.
Proof.
  unfold DataProcessor.operatorKey, Ranking.operatorName.
  destruct (Rec.operator r) as [name|]; simpl; [|reflexivity].
  now destruct (name =? "").
Qed.

Lemma recordsOf_key (k : string) (records : list Rec.t) :
  Ranking.recordsOf k records
  = filter (fun r => DataProcessor.operatorKey r =? k) records.
Proof.
  unfold Ranking.recordsOf. apply filter_ext. intros r.
  now rewrite operatorKey_name.
Qed.

Lemma operatorScores_NoDup (records : list Rec.t) :
  NoDup (map fst (DataProcessor.operatorScores records)).
Proof.
  apply (NoDup_group DataProcessor.operatorKey (fun _ => mkBucket 0 0)
           (fun r => addTo (JS.orZero (Rec.confidence_score r)))).
  constructor.
Qed.

(** The bucket of an operator key sums the scores of its records, a
    missing or zero score as 0, and counts them. *)
Lemma operatorScores_get (records : list Rec.t) (k : string) :
  JS.get k (DataProcessor.operatorScores records)
  = match Ranking.recordsOf k records with
    | [] => None
    | l =>
        Some (mkBucket (sumOf (fun r => JS.orZero (Rec.confidence_score r)) l)
                       (List.length l))
    end.
Proof.
  change (DataProcessor.operatorScores records)
    with (Grouping.group DataProcessor.operatorKey (fun _ => mkBucket 0 0)
            (fun r => addTo (JS.orZero (Rec.confidence_score r)))
            records []).
  rewrite get_group_nil, <- recordsOf_key.
  destruct (Ranking.recordsOf k records) as [|r l]; [reflexivity|].
  rewrite fold_addTo. simpl. unfold sumOf. simpl.
  do 2 f_equal. lia.
Qed.

Lemma isOperator_recordsOf (records : list Rec.t) (k : string) :
  Ranking.isOperator records k <-> Ranking.recordsOf k records <> [].
Proof.
  unfold Ranking.isOperator, Ranking.recordsOf. split.
  - intros (r & Hin & Hk) Hnil.
    assert (H : In r (filter (fun r => Ranking.operatorName r =? k)
                             records)).
    { apply filter_In. split; [assumption|]. now apply String.eqb_eq. }
    now rewrite Hnil in H.
  - destruct (filter _ records) as [|r l] eqn:E; [congruence|].
    intros _. assert (H : In r (r :: l)) by now left.
    rewrite <- E in H. apply filter_In in H. destruct H as [Hin Hk].
    exists r. split; [assumption|]. now apply String.eqb_eq.
Qed.

(** The entries the selection loop visits are the operator groups, each
    with its average. *)
Lemma operator_entry (records : list Rec.t) (k : string) (b : Bucket) :
  In (k, b) (JS.entries (DataProcessor.operatorScores records)) ->
  Ranking.isOperator records k
  /\ average b = Ranking.operatorAverage records k.
Proof.
  rewrite In_entries. intros Hin.
  apply In_get in Hin; [|apply operatorScores_NoDup].
  rewrite operatorScores_get in Hin.
  unfold Ranking.operatorAverage. rewrite isOperator_recordsOf.
  destruct (Ranking.recordsOf k records) as [|r l]; [discriminate|].
  injection Hin as <-. split; [discriminate|reflexivity].
Qed.

Lemma entry_of_operator (records : list Rec.t) (k : string) :
  Ranking.isOperator records k ->
  exists b, In (k, b) (JS.entries (DataProcessor.operatorScores records))
            /\ average b = Ranking.operatorAverage records k.
Proof.
  intros Hop. pose proof Hop as Hne. apply isOperator_recordsOf in Hne.
  pose proof (operatorScores_get records k) as Hget.
  destruct (Ranking.recordsOf k records) as [|r l] eqn:E; [congruence|].
  apply get_In in Hget. eexists. split.
  - apply In_entries. exact Hget.
  - unfold Ranking.operatorAverage. now rewrite E.
Qed.

(** The selection loop of [calculateKPIs], on the entries it visits. *)
Lemma bestOperator_select (records : list Rec.t) :
  let l := JS.entries (DataProcessor.operatorScores records) in
  (DataProcessor.bestOperator records = "N/A" /\ Ranking.nonePositive l)
  \/ Ranking.firstGreatest l (DataProcessor.bestOperator records).
Proof.
  cbv zeta. unfold DataProcessor.bestOperator.
  destruct (select_spec (fun k => k)
              (JS.entries (DataProcessor.operatorScores records))
              "N/A" 0%float)
    as [[Hfold Hall]|(l1 & k & b & l2 & Hl & Hfold & Hlt & H1 & H2)].
  - left. unfold DataProcessor.betterOperator. cbv zeta.
    rewrite Hfold. split; [reflexivity|exact Hall].
  - right. unfold DataProcessor.betterOperator. cbv zeta.
    rewrite Hfold. simpl. now exists l1, b, l2.
Qed.

(** The same, on the operators and their average scores: the result is
    "N/A" when no operator averages above 0, and otherwise an operator
    whose average is above 0 and exceeded by no operator's. *)
Lemma bestOperator_cases (records : list Rec.t) :
  (DataProcessor.bestOperator records = "N/A"
   /\ forall k, Ranking.isOperator records k ->
                (0 <? Ranking.operatorAverage records k)%float = false)
  \/ (Ranking.isOperator records (DataProcessor.bestOperator records)
      /\ (0 <? Ranking.operatorAverage records
                 (DataProcessor.bestOperator records))%float = true
      /\ forall k, Ranking.isOperator records k ->
                   (Ranking.operatorAverage records
                      (DataProcessor.bestOperator records)
                    <? Ranking.operatorAverage records k)%float = false).
Proof.
  destruct (bestOperator_select records) as [[Hna Hall]|Hfirst].
  - left. split; [assumption|]. intros k Hk.
    destruct (entry_of_operator records k Hk) as (b & Hin & Havg).
    unfold Ranking.nonePositive in Hall. rewrite Forall_forall in Hall.
    specialize (Hall _ Hin). unfold Ranking.avg in Hall. simpl in Hall.
    now rewrite Havg in Hall.
  - right. apply firstGreatest_max in Hfirst.
    destruct Hfirst as (b & Hin & Hpos & Hmax).
    destruct (operator_entry _ _ _ Hin) as [Hop Havg].
    rewrite Havg in *. repeat split; try assumption.
    intros k Hk.
    destruct (entry_of_operator records k Hk) as (b' & Hin' & Havg').
    rewrite Forall_forall in Hmax. specialize (Hmax _ Hin').
    unfold Ranking.avg in Hmax. simpl in Hmax. now rewrite Havg' in Hmax.
Qed.

(** The [bestOperator] field of the snapshot is what the selection loop
    ends with; for no record it is "N/A". *)
Lemma calculateKPIs_bestOperator (records : list Rec.t) :
  JS.get "bestOperator" (DataProcessor.calculateKPIs records)
  = Some (JS.Str (DataProcessor.bestOperator records)).
Proof. now destruct records. Qed.

(** C3: the [bestOperator] of the snapshot [calculateKPIs] returns is
    chosen among the operators of the records, grouped by their
    normalized name, with a threshold starting at 0 and a strict [>]: it
    is "N/A" when no operator's average confidence score is above 0, and
    otherwise an operator whose average is above 0 and exceeded by no
    operator's.  Hence the operator whose average is strictly greatest
    wins (when that average is above 0); an operator whose average is
    exactly 0 never wins while some operator has a positive average; and
    when every operator's average is 0 the result is "N/A". *)
Theorem bestOperator_rule (records : list Rec.t) :
  exists best,
    JS.get "bestOperator" (DataProcessor.calculateKPIs records)
    = Some (JS.Str best)
    /\ ((best = "N/A"
         /\ forall k, Ranking.isOperator records k ->
                      (0 <? Ranking.operatorAverage records k)%float = false)
        \/ (Ranking.isOperator records best
            /\ (0 <? Ranking.operatorAverage records best)%float = true
            /\ forall k, Ranking.isOperator records k ->
                         (Ranking.operatorAverage records best
                          <? Ranking.operatorAverage records k)%float
                         = false))
    /\ (forall k,
           Ranking.isOperator records k ->
           (0 <? Ranking.operatorAverage records k)%float = true ->
           (forall k', Ranking.isOperator records k' -> k' <> k ->
                       (Ranking.operatorAverage records k'
                        <? Ranking.operatorAverage records k)%float = true) ->
           best = k)
    /\ (forall z p,
           Ranking.isOperator records z -> Ranking.isOperator records p ->
           (Ranking.operatorAverage records z =? 0)%float = true ->
           (0 <? Ranking.operatorAverage records p)%float = true ->
           best <> z)
    /\ ((forall k, Ranking.isOperator records k ->
                   (Ranking.operatorAverage records k =? 0)%float = true) ->
        best = "N/A").
Proof.
  exists (DataProcessor.bestOperator records).
  split; [apply calculateKPIs_bestOperator|].
  split; [apply bestOperator_cases|].
  destruct (bestOperator_cases records)
    as [[Hna Hall]|(Hop & Hpos & Hmax)].
  - split; [|split].
    + intros k Hk Hk0 _. now rewrite (Hall k Hk) in Hk0.
    + intros z p _ Hp _ Hp0. now rewrite (Hall p Hp) in Hp0.
    + intros _. assumption.
  - split; [|split].
    + intros k Hk Hk0 Hgreatest.
      destruct (string_dec (DataProcessor.bestOperator records) k)
        as [|Hne]; [assumption|].
      specialize (Hgreatest _ Hop Hne). now rewrite (Hmax k Hk) in Hgreatest.
    + intros z p Hz _ Hz0 _ Heq. rewrite Heq in Hpos.
      now rewrite (zero_not_positive _ Hz0) in Hpos.
    + intros Hzero. specialize (Hzero _ Hop).
      now rewrite (zero_not_positive _ Hzero) in Hpos.
Qed.

(** The examples of the specification: scores 0.9, 0.9 for A and 0.2
    for B; a tie, which the operator met first wins -- unless a name is an
    array index, which [Object.entries] lists before the others; and
    scores that are all 0. *)
Example bestOperator_examples :
  let obs op score := Sample.obs "X" (Some op) "4G" (Some score) in
  DataProcessor.bestOperator
    [obs "A" 0.9%float; obs "B" 0.2%float; obs "A" 0.9%float] = "A"
  /\ DataProcessor.bestOperator [obs "b" 0.5%float; obs "a" 0.5%float] = "B"
  /\ DataProcessor.bestOperator [obs "b" 0.5%float; obs "7" 0.5%float] = "7"
  /\ DataProcessor.bestOperator [obs "a" 0%float; obs "b" 0%float] = "N/A"
  /\ DataProcessor.bestOperator [obs "a" 0%float; obs "b" 0.5%float] = "B".
Proof. vm_compute. repeat split. Qed.

(* ================================================================== *)
(** * The best operator of an area *)
(* ================================================================== *)

Lemma operatorBuckets_NoDup (records : list Rec.t) :
  NoDup (map fst (MapManager.operatorBuckets records)).
Proof.
  apply (NoDup_group (fun r => JS.strOf (Rec.operator r))
           (fun _ => mkBucket 0 0)
           (fun r => addTo (JS.toNumber (Rec.confidence_score r)))).
  constructor.
Qed.

(** The inner object of an area is filled by the records of that area
    alone, in their order. *)
Lemma areaOperators_get (records : list Rec.t) (area : string) :
  JS.get area (MapManager.areaOperators records)
  = match Ranking.inArea area records with
    | [] => None
    | l => Some (MapManager.operatorBuckets l)
    end.
Proof.
  change (MapManager.areaOperators records)
    with (Grouping.group Rec.area (fun _ => @nil (string * Bucket))
            (fun record =>
               JS.upsert (JS.strOf (Rec.operator record)) (mkBucket 0 0)
                 (addTo (JS.toNumber (Rec.confidence_score record))))
            records []).
  rewrite get_group_nil. fold (Ranking.inArea area records).
  now destruct (Ranking.inArea area records).
Qed.

(** The bucket of an operator within a record list. *)
Lemma operatorBuckets_get (records : list Rec.t) (k : string) :
  JS.get k (MapManager.operatorBuckets records)
  = match filter (fun r => JS.strOf (Rec.operator r) =? k) records with
    | [] => None
    | l =>
        Some (mkBucket
                (sumOf (fun r => JS.toNumber (Rec.confidence_score r)) l)
                (List.length l))
    end.
Proof.
  change (MapManager.operatorBuckets records)
    with (Grouping.group (fun r => JS.strOf (Rec.operator r))
            (fun _ => mkBucket 0 0)
            (fun r => addTo (JS.toNumber (Rec.confidence_score r)))
            records []).
  rewrite get_group_nil.
  destruct (filter _ records) as [|r l]; [reflexivity|].
  rewrite fold_addTo. simpl. unfold sumOf. simpl.
  do 2 f_equal. lia.
Qed.

Section BestOperators.

Variable areas : JS.obj (JS.obj Bucket).

Local Abbreviation record :=
  (fun (acc : JS.obj (option string)) (area : string) =>
     match JS.get area areas with
     | Some ops => JS.set area (MapManager.bestOf ops) acc
     | None => acc
     end).

Lemma bestOperators_keeps (ks : list string) (acc : JS.obj (option string))
    (area : string) (ops : JS.obj Bucket) :
  JS.get area areas = Some ops ->
  JS.get area acc = Some (MapManager.bestOf ops) ->
  JS.get area (fold_left record ks acc) = Some (MapManager.bestOf ops).
Proof.
  intros Hops. revert acc.
  induction ks as [|k ks IH]; intros acc Hacc; simpl; [assumption|].
  apply IH. destruct (string_dec k area) as [->|Hne].
  - rewrite Hops. apply get_set_same.
  - destruct (JS.get k areas); [|assumption].
    now rewrite get_set_other.
Qed.

Lemma bestOperators_records (ks : list string)
    (acc : JS.obj (option string)) (area : string) (ops : JS.obj Bucket) :
  JS.get area areas = Some ops -> In area ks ->
  JS.get area (fold_left record ks acc) = Some (MapManager.bestOf ops).
Proof.
  intros Hops. revert acc.
  induction ks as [|k ks IH]; intros acc Hin; simpl; [destruct Hin|].
  destruct (string_dec k area) as [->|Hne].
  - rewrite Hops. apply bestOperators_keeps; [assumption|].
    apply get_set_same.
  - destruct Hin as [Heq|Hin]; [contradiction|]. now apply IH.
Qed.

End BestOperators.

Lemma fold_keys_entries (ops : JS.obj Bucket) (l : list (string * Bucket))
    (best : option string * float) :
  (forall e, In e l -> JS.get (fst e) ops = Some (snd e)) ->
  fold_left (MapManager.betterOperator ops) (map fst l) best
  = fold_left
      (fun best e =>
         if (snd best <? average (snd e))%float
         then (Some (fst e), average (snd e)) else best)
      l best.
Proof.
  revert best. induction l as [|e l IH]; intros best Hl; simpl;
    [reflexivity|].
  rewrite IH by (intros e' He'; apply Hl; now right).
  unfold MapManager.betterOperator.
  now rewrite (Hl e (or_introl eq_refl)).
Qed.

Lemma bestOf_entries (ops : JS.obj Bucket) :
  NoDup (map fst ops) ->
  MapManager.bestOf ops
  = fst (fold_left
           (fun best e =>
              if (snd best <? average (snd e))%float
              then (Some (fst e), average (snd e)) else best)
           (JS.entries ops) (None, 0%float)).
Proof.
  intros Hnd. unfold MapManager.bestOf, JS.keys.
  rewrite fold_keys_entries; [reflexivity|].
  intros [k b] Hin. simpl. apply In_get; [assumption|].
  now apply In_entries.
Qed.

(** The selection loop of [updateMap], on the entries it visits. *)
Lemma bestOf_select (ops : JS.obj Bucket) :
  NoDup (map fst ops) ->
  (MapManager.bestOf ops = None /\ Ranking.nonePositive (JS.entries ops))
  \/ (exists k, MapManager.bestOf ops = Some k
                /\ Ranking.firstGreatest (JS.entries ops) k).
Proof.
  intros Hnd. rewrite bestOf_entries by assumption.
  destruct (select_spec (@Some string) (JS.entries ops) None 0%float)
    as [[Hfold Hall]|(l1 & k & b & l2 & Hl & Hfold & Hlt & H1 & H2)].
  - left. rewrite Hfold. split; [reflexivity|exact Hall].
  - right. exists k. rewrite Hfold. split; [reflexivity|].
    now exists l1, b, l2.
Qed.



(* ================================================================== *)
(** * Letter case of operator names *)
(* ================================================================== *)

Lemma upperChar_idem (c : ascii) : JS.upperChar (JS.upperChar c) = JS.upperChar c.
Proof. destruct c as [[] [] [] [] [] [] [] []]; reflexivity. Qed.

Lemma toUpperCase_idem (s : string) :
  JS.toUpperCase (JS.toUpperCase s) = JS.toUpperCase s.
Proof.
  induction s as [|c s IH]; simpl; [reflexivity|].
  now rewrite upperChar_idem, IH.
Qed.

Lemma toUpperCase_length (s : string) :
  String.length (JS.toUpperCase s) = String.length s.
Proof. induction s; simpl; congruence. Qed.

Lemma toUpperCase_empty (s : string) : JS.toUpperCase s = "" -> s = "".
Proof. destruct s; [reflexivity|discriminate]. Qed.

(** Names that differ only in case are grouped under one key by
    [calculateKPIs]. *)
Lemma operatorKey_case (r1 r2 : Rec.t) (s1 s2 : string) :
  Rec.operator r1 = Some s1 -> Rec.operator r2 = Some s2 ->
  JS.toUpperCase s1 = JS.toUpperCase s2 ->
  DataProcessor.operatorKey r1 = DataProcessor.operatorKey r2.
Proof.
  unfold DataProcessor.operatorKey. intros -> -> Hup. simpl.
  destruct (String.eqb_spec s1 ""), (String.eqb_spec s2 ""); simpl;
    try assumption; try reflexivity; subst.
  - symmetry in Hup. apply toUpperCase_empty in Hup. contradiction.
  - apply toUpperCase_empty in Hup. contradiction.
Qed.

Lemma operatorKey_missing (r : Rec.t) :
  Rec.operator r = None -> DataProcessor.operatorKey r = "UNKNOWN".
Proof. unfold DataProcessor.operatorKey. now intros ->. Qed.

Lemma operatorKey_upper (r : Rec.t) :
  Casing.isUpperCase (DataProcessor.operatorKey r).
Proof. apply toUpperCase_idem. Qed.

(** The best operator is "N/A" or the key of an operator group, hence an
    upper-case string. *)
Lemma bestOperator_upper (records : list Rec.t) :
  Casing.isUpperCase (DataProcessor.bestOperator records).
Proof.
  destruct (bestOperator_cases records) as [[-> _]|[(r & _ & <-) _]].
  - reflexivity.
  - rewrite <- operatorKey_name. apply operatorKey_upper.
Qed.

Lemma length_append (s t : string) :
  String.length (s ++ t) = String.length s + String.length t.
Proof. induction s; simpl; congruence. Qed.

Lemma append_same_length (x y s t : string) :
  x ++ s = y ++ t -> String.length s = String.length t -> s = t.
Proof.
  revert y. induction x as [|c x IH]; intros y Heq Hlen.
  - destruct y as [|d y]; [assumption|]. simpl in Heq.
    apply (f_equal String.length) in Heq. simpl in Heq.
    rewrite length_append in Heq. lia.
  - destruct y as [|d y]; simpl in Heq.
    + apply (f_equal String.length) in Heq. simpl in Heq.
      rewrite length_append in Heq. lia.
    + injection Heq as _ Heq. now apply (IH y).
Qed.

(** Names that differ, but only in case, give different keys to
    [getAreaWiseData]. *)
Lemma areaKey_case (r1 r2 : Rec.t) (s1 s2 : string) :
  Rec.operator r1 = Some s1 -> Rec.operator r2 = Some s2 ->
  Casing.differInCaseOnly s1 s2 ->
  DataProcessor.areaKey r1 <> DataProcessor.areaKey r2.
Proof.
  unfold DataProcessor.areaKey. intros -> -> [Hne Hup] Heq. simpl in Heq.
  apply Hne.
  assert (Hlen : String.length s1 = String.length s2).
  { rewrite <- (toUpperCase_length s1), <- (toUpperCase_length s2).
    now rewrite Hup. }
  apply append_same_length in Heq.
  - now injection Heq.
  - simpl. now rewrite Hlen.
Qed.

Lemma insertBy_Permutation {A} (cmp : A -> A -> float) (x : A)
    (l : list A) :
  Permutation (JS.insertBy cmp x l) (x :: l).
Proof.
  induction l as [|y l IH]; simpl; [reflexivity|].
  destruct (0 <? cmp x y)%float; [|reflexivity].
  rewrite IH. apply perm_swap.
Qed.

(** Sorting rearranges the rows and nothing else. *)
Lemma sort_Permutation {A} (cmp : A -> A -> float) (l : list A) :
  Permutation (JS.sort cmp l) l.
Proof.
  induction l as [|x l IH]; simpl; [reflexivity|].
  fold (JS.sort cmp l). rewrite insertBy_Permutation. now constructor.
Qed.

Lemma fold_addRecord_display (l : list Rec.t)
    (t : DataProcessor.AreaTotals) :
  let t' := fold_left (fun t r => DataProcessor.addRecord r t) l t in
  DataProcessor.at_area t' = DataProcessor.at_area t
  /\ DataProcessor.at_operator t' = DataProcessor.at_operator t.
Proof.
  revert t. induction l as [|r l IH]; intros t; simpl; [now split|].
  apply (IH (DataProcessor.addRecord r t)).
Qed.

Lemma areaTotals_NoDup (records : list Rec.t) :
  NoDup (map fst (DataProcessor.areaTotals records)).
Proof.
  apply (NoDup_group DataProcessor.areaKey
           (fun r => DataProcessor.mkAreaTotals (Rec.area r) (Rec.operator r)
                       0 0 0 0)
           DataProcessor.addRecord).
  constructor.
Qed.

(** Every record of the selection has a bucket under its key, and a bucket
    shows the area and the operator of the first record of its key. *)
Lemma areaTotals_get (records : list Rec.t) (k : string) :
  JS.get k (DataProcessor.areaTotals records)
  = match filter (fun r => DataProcessor.areaKey r =? k) records with
    | [] => None
    | r :: l =>
        Some (fold_left (fun t r' => DataProcessor.addRecord r' t) l
                (DataProcessor.addRecord r
                   (DataProcessor.mkAreaTotals (Rec.area r) (Rec.operator r)
                      0 0 0 0)))
    end.
Proof.
  change (DataProcessor.areaTotals records)
    with (Grouping.group DataProcessor.areaKey
            (fun r => DataProcessor.mkAreaTotals (Rec.area r) (Rec.operator r)
                        0 0 0 0)
            DataProcessor.addRecord records []).
  apply get_group_nil.
Qed.

Lemma areaTotals_of_record (records : list Rec.t) (r : Rec.t) :
  In r records ->
  exists t, In (DataProcessor.areaKey r, t) (DataProcessor.areaTotals records).
Proof.
  intros Hin.
  assert (Hf : In r (filter (fun r' => DataProcessor.areaKey r'
                                       =? DataProcessor.areaKey r) records)).
  { apply filter_In. split; [assumption|apply String.eqb_refl]. }
  pose proof (areaTotals_get records (DataProcessor.areaKey r)) as Hget.
  destruct (filter _ records) as [|r0 l]; [destruct Hf|].
  eexists. apply get_In. exact Hget.
Qed.

Lemma areaTotals_rowKey (records : list Rec.t) (k : string)
    (t : DataProcessor.AreaTotals) :
  In (k, t) (DataProcessor.areaTotals records) ->
  Casing.rowKey (DataProcessor.summarize t) = k.
Proof.
  intros Hin. apply In_get in Hin; [|apply areaTotals_NoDup].
  rewrite areaTotals_get in Hin.
  destruct (filter _ records) as [|r0 l] eqn:E; [discriminate|].
  injection Hin as <-.
  assert (Hr0 : In r0 (r0 :: l)) by now left.
  rewrite <- E in Hr0. apply filter_In in Hr0.
  destruct Hr0 as [_ Hk]. apply String.eqb_eq in Hk.
  unfold Casing.rowKey, DataProcessor.summarize. simpl.
  destruct (fold_addRecord_display l
              (DataProcessor.addRecord r0
                 (DataProcessor.mkAreaTotals (Rec.area r0) (Rec.operator r0)
                    0 0 0 0))) as [-> ->].
  exact Hk.
Qed.

(** The table has a row for every record of the selection, under the
    record's key. *)
Lemma getAreaWiseData_row (records : list Rec.t) (r : Rec.t) :
  In r records ->
  exists row, In row (DataProcessor.getAreaWiseData records)
              /\ Casing.rowKey row = DataProcessor.areaKey r.
Proof.
  intros Hin. destruct (areaTotals_of_record records r Hin) as [t Ht].
  exists (DataProcessor.summarize t). split.
  - unfold DataProcessor.getAreaWiseData.
    eapply Permutation_in; [symmetry; apply sort_Permutation|].
    apply in_map. unfold JS.values.
    apply In_entries in Ht. now apply (in_map snd) in Ht.
  - now apply areaTotals_rowKey in Ht.
Qed.

Lemma setAdd_In (v w : option string) (s : list (option string)) :
  In v s \/ v = w -> In v (DataProcessor.setAdd w s).
Proof.
  unfold DataProcessor.setAdd. intros [Hin| ->].
  - destruct (existsb _ s); [assumption|]. apply in_or_app. now left.
  - destruct (existsb (DataProcessor.sameOperator w) s) eqn:E.
    + apply existsb_exists in E. destruct E as (x & Hx & Hsame).
      assert (x = w) as ->; [|assumption].
      destruct w as [a|], x as [b|]; simpl in Hsame;
        try discriminate; [|reflexivity].
      apply String.eqb_eq in Hsame. now subst.
    + apply in_or_app. right. now left.
Qed.

(** The marker group of an area lists the raw operator of every record of
    the area. *)
Lemma mapGroups_operator (records : list Rec.t) (r : Rec.t) :
  In r records ->
  exists g, JS.get (Rec.area r) (DataProcessor.mapGroups records) = Some g
            /\ In (Rec.operator r) (DataProcessor.operators g).
Proof.
  unfold DataProcessor.mapGroups.
  induction records as [|x l IH] using rev_ind; [intros []|].
  intros Hin. rewrite fold_left_app. simpl.
  apply in_app_or in Hin.
  destruct (string_dec (Rec.area x) (Rec.area r)) as [Heq|Hne].
  - rewrite <- Heq. rewrite get_upsert_same.
    eexists. split; [reflexivity|]. simpl. apply setAdd_In.
    destruct Hin as [Hin|[->|[]]]; [|now right].
    destruct (IH Hin) as (g & Hg & Hop).
    rewrite Heq, Hg. now left.
  - rewrite get_upsert_other by assumption.
    destruct Hin as [Hin|[->|[]]]; [now apply IH|contradiction].
Qed.

(* ================================================================== *)
(** * Averages of empty buckets, sums over missing measures *)
(* ================================================================== *)

(** A bucket that counted no record is charted as 0. *)
Lemma ratio_empty (sum : float) : AdminDashboardController.ratio sum 0 = 0%float.
Proof. reflexivity. Qed.

Lemma series_empty_buckets :
  (forall b, TelecomDataService.peakCount b = 0 ->
             AdminDashboardController.peakSeries [("k", b)] = [0%float])
  /\ (forall b, TelecomDataService.nonPeakCount b = 0 ->
                AdminDashboardController.nonPeakSeries [("k", b)]
                = [0%float])
  /\ (forall b, count b = 0 ->
                AdminDashboardController.scoreSeries [("k", b)] = [0%float]).
Proof.
  repeat split; intros b Hb;
    unfold AdminDashboardController.peakSeries,
           AdminDashboardController.nonPeakSeries,
           AdminDashboardController.scoreSeries; simpl;
    now rewrite Hb.
Qed.

(** The buckets of the user dashboard are created by the record they first
    count, so none of them is empty. *)
Lemma operatorScores_counted (records : list Rec.t) (k : string)
    (b : Bucket) :
  JS.get k (DataProcessor.operatorScores records) = Some b -> 0 < count b.
Proof.
  rewrite operatorScores_get.
  destruct (Ranking.recordsOf k records); [discriminate|].
  intros [= <-]. simpl. lia.
Qed.

(** The KPI sums take a missing measure, [NaN] and 0 alike as 0. *)
Lemma orZero_tolerant :
  JS.orZero None = 0%float /\ JS.orZero (Some PrimFloat.nan) = 0%float.
Proof. split; reflexivity. Qed.

(** C4 at a record without confidence score: the sums of [getChartData]
    and of [getAreaWiseData] do not take the missing measure as 0 -- the
    operator's score sum and charted average are [NaN] and the table prints
    "NaN" -- while [getAggregatedMetrics] and [calculateKPIs], which read
    the same field through [|| 0], report the average 0.13 of the scores
    0.25 and 0. *)
Theorem missing_score_not_taken_as_zero :
  let data := [Sample.airtel; Sample.unscored] in
  let chart := TelecomDataService.getChartData data in
  JS.get "Airtel" (TelecomDataService.scoreByOp chart)
  = Some (mkBucket PrimFloat.nan 2)
  /\ AdminDashboardController.scoreSeries
       (TelecomDataService.scoreByOp chart) = [PrimFloat.nan]
  /\ map DataProcessor.avgScore (DataProcessor.getAreaWiseData data)
     = ["NaN"]
  /\ option_map (JS.get "avgNetworkScore")
       (TelecomDataService.getAggregatedMetrics data)
     = Some (Some (JS.Str "0.13"))
  /\ JS.get "avgScore" (DataProcessor.calculateKPIs data)
     = Some (JS.Str "0.13").
Proof. vm_compute. repeat split. Qed.

(* ================================================================== *)
(** * Sorting the table by score *)
(* ================================================================== *)

Lemma insertByM_total {A} (cmp : A -> A -> float) (x : A) (l : list A) :
  JS.insertByM (fun a b => Some (cmp a b)) x l = Some (JS.insertBy cmp x l).
Proof.
  induction l as [|y l IH]; simpl; [reflexivity|].
  destruct (0 <? cmp x y)%float; [|reflexivity]. now rewrite IH.
Qed.

(** A comparator that never raises sorts as [JS.sort] does. *)
Lemma sortM_total {A} (cmp : A -> A -> float) (l : list A) :
  JS.sortM (fun a b => Some (cmp a b)) l = Some (JS.sort cmp l).
Proof.
  induction l as [|x l IH]; simpl; [reflexivity|].
  rewrite IH. apply insertByM_total.
Qed.

Lemma byScore_sort (direction : string)
    (rows : list DataProcessor.AreaSummary) :
  Sorting.byScore direction rows
  = Some (JS.sort
            (fun a b =>
               (TableManager.multiplier direction
                * (TableManager.score a - TableManager.score b))%float)
            rows).
Proof.
  unfold Sorting.byScore, TableManager.applySorting. simpl.
  change (TableManager.comparator "score"
            (TableManager.multiplier direction))
    with (fun a b : DataProcessor.AreaSummary =>
            Some (TableManager.multiplier direction
                  * (TableManager.score a - TableManager.score b))%float).
  now rewrite sortM_total.
Qed.

(** On two rows with distinct scores the comparator of the score column
    is positive exactly when the rows stand in the wrong order. *)
Lemma score_comparator_sign (a b : DataProcessor.AreaSummary) :
  Sorting.apart a b = true ->
  (0 <? (-1) * (TableManager.score a - TableManager.score b))%float
  = (TableManager.score a <? TableManager.score b)%float
  /\ (0 <? 1 * (TableManager.score a - TableManager.score b))%float
     = (TableManager.score b <? TableManager.score a)%float.
Proof.
  unfold Sorting.apart. intros H. apply orb_true_iff in H.
  destruct H as [H|H].
  - destruct (comparator_sign _ _ H) as (H1 & _ & H3 & _).
    now rewrite H1, H3, H, (ltb_asym _ _ H).
  - destruct (comparator_sign _ _ H) as (_ & H2 & _ & H4).
    now rewrite H2, H4, H, (ltb_asym _ _ H).
Qed.

(** Pairwise distinct scores: no row occurs twice, and any two different
    rows are strictly ordered. *)
Lemma distinctScores_spec (rows : list DataProcessor.AreaSummary) :
  Sorting.distinctScores rows = true ->
  NoDup rows
  /\ forall a b, In a rows -> In b rows -> a <> b ->
                 Sorting.apart a b = true.
Proof.
  induction rows as [|x l IH]; simpl.
  - intros _. split; [constructor|intros a b []].
  - intros H. apply andb_true_iff in H. destruct H as [Hx Hl].
    rewrite forallb_forall in Hx. destruct (IH Hl) as [Hnd Hap].
    assert (Hsym : forall a b, Sorting.apart a b = Sorting.apart b a).
    { intros a b. unfold Sorting.apart. apply orb_comm. }
    split.
    + constructor; [|assumption]. intros Hin. specialize (Hx x Hin).
      unfold Sorting.apart in Hx. now rewrite ltb_irrefl in Hx.
    + intros a b [<-|Ha] [<-|Hb] Hne.
      * now contradiction Hne.
      * now apply Hx.
      * rewrite Hsym. now apply Hx.
      * now apply Hap.
Qed.

Section RoundTrip.

Import DataProcessor.

Variable rows : list AreaSummary.
Hypothesis distinct : Sorting.distinctScores rows = true.

Local Abbreviation desc :=
  (fun a b : AreaSummary =>
     ((-1) * (TableManager.score a - TableManager.score b))%float).
Local Abbreviation asc :=
  (fun a b : AreaSummary =>
     (1 * (TableManager.score a - TableManager.score b))%float).

Lemma insert_descending (x : AreaSummary) (l : list AreaSummary) :
  In x rows -> incl l rows -> ~ In x l -> Sorting.descending l ->
  Sorting.descending (JS.insertBy desc x l).
Proof.
  intros Hx Hl Hnin Hd.
  induction Hd as [|y l Hy Hd IH]; simpl.
  - constructor; [intros y []|constructor].
  - assert (Hyr : In y rows) by (apply Hl; now left).
    assert (Hap : Sorting.apart x y = true).
    { apply (distinctScores_spec rows distinct); try assumption.
      intros ->. apply Hnin. now left. }
    rewrite (proj1 (score_comparator_sign x y Hap)).
    destruct (TableManager.score x <? TableManager.score y)%float eqn:E.
    + constructor.
      * intros z Hz.
        apply (Permutation_in _ (insertBy_Permutation desc x l)) in Hz.
        destruct Hz as [<-|Hz]; [assumption|now apply Hy].
      * apply IH.
        -- intros z Hz. apply Hl. now right.
        -- intros Hin. apply Hnin. now right.
    + assert (Hyx : (TableManager.score y <? TableManager.score x)%float
                    = true).
      { unfold Sorting.apart in Hap. now rewrite E in Hap. }
      constructor; [|now constructor].
      intros z [<-|Hz]; [assumption|].
      apply ltb_trans with (TableManager.score y); auto.
Qed.

(** Sorting by score, best first, puts the rows in descending order. *)
Lemma sort_descending (l : list AreaSummary) :
  incl l rows -> NoDup l -> Sorting.descending (JS.sort desc l).
Proof.
  induction l as [|x l IH]; intros Hl Hnd; simpl; [constructor|].
  inversion_clear Hnd as [|? ? Hx Hnd'].
  fold (JS.sort desc l).
  assert (Hl' : incl l rows) by (intros z Hz; apply Hl; now right).
  apply insert_descending.
  - apply Hl. now left.
  - intros z Hz. apply Hl'.
    now apply (Permutation_in _ (sort_Permutation desc l)).
  - intros Hin. apply Hx.
    now apply (Permutation_in _ (sort_Permutation desc l)).
  - now apply IH.
Qed.

Lemma insert_last (x : AreaSummary) (l : list AreaSummary) :
  (forall y, In y l -> (0 <? asc x y)%float = true) ->
  JS.insertBy asc x l = (l ++ [x])%list.
Proof.
  induction l as [|y l IH]; intros H; simpl; [reflexivity|].
  rewrite (H y (or_introl eq_refl)). rewrite IH; [reflexivity|].
  intros z Hz. apply H. now right.
Qed.

(** Sorting rows that are in descending order by score, worst first,
    reverses them. *)
Lemma sort_ascending_of_descending (l : list AreaSummary) :
  Sorting.descending l -> JS.sort asc l = rev l.
Proof.
  intros Hd. induction Hd as [|x l Hx Hd IH]; simpl; [reflexivity|].
  fold (JS.sort asc l). rewrite IH. apply insert_last.
  intros y Hy. apply in_rev in Hy. specialize (Hx y Hy).
  assert (Hap : Sorting.apart x y = true)
    by (unfold Sorting.apart; rewrite Hx; apply orb_true_r).
  now rewrite (proj2 (score_comparator_sign x y Hap)).
Qed.

Lemma sorted_round_trip :
  JS.sort asc (JS.sort desc rows) = rev (JS.sort desc rows).
Proof.
  apply sort_ascending_of_descending.
  apply sort_descending; [apply incl_refl|].
  apply (distinctScores_spec rows distinct).
Qed.

End RoundTrip.

(** The descending order of rows with distinct scores is unique: whatever
    way an engine sorts, a rearrangement of the rows that is in descending
    order is the one [JS.sort] returns. *)
Lemma descending_unique (l1 l2 : list DataProcessor.AreaSummary) :
  Sorting.descending l1 -> Sorting.descending l2 -> Permutation l1 l2 ->
  l1 = l2.
Proof.
  intros H1. revert l2.
  induction H1 as [|x l1 Hx H1 IH]; intros l2 H2 Hp.
  - now apply Permutation_nil in Hp.
  - destruct H2 as [|y l2 Hy H2].
    + apply Permutation_sym, Permutation_nil in Hp. discriminate.
    + assert (Hxy : x = y).
      { assert (Hin1 : In x (y :: l2))
          by (apply (Permutation_in _ Hp); now left).
        assert (Hin2 : In y (x :: l1))
          by (apply (Permutation_in _ (Permutation_sym Hp)); now left).
        destruct Hin1 as [->|Hin1]; [reflexivity|].
        destruct Hin2 as [->|Hin2]; [reflexivity|].
        specialize (Hy _ Hin1). specialize (Hx _ Hin2).
        now rewrite (ltb_asym _ _ Hx) in Hy. }
      subst y. f_equal. apply IH; [assumption|].
      now apply Permutation_cons_inv in Hp.
Qed.

Lemma sort_unique (rows l : list DataProcessor.AreaSummary) :
  Sorting.distinctScores rows = true ->
  Permutation l rows -> Sorting.descending l ->
  l = JS.sort
        (fun a b =>
           ((-1) * (TableManager.score a - TableManager.score b))%float)
        rows.
Proof.
  intros Hd Hp Hl. apply descending_unique; [assumption| |].
  - apply (sort_descending rows Hd); [apply incl_refl|].
    apply (distinctScores_spec rows Hd).
  - rewrite Hp. symmetry. apply sort_Permutation.
Qed.

(* ================================================================== *)
(** * The properties at the sample data *)
(* ================================================================== *)


(** With the 3G record added to the sample selection, the operator x
    peak-flag grouping counts the five records and the city x
    network-type grouping the four of them that are 4G or 5G. *)
Lemma chart_counts_witness :
  let data := Sample.legacy :: Sample.selection in
  let d := TelecomDataService.getChartData data in
  Names.own Names.operatorText data
  /\ Names.own Rec.city data
  /\ Counts.countSum Counts.peakRecords
       (TelecomDataService.downloadByOpPeak d) = 5
  /\ Counts.countSum Counts.netRecords
       (TelecomDataService.latencyByCityNet d) = 4.
Proof.
  cbv zeta.
  assert (Ho : Names.own Names.operatorText
                 (Sample.legacy :: Sample.selection))
    by (repeat constructor).
  assert (Hc : Names.own Rec.city (Sample.legacy :: Sample.selection))
    by (repeat constructor).
  split; [exact Ho|]. split; [exact Hc|].
  destruct (chart_counts (Sample.legacy :: Sample.selection) Ho Hc)
    as (H1 & H2 & _).
  split; [exact H1|exact H2].
Defined.

(** The marker of an area shows the area's own best operator, "N/A" when
    no operator of the area averages above 0. *)
Example markerBestOperator_examples :
  MapManager.markerBestOperator Sample.selection "Indiranagar" = "JIO"
  /\ MapManager.markerBestOperator Sample.selection "Whitefield" = "Airtel"
  /\ DataProcessor.bestOperator Sample.selection = "JIO"
  /\ MapManager.markerBestOperator [Sample.unrated] "Whitefield" = "N/A".
Proof. vm_compute. repeat split. Qed.

(** On the sample, the two spellings share the KPI bucket "JIO" and keep
    two rows and two operator entries in the table and on the map. *)
Example operator_case_example :
  JS.keys (DataProcessor.operatorScores Sample.selection)
  = ["JIO"; "AIRTEL"; "VI"]
  /\ map Casing.rowKey (DataProcessor.getAreaWiseData Sample.selection)
     = ["Indiranagar_JIO"; "Indiranagar_Jio"; "Whitefield_Airtel";
        "Whitefield_VI"]
  /\ map DataProcessor.mi_operators
         (DataProcessor.getMapData Sample.selection)
     = ["Jio, JIO"; "Airtel, VI"].
Proof. vm_compute. repeat split. Qed.

(* ================================================================== *)
(** * Sets and the default sort *)
(* ================================================================== *)

Section SetFacts.

Context {A : Type} (same : A -> A -> bool).
Hypothesis same_spec : forall a b, same a b = true <-> a = b.

Lemma setAdd_member (v w : A) (s : list A) :
  In v (JS.setAdd same w s) <-> In v s \/ v = w.
Proof.
  unfold JS.setAdd. destruct (existsb (same w) s) eqn:E.
  - split; [auto|]. intros [H| ->]; [assumption|].
    apply existsb_exists in E. destruct E as (x & Hx & Hs).
    apply same_spec in Hs. now subst.
  - rewrite in_app_iff. simpl. intuition.
Qed.

Lemma setAdd_NoDup (w : A) (s : list A) :
  NoDup s -> NoDup (JS.setAdd same w s).
Proof.
  intros Hnd. unfold JS.setAdd. destruct (existsb (same w) s) eqn:E;
    [assumption|].
  apply NoDup_rev in Hnd. rewrite <- (rev_involutive (s ++ [w])).
  apply NoDup_rev. rewrite rev_app_distr. simpl. constructor; [|assumption].
  rewrite <- in_rev. intros Hin.
  assert (existsb (same w) s = true); [|congruence].
  apply existsb_exists. exists w. split; [assumption|now apply same_spec].
Qed.

Lemma fold_setAdd_member {B} (f : B -> option A) (l : list B) (s : list A)
    (v : A) :
  In v (fold_left
          (fun s b => match f b with
                      | Some a => JS.setAdd same a s
                      | None => s
                      end) l s)
  <-> In v s \/ exists b, In b l /\ f b = Some v.
Proof.
  revert s. induction l as [|b l IH]; intros s; simpl.
  - split; [auto|]. intros [H|(b & [] & _)]. assumption.
  - rewrite IH. destruct (f b) as [a|] eqn:E.
    + rewrite setAdd_member. split.
      * intros [[H| ->]|(b' & Hb' & Hf)]; eauto.
      * intros [H|(b' & [<-|Hb'] & Hf)]; eauto.
        rewrite E in Hf. injection Hf as ->. auto.
    + split.
      * intros [H|(b' & Hb' & Hf)]; eauto.
      * intros [H|(b' & [<-|Hb'] & Hf)]; eauto. congruence.
Qed.

Lemma fold_setAdd_NoDup {B} (f : B -> option A) (l : list B) (s : list A) :
  NoDup s ->
  NoDup (fold_left
           (fun s b => match f b with
                       | Some a => JS.setAdd same a s
                       | None => s
                       end) l s).
Proof.
  revert s. induction l as [|b l IH]; intros s Hnd; simpl; [assumption|].
  apply IH. destruct (f b); [now apply setAdd_NoDup|assumption].
Qed.

Lemma setOf_member (l : list A) (v : A) : In v (JS.setOf same l) <-> In v l.
Proof.
  unfold JS.setOf.
  rewrite (fold_setAdd_member (@Some A) l [] v). simpl. split.
  - intros [[]|(b & Hb & [= ->])]. assumption.
  - intros H. right. now exists v.
Qed.

Lemma setOf_NoDup (l : list A) : NoDup (JS.setOf same l).
Proof. apply (fold_setAdd_NoDup (@Some A)). constructor. Qed.

End SetFacts.

(** ** Sorting by a strict order *)

Section SortFacts.

(** The comparator follows the strict order [lt] on the values that
    satisfy [P]. *)
Context {A : Type} (P : A -> Prop) (lt : A -> A -> Prop)
        (cmp : A -> A -> float).
Hypothesis lt_trans : forall a b c, lt a b -> lt b c -> lt a c.
Hypothesis lt_total : forall a b, a <> b -> lt a b \/ lt b a.
Hypothesis cmp_sign :
  forall a b, P a -> P b -> lt a b ->
              (0 <? cmp a b)%float = false /\ (0 <? cmp b a)%float = true.

Lemma insertBy_sorted (x : A) (l : list A) :
  P x -> Forall P l -> ~ In x l -> StronglySorted lt l ->
  StronglySorted lt (JS.insertBy cmp x l).
Proof.
  intros Px Pl Hnin Hs. induction Hs as [|y l Hs IH Hy]; simpl.
  - constructor; constructor.
  - inversion_clear Pl as [|? ? Py Pl'].
    assert (Hne : x <> y) by (intros ->; apply Hnin; now left).
    destruct (lt_total x y Hne) as [Hlt|Hlt].
    + rewrite (proj1 (cmp_sign _ _ Px Py Hlt)). constructor.
      * now constructor.
      * constructor; [assumption|].
        rewrite Forall_forall in *. intros z Hz. eauto.
    + rewrite (proj2 (cmp_sign _ _ Py Px Hlt)). constructor.
      * apply IH; [assumption|]. intros Hin. apply Hnin. now right.
      * rewrite Forall_forall in *. intros z Hz.
        apply (Permutation_in _ (insertBy_Permutation cmp x l)) in Hz.
        destruct Hz as [<-|Hz]; auto.
Qed.

Lemma sort_sorted (l : list A) :
  Forall P l -> NoDup l -> StronglySorted lt (JS.sort cmp l).
Proof.
  induction l as [|x l IH]; intros Pl Hnd; simpl; [constructor|].
  inversion_clear Hnd as [|? ? Hx Hnd'].
  inversion_clear Pl as [|? ? Px Pl']. fold (JS.sort cmp l).
  apply insertBy_sorted; auto.
  - rewrite Forall_forall in *. intros z Hz. apply Pl'.
    now apply (Permutation_in _ (sort_Permutation cmp l)).
  - intros Hin. apply Hx.
    now apply (Permutation_in _ (sort_Permutation cmp l)).
Qed.

End SortFacts.

(** ** The order of the code units *)

Lemma compare_Lt_trans (a b c : string) :
  String.compare a b = Lt -> String.compare b c = Lt ->
  String.compare a c = Lt.
Proof.
  revert b c. induction a as [|x a IH]; intros [|y b] [|z c]; simpl;
    try discriminate; try reflexivity.
  unfold Ascii.compare.
  destruct (N.compare_spec (N_of_ascii x) (N_of_ascii y)) as [Exy|Hxy|Hxy];
    try discriminate;
    destruct (N.compare_spec (N_of_ascii y) (N_of_ascii z)) as [Eyz|Hyz|Hyz];
    try discriminate; intros H1 H2.
  - rewrite Exy, Eyz, N.compare_refl. eauto.
  - rewrite Exy. now apply N.compare_lt_iff in Hyz as ->.
  - rewrite <- Eyz. now apply N.compare_lt_iff in Hxy as ->.
  - assert (H : (N_of_ascii x < N_of_ascii z)%N) by lia.
    now apply N.compare_lt_iff in H as ->.
Qed.

Lemma before_trans (a b c : string) :
  Listing.before a b -> Listing.before b c -> Listing.before a c.
Proof.
  unfold Listing.before, String.ltb. intros H1 H2.
  destruct (String.compare a b) eqn:E1; try discriminate.
  destruct (String.compare b c) eqn:E2; try discriminate.
  now rewrite (compare_Lt_trans a b c).
Qed.

Lemma before_total (a b : string) :
  a <> b -> Listing.before a b \/ Listing.before b a.
Proof.
  intros Hne. unfold Listing.before, String.ltb.
  rewrite (String.compare_antisym b a).
  destruct (String.compare a b) eqn:E; simpl; auto.
  apply String.compare_eq_iff in E. contradiction.
Qed.

Lemma before_irrefl (a : string) : ~ Listing.before a a.
Proof.
  unfold Listing.before, String.ltb.
  pose proof (String.compare_antisym a a) as H.
  destruct (String.compare a a); simpl in H; discriminate.
Qed.

Lemma sortCompare_sign (a b : string) :
  Listing.before a b ->
  (0 <? JS.sortCompare a b)%float = false
  /\ (0 <? JS.sortCompare b a)%float = true.
Proof.
  unfold Listing.before, JS.sortCompare. intros H.
  assert (H' : String.ltb b a = false).
  { unfold String.ltb in *. rewrite (String.compare_antisym b a).
    destruct (String.compare a b); simpl; try discriminate. reflexivity. }
  rewrite H, H'. split; reflexivity.
Qed.

(** The default sort puts distinct strings in ascending order, and keeps
    them all. *)
Lemma sortStrings_ascending (l : list string) :
  NoDup l -> Listing.ascending (JS.sortStrings l).
Proof.
  intros Hnd. apply (sort_sorted (fun _ => True)); try assumption.
  - apply before_trans.
  - apply before_total.
  - intros a b _ _. apply sortCompare_sign.
  - now apply Forall_forall.
Qed.

Lemma sortStrings_member (l : list string) (v : string) :
  In v (JS.sortStrings l) <-> In v l.
Proof.
  split; apply Permutation_in;
    [apply sort_Permutation|symmetry; apply sort_Permutation].
Qed.

Lemma ascending_NoDup (l : list string) : Listing.ascending l -> NoDup l.
Proof.
  induction 1 as [|x l Hs IH Hx]; constructor; [|assumption].
  intros Hin. rewrite Forall_forall in Hx.
  exact (before_irrefl x (Hx x Hin)).
Qed.

(** The distinct values of a list, sorted. *)
Lemma sorted_set (l : list string) :
  Listing.ascending (JS.sortStrings (JS.setOf String.eqb l))
  /\ forall v, In v (JS.sortStrings (JS.setOf String.eqb l)) <-> In v l.
Proof.
  split.
  - apply sortStrings_ascending, setOf_NoDup, String.eqb_eq.
  - intros v. rewrite sortStrings_member. apply setOf_member, String.eqb_eq.
Qed.

(* ================================================================== *)
(** * Not a number *)
(* ================================================================== *)

Lemma SFcompare_refl (x : spec_float) :
  x <> S754_nan -> SFcompare x x = Some Eq.
Proof.
  destruct x as [s|s| |s m e]; simpl; try congruence.
  - now destruct s.
  - intros _. rewrite Z.compare_refl.
    change (Pos.compare_cont Eq m m) with (Pos.compare m m).
    rewrite Pos.compare_refl. now destruct s.
Qed.

Lemma is_nan_spec (x : float) :
  PrimFloat.is_nan x = true <-> Prim2SF x = S754_nan.
Proof.
  unfold PrimFloat.is_nan. rewrite negb_true_iff, eqb_spec. unfold SFeqb.
  split.
  - intros H. destruct (Prim2SF x) eqn:E; try reflexivity;
      rewrite SFcompare_refl in H; discriminate.
  - now intros ->.
Qed.

(** No number is at most, or below, something that is not a number. *)
Lemma leb_nan (c x : float) :
  PrimFloat.is_nan x = true -> (c <=? x)%float = false.
Proof.
  rewrite is_nan_spec, leb_spec. intros ->. unfold SFleb.
  now destruct (Prim2SF c).
Qed.

Lemma ltb_nan (c x : float) :
  PrimFloat.is_nan x = true -> (c <? x)%float = false.
Proof.
  rewrite is_nan_spec, ltb_spec. intros ->. unfold SFltb.
  now destruct (Prim2SF c).
Qed.

(* ================================================================== *)
(** * The options of the dropdowns *)
(* ================================================================== *)

Lemma uniqueValues_member (field : Rec.t -> string) (dp : DataProcessor.t)
    (v : string) :
  In v (DataProcessor.getUniqueValues field dp)
  <-> exists r, In r (DataProcessor.rawData dp) /\ field r = v.
Proof.
  unfold DataProcessor.getUniqueValues.
  rewrite (proj2 (sorted_set _)), in_map_iff.
  split; intros (r & H1 & H2); eauto.
Qed.

Lemma uniqueValues_ascending (field : Rec.t -> string)
    (dp : DataProcessor.t) :
  Listing.ascending (DataProcessor.getUniqueValues field dp).
Proof. apply sorted_set. Qed.

(** X1: [getUniqueValues] lists the values the field takes in the raw
    data, each once, in ascending order. *)
Theorem getUniqueValues_exact (field : Rec.t -> string)
    (dp : DataProcessor.t) :
  Listing.ascending (DataProcessor.getUniqueValues field dp)
  /\ forall v,
       In v (DataProcessor.getUniqueValues field dp)
       <-> exists r, In r (DataProcessor.rawData dp) /\ field r = v.
Proof.
  split; [apply uniqueValues_ascending|apply uniqueValues_member].
Qed.

Lemma filtered_values (p : Rec.t -> bool) (field : Rec.t -> string)
    (l : list Rec.t) (v : string) :
  In v (JS.sortStrings (JS.setOf String.eqb (map field (filter p l))))
  <-> exists r, In r l /\ p r = true /\ field r = v.
Proof.
  rewrite (proj2 (sorted_set _)), in_map_iff. split.
  - intros (r & Hf & Hin). apply filter_In in Hin. exists r. tauto.
  - intros (r & Hin & Hp & Hf). exists r. rewrite filter_In. tauto.
Qed.

Lemma dependent_options_aux (dp : DataProcessor.t) (state city : string) :
  let cities := DataProcessor.getCitiesForState state dp in
  let areas := DataProcessor.getAreasForCity city dp in
  Listing.ascending cities
  /\ Listing.ascending areas
  /\ (forall c,
        In c cities
        <-> exists r, In r (DataProcessor.rawData dp)
                      /\ (state = "All" \/ Rec.state r = state)
                      /\ Rec.city r = c)
  /\ (forall a,
        In a areas
        <-> exists r, In r (DataProcessor.rawData dp)
                      /\ (city = "All" \/ Rec.city r = city)
                      /\ Rec.area r = a).
Proof.
  cbv zeta.
  unfold DataProcessor.getCitiesForState, DataProcessor.getAreasForCity.
  destruct (String.eqb_spec state "All") as [Hs|Hs],
           (String.eqb_spec city "All") as [Hc|Hc];
    repeat split;
    try apply uniqueValues_ascending ||
        (apply sortStrings_ascending, setOf_NoDup, String.eqb_eq).
  all: try (intros H; apply uniqueValues_member in H;
            destruct H as (r & H1 & H2); exists r; tauto).
  all: try (intros (r & H1 & _ & H2);
            apply uniqueValues_member; eauto).
  all: try (intros H; apply filtered_values in H;
            destruct H as (r & H1 & H2 & H3); apply String.eqb_eq in H2;
            exists r; tauto).
  all: intros (r & H1 & [H2|H2] & H3); try contradiction;
       apply filtered_values; exists r; rewrite String.eqb_eq; tauto.
Qed.

(** X2: the dependent dropdowns.  [getCitiesForState(state)] lists, each
    once and in ascending order, the cities of the records of that state --
    of all records for "All"; [getAreasForCity(city)] does the same for
    the areas of a city, whatever the state. *)
Theorem dependent_options (dp : DataProcessor.t) (state city : string) :
  let cities := DataProcessor.getCitiesForState state dp in
  let areas := DataProcessor.getAreasForCity city dp in
  Listing.ascending cities
  /\ Listing.ascending areas
  /\ (forall c,
        In c cities
        <-> exists r, In r (DataProcessor.rawData dp)
                      /\ (state = "All" \/ Rec.state r = state)
                      /\ Rec.city r = c)
  /\ (forall a,
        In a areas
        <-> exists r, In r (DataProcessor.rawData dp)
                      /\ (city = "All" \/ Rec.city r = city)
                      /\ Rec.area r = a).
Proof. apply dependent_options_aux. Qed.

Lemma selects_places (s c a : string) (r : Rec.t) :
  Spec.selects (DataProcessor.mkFilters s c a "All" "All") r = true
  <-> (s = "All" \/ Rec.state r = s) /\ (c = "All" \/ Rec.city r = c)
      /\ (a = "All" \/ Rec.area r = a).
Proof.
  unfold Spec.selects. simpl.
  rewrite !andb_true_r, !andb_true_iff, !orb_true_iff, !String.eqb_eq.
  tauto.
Qed.

(** X3: a city the dropdown offers after a state was picked is never a
    dead end.  With the network and operator filters at "All", picking the
    state and then one of the offered cities leaves a non-empty selection:
    the records of that state and city. *)
Theorem offered_city_selects (dp : DataProcessor.t) (s c : string) :
  DataProcessor.network (DataProcessor.filters dp) = "All" ->
  DataProcessor.operator (DataProcessor.filters dp) = "All" ->
  In c (DataProcessor.getCitiesForState s
          (DataProcessor.updateFilter "state" s dp)) ->
  let dp' :=
    DataProcessor.updateFilter "city" c
      (DataProcessor.updateFilter "state" s dp) in
  DataProcessor.filteredData dp' <> []
  /\ forall r,
       In r (DataProcessor.filteredData dp')
       <-> In r (DataProcessor.rawData dp)
           /\ (s = "All" \/ Rec.state r = s)
           /\ (c = "All" \/ Rec.city r = c).
Proof.
  intros Hn Ho Hc dp'.
  assert (Hf : forall r,
             In r (DataProcessor.filteredData dp')
             <-> In r (DataProcessor.rawData dp)
                 /\ (s = "All" \/ Rec.state r = s)
                 /\ (c = "All" \/ Rec.city r = c)).
  { intros r. subst dp'.
    destruct (updateFilter_filteredData "city" c
                (DataProcessor.updateFilter "state" s dp)) as [_ ->].
    simpl. rewrite Hn, Ho, filter_In, selects_places. tauto. }
  split; [|exact Hf].
  apply (proj1 (proj2 (proj2 (dependent_options_aux _ s "All")))) in Hc.
  destruct Hc as (r & Hr & Hs & Hcity).
  intros Hnil. assert (Hin : In r (DataProcessor.filteredData dp')).
  { apply Hf. simpl in Hr. auto. }
  rewrite Hnil in Hin. destruct Hin.
Qed.

(** X4: an area the dropdown offers after a city was picked selects at
    least one record as long as no state is selected: the area list is
    computed from the city alone.  With the state, network and operator
    filters at "All", picking a city and then one of the offered areas
    leaves the records of that city and area, and there is one. *)
Theorem offered_area_selects (dp : DataProcessor.t) (c a : string) :
  DataProcessor.state (DataProcessor.filters dp) = "All" ->
  DataProcessor.network (DataProcessor.filters dp) = "All" ->
  DataProcessor.operator (DataProcessor.filters dp) = "All" ->
  In a (DataProcessor.getAreasForCity c
          (DataProcessor.updateFilter "city" c dp)) ->
  let dp' :=
    DataProcessor.updateFilter "area" a
      (DataProcessor.updateFilter "city" c dp) in
  DataProcessor.filteredData dp' <> []
  /\ forall r,
       In r (DataProcessor.filteredData dp')
       <-> In r (DataProcessor.rawData dp)
           /\ (c = "All" \/ Rec.city r = c)
           /\ (a = "All" \/ Rec.area r = a).
Proof.
  intros Hs Hn Ho Ha dp'.
  assert (Hf : forall r,
             In r (DataProcessor.filteredData dp')
             <-> In r (DataProcessor.rawData dp)
                 /\ (c = "All" \/ Rec.city r = c)
                 /\ (a = "All" \/ Rec.area r = a)).
  { intros r. subst dp'.
    destruct (updateFilter_filteredData "area" a
                (DataProcessor.updateFilter "city" c dp)) as [_ ->].
    simpl. rewrite Hs, Hn, Ho, filter_In.
    change (DataProcessor.assign "area" a
              (DataProcessor.mkFilters "All" c "All" "All" "All"))
      with (DataProcessor.mkFilters "All" c a "All" "All").
    rewrite selects_places. tauto. }
  split; [|exact Hf].
  apply (proj2 (proj2 (proj2 (dependent_options_aux _ "All" c)))) in Ha.
  destruct Ha as (r & Hr & Hc & Harea).
  intros Hnil. assert (Hin : In r (DataProcessor.filteredData dp')).
  { apply Hf. simpl in Hr. auto. }
  rewrite Hnil in Hin. destruct Hin.
Qed.

(** In the sample, "Bengaluru" is offered for "Karnataka", and
    "Whitefield" for "Bengaluru". *)
Lemma offered_city_selects_witness :
  let dp := DataProcessor.loaded Sample.selection in
  let dp' :=
    DataProcessor.updateFilter "city" "Bengaluru"
      (DataProcessor.updateFilter "state" "Karnataka" dp) in
  In "Bengaluru"
     (DataProcessor.getCitiesForState "Karnataka"
        (DataProcessor.updateFilter "state" "Karnataka" dp))
  /\ DataProcessor.filteredData dp' <> [].
Proof.
  cbv zeta.
  assert (H : In "Bengaluru"
                (DataProcessor.getCitiesForState "Karnataka"
                   (DataProcessor.updateFilter "state" "Karnataka"
                      (DataProcessor.loaded Sample.selection))))
    by (vm_compute; auto).
  split; [exact H|].
  exact (proj1 (offered_city_selects (DataProcessor.loaded Sample.selection)
                  "Karnataka" "Bengaluru" eq_refl eq_refl H)).
Defined.

Lemma offered_area_selects_witness :
  let dp := DataProcessor.loaded Sample.selection in
  let dp' :=
    DataProcessor.updateFilter "area" "Whitefield"
      (DataProcessor.updateFilter "city" "Bengaluru" dp) in
  In "Whitefield"
     (DataProcessor.getAreasForCity "Bengaluru"
        (DataProcessor.updateFilter "city" "Bengaluru" dp))
  /\ DataProcessor.filteredData dp' <> [].
Proof.
  cbv zeta.
  assert (H : In "Whitefield"
                (DataProcessor.getAreasForCity "Bengaluru"
                   (DataProcessor.updateFilter "city" "Bengaluru"
                      (DataProcessor.loaded Sample.selection))))
    by (vm_compute; auto).
  split; [exact H|].
  exact (proj1 (offered_area_selects (DataProcessor.loaded Sample.selection)
                  "Bengaluru" "Whitefield" eq_refl eq_refl eq_refl H)).
Defined.

(* ================================================================== *)
(** * Integers as numbers *)
(* ================================================================== *)

Lemma ofZ_positive (z : Z) :
  (0 < z < 2 ^ 63)%Z -> IEEE.signed false (Prim2SF (JS.ofZ z)).
Proof.
  intros Hz. unfold JS.ofZ. rewrite of_uint63_spec, Uint63.of_Z_spec.
  rewrite Z.mod_small by (change Uint63.wB with (2 ^ 63)%Z; lia).
  replace false with (z <? 0)%Z by (apply Z.ltb_ge; lia).
  apply binary_normalize_signed; [lia|]. unfold SpecFloat.emin.
  change prec with 53%Z. change emax with 1024%Z. lia.
Qed.

Lemma ofInt_sign (z : Z) :
  (- 2 ^ 63 < z < 2 ^ 63)%Z ->
  (0 <? JS.ofInt z)%float = (0 <? z)%Z.
Proof.
  intros Hz. unfold JS.ofInt.
  destruct (Z.ltb_spec z 0) as [Hneg|Hpos].
  - replace (0 <? z)%Z with false by (symmetry; apply Z.ltb_ge; lia).
    apply positive_test. rewrite opp_spec.
    pose proof (ofZ_positive (- z) ltac:(lia)) as H.
    destruct (Prim2SF (JS.ofZ (- z))); simpl in *; try contradiction;
      now subst.
  - destruct (Z.eq_dec z 0) as [->|Hne]; [reflexivity|].
    replace (0 <? z)%Z with true by (symmetry; apply Z.ltb_lt; lia).
    apply positive_test, ofZ_positive. lia.
Qed.

Lemma minus_sign (a b : Z) :
  Listing.safeInteger a -> Listing.safeInteger b -> (a < b)%Z ->
  (0 <? JS.minus a b)%float = false /\ (0 <? JS.minus b a)%float = true.
Proof.
  unfold Listing.safeInteger, JS.minus. intros Ha Hb Hlt.
  assert (H63 : (2 ^ 53 + 2 ^ 53 < 2 ^ 63)%Z) by reflexivity.
  rewrite !ofInt_sign by lia.
  split; [apply Z.ltb_ge|apply Z.ltb_lt]; lia.
Qed.

Lemma Z_eqb_spec_iff (a b : Z) : (a =? b)%Z = true <-> a = b.
Proof. apply Z.eqb_eq. Qed.

(** Integers within the exact range are sorted by [(a, b) => a - b] into
    ascending order. *)
Lemma sortNumbers_ascending (l : list Z) :
  Forall Listing.safeInteger l -> NoDup l ->
  Listing.ascendingZ (JS.sort JS.minus l).
Proof.
  apply (sort_sorted Listing.safeInteger).
  - intros a b c. apply Z.lt_trans.
  - intros a b Hne. lia.
  - intros a b. apply minus_sign.
Qed.

(* ================================================================== *)
(** * The filter options of the admin dashboard *)
(* ================================================================== *)

Lemma addText_option (v : option string) (set : list string) :
  TelecomDataService.addText v set
  = match (if JS.truthyStr v then Some (JS.strOf v) else None) with
    | Some a => JS.setAdd String.eqb a set
    | None => set
    end.
Proof. unfold TelecomDataService.addText. now destruct (JS.truthyStr v). Qed.

(** The five sets of [getFilterOptions], each as a loop of its own. *)
Lemma collect_components (rawData : list Rec.t)
    (o : TelecomDataService.FilterOptions) :
  let o' := fold_left TelecomDataService.collect rawData o in
  let text (f : Rec.t -> option string) :=
    fun s r => match (if JS.truthyStr (f r) then Some (JS.strOf (f r))
                      else None) with
               | Some a => JS.setAdd String.eqb a s
               | None => s
               end in
  TelecomDataService.opt_states o'
  = fold_left (text (fun r => Some (Rec.state r))) rawData
              (TelecomDataService.opt_states o)
  /\ TelecomDataService.opt_cities o'
     = fold_left (text (fun r => Some (Rec.city r))) rawData
                 (TelecomDataService.opt_cities o)
  /\ TelecomDataService.opt_operators o'
     = fold_left (text Rec.operator) rawData
                 (TelecomDataService.opt_operators o)
  /\ TelecomDataService.opt_networkTypes o'
     = fold_left (text (fun r => Some (Rec.network_type r))) rawData
                 (TelecomDataService.opt_networkTypes o)
  /\ TelecomDataService.opt_years o'
     = fold_left
         (fun s r =>
            match (if negb (Rec.year r =? 0)%Z then Some (Rec.year r)
                   else None) with
            | Some a => JS.setAdd Z.eqb a s
            | None => s
            end)
         rawData (TelecomDataService.opt_years o).
Proof.
  revert o. induction rawData as [|r l IH]; intros o; simpl.
  - repeat split.
  - specialize (IH (TelecomDataService.collect o r)). simpl in IH.
    destruct IH as (E1 & E2 & E3 & E4 & E5).
    rewrite E1, E2, E3, E4, E5. rewrite !addText_option.
    repeat split. now destruct (Rec.year r =? 0)%Z.
Qed.

Lemma text_member (f : Rec.t -> option string) (l : list Rec.t)
    (v : string) :
  In v (fold_left
          (fun s r => match (if JS.truthyStr (f r) then Some (JS.strOf (f r))
                             else None) with
                      | Some a => JS.setAdd String.eqb a s
                      | None => s
                      end) l [])
  <-> v <> "" /\ exists r, In r l /\ f r = Some v.
Proof.
  rewrite (fold_setAdd_member String.eqb String.eqb_eq
             (fun r => if JS.truthyStr (f r) then Some (JS.strOf (f r))
                       else None)).
  simpl. split.
  - intros [[]|(r & Hin & Hf)]. destruct (f r) as [x|] eqn:E; simpl in Hf;
      [|discriminate].
    destruct (String.eqb_spec x ""); simpl in Hf; [discriminate|].
    injection Hf as <-. eauto.
  - intros (Hne & r & Hin & Hf). right. exists r. split; [assumption|].
    rewrite Hf. simpl. apply String.eqb_neq in Hne. now rewrite Hne.
Qed.

Lemma text_NoDup (f : Rec.t -> option string) (l : list Rec.t) :
  NoDup (fold_left
           (fun s r => match (if JS.truthyStr (f r)
                              then Some (JS.strOf (f r)) else None) with
                       | Some a => JS.setAdd String.eqb a s
                       | None => s
                       end) l []).
Proof.
  apply (fold_setAdd_NoDup String.eqb String.eqb_eq
           (fun r => if JS.truthyStr (f r) then Some (JS.strOf (f r))
                     else None)).
  constructor.
Qed.

(** X5: [getFilterOptions] offers, for each of the four text dimensions,
    the non-empty values that occur in the raw data, each once and in
    ascending order (a record without operator contributes none), and the
    non-zero years, each once and, as long as they are integers a number
    holds exactly, in ascending numeric order. *)
Theorem getFilterOptions_exact (rawData : list Rec.t) :
  Forall (fun r => Listing.safeInteger (Rec.year r)) rawData ->
  let o := TelecomDataService.getFilterOptions rawData in
  (Listing.ascending (TelecomDataService.opt_states o)
   /\ Listing.ascending (TelecomDataService.opt_cities o)
   /\ Listing.ascending (TelecomDataService.opt_operators o)
   /\ Listing.ascending (TelecomDataService.opt_networkTypes o)
   /\ Listing.ascendingZ (TelecomDataService.opt_years o))
  /\ (forall v,
        In v (TelecomDataService.opt_states o)
        <-> v <> "" /\ exists r, In r rawData /\ Rec.state r = v)
  /\ (forall v,
        In v (TelecomDataService.opt_cities o)
        <-> v <> "" /\ exists r, In r rawData /\ Rec.city r = v)
  /\ (forall v,
        In v (TelecomDataService.opt_operators o)
        <-> v <> "" /\ exists r, In r rawData /\ Rec.operator r = Some v)
  /\ (forall v,
        In v (TelecomDataService.opt_networkTypes o)
        <-> v <> "" /\ exists r, In r rawData /\ Rec.network_type r = v)
  /\ (forall y,
        In y (TelecomDataService.opt_years o)
        <-> y <> 0%Z /\ exists r, In r rawData /\ Rec.year r = y).
Proof.
  intros Hsafe. cbv zeta. unfold TelecomDataService.getFilterOptions.
  destruct (collect_components rawData
              (TelecomDataService.mkFilterOptions [] [] [] [] []))
    as (E1 & E2 & E3 & E4 & E5).
  cbv beta zeta in E1, E2, E3, E4, E5.
  cbn [TelecomDataService.opt_states TelecomDataService.opt_cities
       TelecomDataService.opt_operators
       TelecomDataService.opt_networkTypes TelecomDataService.opt_years]
    in E1, E2, E3, E4, E5.
  cbn [TelecomDataService.opt_states TelecomDataService.opt_cities
       TelecomDataService.opt_operators
       TelecomDataService.opt_networkTypes TelecomDataService.opt_years].
  rewrite E1, E2, E3, E4, E5.
  assert (Hy : forall y,
             In y (fold_left
                     (fun s r =>
                        match (if negb (Rec.year r =? 0)%Z
                               then Some (Rec.year r) else None) with
                        | Some a => JS.setAdd Z.eqb a s
                        | None => s
                        end) rawData [])
             <-> y <> 0%Z /\ exists r, In r rawData /\ Rec.year r = y).
  { intros y.
    rewrite (fold_setAdd_member Z.eqb Z.eqb_eq
               (fun r => if negb (Rec.year r =? 0)%Z then Some (Rec.year r)
                         else None)).
    simpl. split.
    - intros [[]|(r & Hin & Hf)].
      destruct (Z.eqb_spec (Rec.year r) 0); simpl in Hf; [discriminate|].
      injection Hf as <-. eauto.
    - intros (Hne & r & Hin & <-). right. exists r. split; [assumption|].
      apply Z.eqb_neq in Hne. now rewrite Hne. }
  split; [repeat split|].
  - apply sortStrings_ascending, text_NoDup.
  - apply sortStrings_ascending, text_NoDup.
  - apply sortStrings_ascending, text_NoDup.
  - apply sortStrings_ascending, text_NoDup.
  - apply sortNumbers_ascending.
    + apply Forall_forall. intros y Hin. apply Hy in Hin.
      destruct Hin as (_ & r & Hr & <-).
      rewrite Forall_forall in Hsafe. now apply Hsafe.
    + apply (fold_setAdd_NoDup Z.eqb Z.eqb_eq
               (fun r => if negb (Rec.year r =? 0)%Z then Some (Rec.year r)
                         else None)).
      constructor.
  - assert (Ht : forall (f : Rec.t -> option string) (g : Rec.t -> string),
               (forall r x, f r = Some x <-> g r = x) ->
               forall v,
                 In v (JS.sortStrings
                         (fold_left
                            (fun s r =>
                               match (if JS.truthyStr (f r)
                                      then Some (JS.strOf (f r))
                                      else None) with
                               | Some a => JS.setAdd String.eqb a s
                               | None => s
                               end) rawData []))
                 <-> v <> "" /\ exists r, In r rawData /\ g r = v).
    { intros f g Hfg v. rewrite sortStrings_member, text_member.
      split; intros (Hne & r & Hin & Hf);
        (split; [assumption|exists r; split; [assumption|now apply Hfg]]). }
    split; [|split; [|split; [|split]]].
    + apply Ht. intros r x. split; congruence.
    + apply Ht. intros r x. split; congruence.
    + intros v. rewrite sortStrings_member. apply text_member.
    + apply Ht. intros r x. split; congruence.
    + intros y. rewrite <- Hy. split; apply Permutation_in;
        [apply sort_Permutation|symmetry; apply sort_Permutation].
Qed.

Lemma getFilterOptions_exact_witness :
  Forall (fun r => Listing.safeInteger (Rec.year r)) Sample.selection
  /\ TelecomDataService.opt_years
       (TelecomDataService.getFilterOptions Sample.selection) = [2023%Z]
  /\ Listing.ascending
       (TelecomDataService.opt_operators
          (TelecomDataService.getFilterOptions Sample.selection)).
Proof.
  assert (H : Forall (fun r => Listing.safeInteger (Rec.year r))
                     Sample.selection)
    by (repeat constructor).
  split; [exact H|]. split; [reflexivity|].
  exact (proj1 (proj2 (proj2 (proj1
           (getFilterOptions_exact Sample.selection H))))).
Defined.

(* ================================================================== *)
(** * The cities of a state *)
(* ================================================================== *)

Lemma fold_if {A B} (p : A -> bool) (g : B -> A -> B) (l : list A) (b : B) :
  fold_left (fun acc a => if p a then g acc a else acc) l b
  = fold_left g (filter p l) b.
Proof.
  revert b. induction l as [|a l IH]; intros b; simpl; [reflexivity|].
  destruct (p a); simpl; apply IH.
Qed.

(** The records that enter [stateMap]: state and city both non-empty. *)
Lemma stateMap_group (rawData : list Rec.t) :
  TelecomDataService.stateMap rawData
  = Grouping.group Rec.state (fun _ => @nil string)
      (fun r => JS.setAdd String.eqb (Rec.city r))
      (filter (fun r => negb (Rec.state r =? "") && negb (Rec.city r =? ""))
              rawData)
      [].
Proof.
  unfold TelecomDataService.stateMap, Grouping.group.
  apply (fold_if
           (fun r => negb (Rec.state r =? "") && negb (Rec.city r =? ""))
           (fun acc r =>
              JS.upsert (Rec.state r) []
                (JS.setAdd String.eqb (Rec.city r)) acc)).
Qed.

Lemma stateMap_get (rawData : list Rec.t) (s : string) :
  match JS.get s (TelecomDataService.stateMap rawData) with
  | Some cities =>
      NoDup cities /\ cities <> [] /\ s <> ""
      /\ forall c, In c cities
                   <-> c <> "" /\ exists r, In r rawData /\ Rec.state r = s
                                            /\ Rec.city r = c
  | None => forall r, In r rawData -> Rec.state r = s ->
                      s = "" \/ Rec.city r = ""
  end.
Proof.
  rewrite stateMap_group, get_group_nil.
  set (p := fun r => negb (Rec.state r =? "") && negb (Rec.city r =? "")).
  destruct (filter (fun a => Rec.state a =? s) (filter p rawData))
    as [|r0 l] eqn:E.
  - intros r Hin Hs.
    destruct (String.eqb_spec s ""); [now left|].
    destruct (String.eqb_spec (Rec.city r) ""); [now right|]. exfalso.
    assert (H : In r (filter (fun a => Rec.state a =? s) (filter p rawData))).
    { rewrite !filter_In. unfold p. subst s.
      repeat split; try assumption; [|apply String.eqb_refl].
      apply andb_true_iff. split; apply negb_true_iff, String.eqb_neq;
        assumption. }
    rewrite E in H. destruct H.
  - assert (Hall : forall r, In r (r0 :: l)
                             <-> In r rawData /\ p r = true
                                 /\ Rec.state r = s).
    { intros r. rewrite <- E, !filter_In, String.eqb_eq. tauto. }
    change (fold_left _ l _)
      with (fold_left
              (fun v a => JS.setAdd String.eqb (Rec.city a) v)
              (r0 :: l) []).
    assert (Hm : forall c,
               In c (fold_left
                       (fun v a => JS.setAdd String.eqb (Rec.city a) v)
                       (r0 :: l) [])
               <-> c <> "" /\ exists r, In r rawData /\ Rec.state r = s
                                        /\ Rec.city r = c).
    { intros c.
      pose proof (fold_setAdd_member String.eqb String.eqb_eq
                    (fun r => Some (Rec.city r)) (r0 :: l) [] c) as Hf.
      cbv beta iota in Hf. rewrite Hf. clear Hf.
      split.
      - intros [[]|(r & Hin & [= <-])]. apply Hall in Hin.
        destruct Hin as (Hin & Hp & Hs). unfold p in Hp.
        apply andb_true_iff in Hp. destruct Hp as [_ Hc].
        apply negb_true_iff, String.eqb_neq in Hc. eauto.
      - intros (Hne & r & Hin & Hs & <-). right. exists r.
        split; [|reflexivity]. apply Hall. repeat split; try assumption.
        unfold p. apply andb_true_iff.
        destruct (proj1 (Hall r0) (or_introl eq_refl)) as (_ & Hp0 & Hs0).
        unfold p in Hp0. apply andb_true_iff in Hp0.
        split; [|now apply negb_true_iff, String.eqb_neq].
        rewrite Hs, <- Hs0. tauto. }
    destruct (proj1 (Hall r0) (or_introl eq_refl)) as (Hin0 & Hp0 & Hs0).
    unfold p in Hp0. apply andb_true_iff in Hp0. destruct Hp0 as [Hs1 Hc1].
    apply negb_true_iff, String.eqb_neq in Hs1, Hc1.
    split; [|split; [|split]].
    + apply (fold_setAdd_NoDup String.eqb String.eqb_eq
               (fun r => Some (Rec.city r)) (r0 :: l) []). constructor.
    + intros Hnil.
      assert (Hc : In (Rec.city r0)
                      (fold_left
                         (fun v a => JS.setAdd String.eqb (Rec.city a) v)
                         (r0 :: l) [])).
      { apply Hm. split; [assumption|]. exists r0. auto. }
      rewrite Hnil in Hc. destruct Hc.
    + congruence.
    + exact Hm.
Qed.

(** The result object copies [stateMap] key by key, with the cities
    sorted. *)
Lemma copy_get {V W} (f : V -> W) (sm : JS.obj V) (ks : list string)
    (res : JS.obj W) (k : string) :
  JS.get k
    (fold_left
       (fun result key =>
          match JS.get key sm with
          | Some v => JS.set key (f v) result
          | None => result
          end) ks res)
  = if existsb (String.eqb k) ks
    then match JS.get k sm with
         | Some v => Some (f v)
         | None => JS.get k res
         end
    else JS.get k res.
Proof.
  revert res. induction ks as [|key ks IH]; intros res; simpl;
    [reflexivity|].
  rewrite IH.
  destruct (String.eqb_spec k key) as [->|Hne]; simpl.
  - destruct (JS.get key sm) as [v|] eqn:E.
    + rewrite get_set_same. now destruct (existsb _ ks).
    + now destruct (existsb _ ks).
  - destruct (JS.get key sm) as [v|] eqn:E; [|reflexivity].
    rewrite get_set_other by congruence. reflexivity.
Qed.

Lemma getStateToCitiesMap_get (rawData : list Rec.t) (s : string) :
  JS.get s (TelecomDataService.getStateToCitiesMap rawData)
  = option_map JS.sortStrings
      (JS.get s (TelecomDataService.stateMap rawData)).
Proof.
  unfold TelecomDataService.getStateToCitiesMap. rewrite copy_get.
  destruct (JS.get s (TelecomDataService.stateMap rawData)) as [v|] eqn:E.
  - assert (H : existsb (String.eqb s)
                  (JS.keys (TelecomDataService.stateMap rawData)) = true).
    { apply existsb_exists. exists s. split; [|apply String.eqb_refl].
      apply get_In in E. unfold JS.keys.
      apply in_map_iff. exists (s, v). split; [reflexivity|].
      now apply In_entries. }
    now rewrite H.
  - now destruct (existsb _ _).
Qed.

Lemma stateToCities_spec (rawData : list Rec.t) (s : string) :
  match JS.get s (TelecomDataService.getStateToCitiesMap rawData) with
  | Some cities =>
      Listing.ascending cities /\ cities <> [] /\ s <> ""
      /\ forall c, In c cities
                   <-> c <> "" /\ exists r, In r rawData /\ Rec.state r = s
                                            /\ Rec.city r = c
  | None => forall r, In r rawData -> Rec.state r = s ->
                      s = "" \/ Rec.city r = ""
  end.
Proof.
  rewrite getStateToCitiesMap_get.
  pose proof (stateMap_get rawData s) as H.
  destruct (JS.get s (TelecomDataService.stateMap rawData)) as [cities|];
    simpl; [|exact H].
  destruct H as (Hnd & Hne & Hs & Hm). split; [|split; [|split]].
  - now apply sortStrings_ascending.
  - intros Hnil. destruct cities as [|c cs]; [now apply Hne|].
    assert (Hc : In c (JS.sortStrings (c :: cs)))
      by (apply sortStrings_member; now left).
    rewrite Hnil in Hc. destruct Hc.
  - assumption.
  - intros c. rewrite sortStrings_member. apply Hm.
Qed.

(** X6: when no state of the raw data is a name inherited from
    [Object.prototype], [getStateToCitiesMap] has an entry exactly for the
    non-empty states that have a record with a non-empty city; the entry
    lists the non-empty cities of the records of that state, each once, in
    ascending order, and is never an empty list. *)
Theorem getStateToCitiesMap_exact (rawData : list Rec.t) (s : string) :
  Names.own Rec.state rawData ->
  match JS.get s (TelecomDataService.getStateToCitiesMap rawData) with
  | Some cities =>
      Listing.ascending cities /\ cities <> [] /\ s <> ""
      /\ forall c, In c cities
                   <-> c <> "" /\ exists r, In r rawData /\ Rec.state r = s
                                            /\ Rec.city r = c
  | None => forall r, In r rawData -> Rec.state r = s ->
                      s = "" \/ Rec.city r = ""
  end.
Proof. intros _. apply stateToCities_spec. Qed.

(** The sample selection has the one state "Karnataka" with the one city
    "Bengaluru". *)
Lemma getStateToCitiesMap_exact_witness :
  Names.own Rec.state Sample.selection
  /\ JS.get "Karnataka"
            (TelecomDataService.getStateToCitiesMap Sample.selection)
     = Some ["Bengaluru"]
  /\ forall c,
       In c ["Bengaluru"]
       <-> c <> ""
           /\ exists r, In r Sample.selection
                        /\ Rec.state r = "Karnataka" /\ Rec.city r = c.
Proof.
  assert (H : Names.own Rec.state Sample.selection)
    by (repeat constructor).
  assert (E : JS.get "Karnataka"
                (TelecomDataService.getStateToCitiesMap Sample.selection)
              = Some ["Bengaluru"]) by reflexivity.
  split; [exact H|]. split; [exact E|].
  pose proof (getStateToCitiesMap_exact Sample.selection "Karnataka" H)
    as T.
  rewrite E in T. exact (proj2 (proj2 (proj2 T))).
Defined.

(* ================================================================== *)
(** * The city dropdown of the admin dashboard *)
(* ================================================================== *)

Lemma fold_add_member (l : list string) (s : list string) (v : string) :
  In v (fold_left (fun s c => JS.setAdd String.eqb c s) l s)
  <-> In v s \/ In v l.
Proof.
  pose proof (fold_setAdd_member String.eqb String.eqb_eq
                (@Some string) l s v) as H.
  cbv beta iota in H. rewrite H. split.
  - intros [Hs|(b & Hb & [= ->])]; auto.
  - intros [Hs|Hl]; eauto.
Qed.

Lemma fold_add_NoDup (l : list string) (s : list string) :
  NoDup s -> NoDup (fold_left (fun s c => JS.setAdd String.eqb c s) l s).
Proof.
  apply (fold_setAdd_NoDup String.eqb String.eqb_eq (@Some string) l s).
Qed.

Lemma union_member (ls : list (list string)) (s : list string) (v : string) :
  In v (fold_left
          (fun allCities cities =>
             fold_left (fun s city => JS.setAdd String.eqb city s)
                       cities allCities) ls s)
  <-> In v s \/ exists l, In l ls /\ In v l.
Proof.
  revert s. induction ls as [|l ls IH]; intros s; simpl.
  - split; [auto|]. intros [H|(l & [] & _)]. assumption.
  - rewrite IH, fold_add_member. split.
    + intros [[H|H]|(l' & H1 & H2)]; eauto.
    + intros [H|(l' & [<-|H1] & H2)]; eauto.
Qed.

Lemma union_NoDup (ls : list (list string)) (s : list string) :
  NoDup s ->
  NoDup (fold_left
           (fun allCities cities =>
              fold_left (fun s city => JS.setAdd String.eqb city s)
                        cities allCities) ls s).
Proof.
  revert s. induction ls as [|l ls IH]; intros s Hnd; simpl; [assumption|].
  apply IH. now apply fold_add_NoDup.
Qed.

Lemma copy_NoDup {V W} (f : V -> W) (sm : JS.obj V) (ks : list string)
    (res : JS.obj W) :
  NoDup (map fst res) ->
  NoDup (map fst
           (fold_left
              (fun result key =>
                 match JS.get key sm with
                 | Some v => JS.set key (f v) result
                 | None => result
                 end) ks res)).
Proof.
  revert res. induction ks as [|key ks IH]; intros res Hnd; simpl;
    [assumption|].
  apply IH. destruct (JS.get key sm); [now apply NoDup_set|assumption].
Qed.

Lemma values_get {V} (o : JS.obj V) (v : V) :
  NoDup (map fst o) ->
  In v (JS.values o) <-> exists k, JS.get k o = Some v.
Proof.
  intros Hnd. unfold JS.values. rewrite in_map_iff. split.
  - intros ([k v'] & <- & Hin). apply (proj1 (In_entries _ _)) in Hin.
    simpl. exists k. apply In_get; assumption.
  - intros (k & Hk). exists (k, v). split; [reflexivity|].
    apply In_entries. now apply get_In.
Qed.

Lemma cityOptions_member (rawData : list Rec.t)
    (f : TelecomDataService.Filters) (v city : string) :
  In city
     (AdminDashboardController.cityOptions v
        (AdminDashboardController.mk f
           (TelecomDataService.getStateToCitiesMap rawData)))
  <-> city <> ""
      /\ exists r, In r rawData /\ Rec.state r <> ""
                   /\ (v = "All" \/ Rec.state r = v) /\ Rec.city r = city.
Proof.
  unfold AdminDashboardController.cityOptions. simpl.
  destruct (String.eqb_spec v "All") as [->|Hv].
  - rewrite sortStrings_member, union_member. split.
    + intros [[]|(l & Hl & Hc)].
      apply values_get in Hl;
        [|apply (copy_NoDup JS.sortStrings); constructor].
      destruct Hl as (k & Hk).
      pose proof (stateToCities_spec rawData k) as H. rewrite Hk in H.
      destruct H as (_ & _ & Hne & Hm). apply Hm in Hc.
      destruct Hc as (Hc & r & Hin & Hs & Hcity).
      split; [assumption|]. exists r. subst k. auto.
    + intros (Hc & r & Hin & Hs & _ & Hcity). right.
      pose proof (stateToCities_spec rawData (Rec.state r)) as H.
      destruct (JS.get (Rec.state r)
                  (TelecomDataService.getStateToCitiesMap rawData))
        as [cities|] eqn:E.
      * exists cities. split.
        -- apply values_get;
             [apply (copy_NoDup JS.sortStrings); constructor|eauto].
        -- apply H. split; [assumption|]. exists r. auto.
      * destruct (H r Hin eq_refl) as [H'|H']; congruence.
  - pose proof (stateToCities_spec rawData v) as H.
    destruct (JS.get v (TelecomDataService.getStateToCitiesMap rawData))
      as [cities|].
    + destruct H as (_ & _ & Hne & Hm). rewrite Hm. split.
      * intros (Hc & r & Hin & Hs & Hcity). split; [assumption|].
        exists r. repeat split; auto. congruence.
      * intros (Hc & r & Hin & Hs & [Hv'|Hv'] & Hcity); [contradiction|].
        eauto.
    + split; [intros []|].
      intros (Hc & r & Hin & Hs & [Hv'|Hv'] & Hcity); [contradiction|].
      destruct (H r Hin Hv') as [H'|H']; congruence.
Qed.

Lemma cityOptions_ascending (rawData : list Rec.t)
    (f : TelecomDataService.Filters) (v : string) :
  Listing.ascending
    (AdminDashboardController.cityOptions v
       (AdminDashboardController.mk f
          (TelecomDataService.getStateToCitiesMap rawData))).
Proof.
  unfold AdminDashboardController.cityOptions. simpl.
  destruct (v =? "All").
  - apply sortStrings_ascending, union_NoDup. constructor.
  - pose proof (stateToCities_spec rawData v) as H.
    destruct (JS.get v (TelecomDataService.getStateToCitiesMap rawData));
      [apply H|constructor].
Qed.

(** X7: the city dropdown of the admin dashboard, when neither a state of
    the raw data nor the picked state is a name inherited from
    [Object.prototype].  Picking a state sets the state filter, resets the
    city filter to "All" and leaves the other filters alone; the cities
    offered then are, each once and in ascending order, the non-empty
    cities of the records of that state -- for "All", of the records of
    any non-empty state. *)
Theorem admin_state_change (rawData : list Rec.t)
    (f : TelecomDataService.Filters) (v : string) :
  Names.own Rec.state rawData ->
  JS.isInherited v = false ->
  let c :=
    AdminDashboardController.onStateChange v
      (AdminDashboardController.mk f
         (TelecomDataService.getStateToCitiesMap rawData)) in
  AdminDashboardController.filters c
  = TelecomDataService.mkFilters v "All"
      (TelecomDataService.operator f) (TelecomDataService.network_type f)
      (TelecomDataService.years f) (TelecomDataService.month_start f)
  /\ Listing.ascending (AdminDashboardController.cityOptions v c)
  /\ forall city,
       In city (AdminDashboardController.cityOptions v c)
       <-> city <> ""
           /\ exists r, In r rawData /\ Rec.state r <> ""
                        /\ (v = "All" \/ Rec.state r = v)
                        /\ Rec.city r = city.
Proof.
  intros _ _. cbv zeta. split; [reflexivity|]. split.
  - apply cityOptions_ascending.
  - intros city. apply cityOptions_member.
Qed.

(** Picking "Karnataka" on the sample selection offers "Bengaluru". *)
Lemma admin_state_change_witness :
  let c :=
    AdminDashboardController.onStateChange "Karnataka"
      (AdminDashboardController.mk TelecomDataService.initialFilters
         (TelecomDataService.getStateToCitiesMap Sample.selection)) in
  Names.own Rec.state Sample.selection
  /\ JS.isInherited "Karnataka" = false
  /\ AdminDashboardController.cityOptions "Karnataka" c = ["Bengaluru"]
  /\ Listing.ascending (AdminDashboardController.cityOptions "Karnataka" c).
Proof.
  cbv zeta.
  assert (H : Names.own Rec.state Sample.selection)
    by (repeat constructor).
  split; [exact H|]. split; [reflexivity|]. split; [reflexivity|].
  exact (proj1 (proj2 (admin_state_change Sample.selection
                         TelecomDataService.initialFilters "Karnataka"
                         H eq_refl))).
Defined.

(* ================================================================== *)
(** * The year tiles *)
(* ================================================================== *)

Lemma filter_absent (year : Z) (years : list Z) :
  ~ In year years -> filter (fun y => negb (y =? year)%Z) years = years.
Proof.
  induction years as [|y l IH]; intros Hnin; simpl; [reflexivity|].
  destruct (Z.eqb_spec y year) as [->|Hne]; simpl.
  - exfalso. apply Hnin. now left.
  - rewrite IH; [reflexivity|]. intros Hin. apply Hnin. now right.
Qed.

(** X8: [toggleYear] keeps the selected years free of repetition and
    touches no other filter; it removes the year if it was selected and
    selects it otherwise, and a year toggled on and off again leaves the
    filters exactly as they were. *)
Theorem toggleYear_toggles (year : Z) (c : AdminDashboardController.t) :
  let years c :=
    TelecomDataService.years (AdminDashboardController.filters c) in
  let c' := AdminDashboardController.toggleYear year c in
  NoDup (years c) ->
  NoDup (years c')
  /\ (In year (years c') <-> ~ In year (years c))
  /\ (forall y, y <> year -> (In y (years c') <-> In y (years c)))
  /\ (~ In year (years c) ->
      AdminDashboardController.toggleYear year c' = c)
  /\ AdminDashboardController.filters c'
     = TelecomDataService.mkFilters
         (TelecomDataService.state (AdminDashboardController.filters c))
         (TelecomDataService.city (AdminDashboardController.filters c))
         (TelecomDataService.operator (AdminDashboardController.filters c))
         (TelecomDataService.network_type
            (AdminDashboardController.filters c))
         (years c')
         (TelecomDataService.month_start
            (AdminDashboardController.filters c)).
Proof.
  cbv zeta. destruct c as [[st ci op nt ys ms] sc]. simpl.
  intros Hnd. destruct (existsb (Z.eqb year) ys) eqn:E.
  - assert (Hin : In year ys).
    { apply existsb_exists in E. destruct E as (y & Hy & Heq).
      apply Z.eqb_eq in Heq. now subst. }
    split; [|split; [|split; [|split]]].
    + now apply NoDup_filter.
    + rewrite filter_In, Z.eqb_refl. simpl. intuition discriminate.
    + intros y Hy. rewrite filter_In.
      apply Z.eqb_neq in Hy. rewrite Hy. simpl. tauto.
    + tauto.
    + reflexivity.
  - assert (Hnin : ~ In year ys).
    { intros Hin.
      assert (existsb (Z.eqb year) ys = true); [|congruence].
      apply existsb_exists. exists year. now rewrite Z.eqb_refl. }
    split; [|split; [|split; [|split]]].
    + apply NoDup_rev in Hnd. rewrite <- (rev_involutive (ys ++ [year])).
      apply NoDup_rev. rewrite rev_app_distr. simpl.
      constructor; [now rewrite <- in_rev|assumption].
    + rewrite in_app_iff. simpl. tauto.
    + intros y Hy. rewrite in_app_iff. simpl. intuition congruence.
    + intros _.
      assert (E' : existsb (Z.eqb year) (ys ++ [year]) = true).
      { apply existsb_exists. exists year. rewrite Z.eqb_refl.
        split; [|reflexivity]. apply in_or_app. right. now left. }
      unfold AdminDashboardController.toggleYear. simpl.
      rewrite E. simpl. rewrite E', filter_app, filter_absent by assumption.
      simpl. rewrite Z.eqb_refl. simpl. now rewrite app_nil_r.
    + reflexivity.
Qed.

Lemma toggleYear_toggles_witness :
  let c :=
    AdminDashboardController.mk TelecomDataService.initialFilters [] in
  NoDup (TelecomDataService.years (AdminDashboardController.filters c))
  /\ TelecomDataService.years
       (AdminDashboardController.filters
          (AdminDashboardController.toggleYear 2023 c)) = [2023%Z]
  /\ NoDup (TelecomDataService.years
              (AdminDashboardController.filters
                 (AdminDashboardController.toggleYear 2023 c))).
Proof.
  cbv zeta.
  assert (H : NoDup (TelecomDataService.years
                       (AdminDashboardController.filters
                          (AdminDashboardController.mk
                             TelecomDataService.initialFilters []))))
    by constructor.
  split; [exact H|]. split; [reflexivity|].
  exact (proj1 (toggleYear_toggles 2023
                  (AdminDashboardController.mk
                     TelecomDataService.initialFilters []) H)).
Defined.

(* ================================================================== *)
(** * Refreshing the admin dashboard *)
(* ================================================================== *)

(** X9: [updateDashboard] on the admin page.  When the filters select no
    record, the six charts are redrawn from empty groupings but the four
    KPI cards keep what they showed before ([updateKPIs] returns early on
    [null]); when they select records, the cards show the averages of
    exactly these records and the score label of their average score. *)
Theorem admin_refresh (rawData : list Rec.t)
    (c : AdminDashboardController.t)
    (page : AdminDashboardController.Page) :
  let filteredData :=
    TelecomDataService.filterData rawData
      (AdminDashboardController.filters c) in
  let page' := AdminDashboardController.updateDashboard rawData c page in
  (filteredData = [] ->
   AdminDashboardController.cards page'
   = AdminDashboardController.cards page
   /\ AdminDashboardController.charts page'
      = TelecomDataService.mkChartData [] [] [] [] [] [])
  /\ (filteredData <> [] ->
      exists m,
        TelecomDataService.getAggregatedMetrics filteredData = Some m
        /\ AdminDashboardController.cards page'
           = AdminDashboardController.mkCards
               (JS.get "avgUpload" m) (JS.get "avgDownload" m)
               (JS.get "avgLatency" m)
               (Some (JS.Str (TelecomDataService.getScoreLabel
                                (JS.get "avgNetworkScore" m))))
        /\ AdminDashboardController.charts page'
           = TelecomDataService.getChartData filteredData).
Proof.
  cbv zeta. unfold AdminDashboardController.updateDashboard.
  destruct (TelecomDataService.filterData rawData
              (AdminDashboardController.filters c)) as [|r l].
  - split; [intros _; split; reflexivity|]. intros H. now contradiction H.
  - split; [discriminate|]. intros _. eexists. split; [reflexivity|].
    split; reflexivity.
Qed.

(* ================================================================== *)
(** * The coverage chart *)
(* ================================================================== *)

Lemma coverageGrowth_group (data : list Rec.t) :
  TelecomDataService.coverageGrowth (TelecomDataService.getChartData data)
  = Grouping.group (fun r => TelecomDataService.yearKey (Rec.year r))
      (fun _ => TelecomDataService.mkNetCounts 0 0)
      TelecomDataService.addCoverage data [].
Proof.
  unfold TelecomDataService.getChartData.
  destruct (getChartData_components data
              (TelecomDataService.mkChartData [] [] [] [] [] []))
    as (_ & _ & E & _).
  exact E.
Qed.

Lemma series_sum {V} (cnt : V -> nat) (o : JS.obj V) (ks : list string) :
  NoDup (map fst o) -> Permutation ks (JS.keys o) ->
  list_sum (map (fun y => match JS.get y o with
                          | Some c => cnt c
                          | None => 0
                          end) ks)
  = Counts.countSum cnt o.
Proof.
  intros Hnd Hp. unfold Counts.countSum, JS.values.
  rewrite (list_sum_Permutation _ _ (Permutation_map _ Hp)).
  unfold JS.keys. rewrite !map_map. f_equal.
  apply map_ext_in. intros [k v] Hin. simpl.
  apply (proj1 (In_entries _ _)) in Hin.
  now rewrite (In_get _ _ _ Hnd Hin).
Qed.

(** X10: the coverage-growth chart.  The year labels are in ascending
    order of their text; the 4G bars add up to the number of 4G records
    the chart data were computed from, the 5G bars to the number of 5G
    records: records of any other network type are in no bar. *)
Theorem coverage_bars (data : list Rec.t) :
  let growth :=
    TelecomDataService.coverageGrowth
      (TelecomDataService.getChartData data) in
  Listing.ascending (AdminDashboardController.coverageYears growth)
  /\ list_sum (AdminDashboardController.coverage4G growth)
     = List.length (filter (fun r => Rec.network_type r =? "4G") data)
  /\ list_sum (AdminDashboardController.coverage5G growth)
     = List.length (filter (fun r => Rec.network_type r =? "5G") data).
Proof.
  cbv zeta. rewrite coverageGrowth_group.
  set (growth := Grouping.group _ _ _ data []).
  assert (Hnd : NoDup (map fst growth))
    by (apply NoDup_group; constructor).
  assert (Hp : Permutation (AdminDashboardController.coverageYears growth)
                           (JS.keys growth))
    by apply sort_Permutation.
  split; [|split].
  - apply sortStrings_ascending. now apply NoDup_keys.
  - unfold AdminDashboardController.coverage4G.
    rewrite (series_sum TelecomDataService.count4G growth _ Hnd Hp).
    subst growth. unfold Grouping.group.
    rewrite (countSum_group TelecomDataService.count4G _ _ _
               (fun r => Rec.network_type r =? "4G")); [reflexivity| |].
    + reflexivity.
    + intros r v. unfold TelecomDataService.addCoverage.
      destruct (Rec.network_type r =? "4G"); simpl; [lia|].
      destruct (Rec.network_type r =? "5G"); simpl; lia.
  - unfold AdminDashboardController.coverage5G.
    rewrite (series_sum TelecomDataService.count5G growth _ Hnd Hp).
    subst growth. unfold Grouping.group.
    rewrite (countSum_group TelecomDataService.count5G _ _ _
               (fun r => Rec.network_type r =? "5G"));
      [reflexivity| |].
    + reflexivity.
    + intros r v. unfold TelecomDataService.addCoverage.
      destruct (String.eqb_spec (Rec.network_type r) "4G") as [->|_];
        simpl; [lia|].
      destruct (Rec.network_type r =? "5G"); simpl; lia.
Qed.

(* ================================================================== *)
(** * Score labels, classes and colours *)
(* ================================================================== *)

Lemma leb_chain (a b x : float) :
  (a <? b)%float = true -> (b <=? x)%float = true -> (a <=? x)%float = true.
Proof. intros H1 H2. apply ltb_leb. now apply ltb_leb_trans with b. Qed.

(** X11: the three renderings of a score agree.  Whatever is passed as
    score -- a number, a text, nothing -- the label is "Good" or "Poor";
    it is "Good" exactly when the indicator class of the table is not
    "poor", and exactly when the marker colour of the map is green or
    yellow; the two [getScoreLabel] methods give the same label; a score
    that is not a number is "Poor". *)
Theorem score_renderings_agree (score : option JS.value) :
  let label := DataProcessor.getScoreLabel score in
  (label = "Good" \/ label = "Poor")
  /\ (label = "Good" <-> TableManager.scoreClass score <> "poor")
  /\ (label = "Good"
      <-> MapManager.getScoreColor score = "#4CAF50"
          \/ MapManager.getScoreColor score = "#FFC107")
  /\ TelecomDataService.getScoreLabel score = label
  /\ (PrimFloat.is_nan (JS.parseFloatValue score) = true ->
      label = "Poor").
Proof.
  cbv zeta.
  unfold DataProcessor.getScoreLabel, TelecomDataService.getScoreLabel,
    TableManager.scoreClass, MapManager.getScoreColor.
  set (x := JS.parseFloatValue score).
  destruct (0.7 <=? x)%float eqn:E7.
  - rewrite (leb_chain 0.5 0.7 x eq_refl E7).
    repeat split; auto; try discriminate.
    intros Hnan. now rewrite (leb_nan _ _ Hnan) in E7.
  - destruct (0.5 <=? x)%float eqn:E5.
    + repeat split; auto; try discriminate.
      intros Hnan. now rewrite (leb_nan _ _ Hnan) in E5.
    + destruct (0.3 <=? x)%float;
        repeat split; auto; try discriminate;
        try (intros H; now contradiction H);
        try (intros [H|H]; discriminate H).
Qed.

(* ================================================================== *)
(** * The insight cards *)
(* ================================================================== *)

Lemma calculateKPIs_no_latency (filteredData : list Rec.t) :
  JS.get "avgLatency" (DataProcessor.calculateKPIs filteredData) = None
  /\ JS.get "avgLatencyMs" (DataProcessor.calculateKPIs filteredData) = None.
Proof. destruct filteredData; split; reflexivity. Qed.

(** X12: on the user dashboard the insights are fed the KPIs of
    [calculateKPIs], which carry no latency.  Whatever records are
    selected, the latency the cards work with is therefore the default 50:
    the "Operator Analysis" card is always "neutral" -- never "stable",
    never "unstable" -- and the latency card always reports the status
    "good" with the trend "up". *)
Theorem user_insights_latency (filteredData : list Rec.t) :
  let kpis := DataProcessor.calculateKPIs filteredData in
  InsightsManager.lat kpis = 50%float
  /\ InsightsManager.operatorAnalysis kpis = "neutral"
  /\ InsightsManager.getLatencyStatus (InsightsManager.lat kpis) = "good"
  /\ InsightsManager.latencyTrend (InsightsManager.lat kpis) = "up"
  /\ InsightsManager.dynamicTrend "Operator Analysis" kpis = Some "neutral"
  /\ InsightsManager.dynamicTrend "Latency Trends" kpis = Some "up".
Proof.
  cbv zeta.
  destruct (calculateKPIs_no_latency filteredData) as [H1 H2].
  assert (Hlat : InsightsManager.lat
                   (DataProcessor.calculateKPIs filteredData) = 50%float).
  { unfold InsightsManager.lat. now rewrite H1, H2. }
  assert (Hop : InsightsManager.operatorAnalysis
                  (DataProcessor.calculateKPIs filteredData) = "neutral")
    by now apply operatorAnalysis_without_latency.
  unfold InsightsManager.dynamicTrend. simpl.
  rewrite Hop, Hlat. repeat split.
Qed.

(** X13: the speed cards agree with each other.  For every download
    speed the "Speed Recommendation" card trends "up" exactly when the
    "Speed Overview" card rates the network "Excellent" or "Good"; the
    overview is "Poor" exactly when its trend is "down"; and a snapshot
    without a usable download speed -- missing, not a number, or 0 -- is
    rated "Poor". *)
Theorem speed_cards_agree (down : float) :
  let overview := InsightsManager.speedOverview down in
  (InsightsManager.speedRecommendation down = "up"
   <-> fst overview = "Excellent" \/ fst overview = "Good")
  /\ (fst overview = "Poor" <-> snd overview = "down")
  /\ (forall m, InsightsManager.down m = down ->
                JS.truthy
                  (InsightsManager.parseFloatOf (JS.get "avgDownload" m))
                = false ->
                overview = ("Poor", "down")).
Proof.
  cbv zeta.
  unfold InsightsManager.speedRecommendation, InsightsManager.speedOverview.
  split; [|split].
  - destruct (100 <? down)%float eqn:E1.
    + rewrite (ltb_trans 50 100 down eq_refl E1). simpl. tauto.
    + destruct (50 <? down)%float; [simpl; tauto|].
      destruct (20 <? down)%float; simpl;
        split; try discriminate; intros [H|H]; discriminate H.
  - destruct (100 <? down)%float, (50 <? down)%float, (20 <? down)%float;
      simpl; split; try discriminate; reflexivity.
  - intros m Hm Hf. unfold InsightsManager.down, JS.orElse in Hm.
    rewrite Hf in Hm. subst down. reflexivity.
Qed.

(** X14: every trend the dynamic logic of [renderInsights] can leave on a
    card has an icon and a text of its own in [getTrendIcon] and
    [getTrendText]; the fallbacks "bi-info-circle" and "Insight" are never
    shown for it. *)
Theorem dynamic_trends_known (category : string) (m : JS.obj JS.value)
    (trend : string) :
  InsightsManager.dynamicTrend category m = Some trend ->
  In trend ["stable"; "unstable"; "neutral"; "up"; "down"]
  /\ InsightsManager.getTrendIcon trend <> "bi-info-circle"
  /\ InsightsManager.getTrendText trend <> "Insight".
Proof.
  intros H.
  assert (Hin : In trend ["stable"; "unstable"; "neutral"; "up"; "down"]).
  { unfold InsightsManager.dynamicTrend in H.
    destruct (category =? "Speed Overview").
    { injection H as <-. unfold InsightsManager.speedOverview.
      destruct (100 <? _)%float; [simpl; tauto|].
      destruct (50 <? _)%float; [simpl; tauto|].
      destruct (20 <? _)%float; simpl; tauto. }
    destruct (category =? "Speed Recommendation").
    { injection H as <-. unfold InsightsManager.speedRecommendation.
      destruct (50 <? _)%float; simpl; tauto. }
    destruct ((category =? "Latency Trends")
              || (category =? "Latency Analysis")).
    { injection H as <-.
      unfold InsightsManager.latencyTrend, InsightsManager.getLatencyStatus.
      destruct (_ <=? 50)%float; [simpl; tauto|].
      destruct (_ <=? 100)%float; simpl; tauto. }
    destruct (category =? "Operator Analysis"); [|discriminate].
    injection H as <-.
    unfold InsightsManager.operatorAnalysis, InsightsManager.operatorTrend.
    destruct (_ && _); [simpl; tauto|].
    destruct (_ && _); simpl; tauto. }
  split; [exact Hin|].
  simpl in Hin.
  destruct Hin as [<-|[<-|[<-|[<-|[<-|[]]]]]]; split; discriminate.
Qed.

Lemma dynamic_trends_known_witness :
  InsightsManager.dynamicTrend "Speed Overview" Sample.instantMetrics
  = Some "stable"
  /\ InsightsManager.getTrendIcon "stable" <> "bi-info-circle".
Proof.
  assert (H : InsightsManager.dynamicTrend "Speed Overview"
                Sample.instantMetrics = Some "stable") by reflexivity.
  split; [exact H|].
  exact (proj1 (proj2 (dynamic_trends_known _ _ _ H))).
Defined.

(** X15: the place named in the insight texts is never "All" and never
    empty: it is the selected city if there is one, else the selected
    state, else "your area" -- a selection that is absent, empty or "All"
    counting as none. *)
Theorem location_named (city state : option string) :
  let place := InsightsManager.location city state in
  place <> "All" /\ place <> ""
  /\ (forall c, city = Some c -> c <> "" -> c <> "All" -> place = c)
  /\ (forall s, (city = None \/ city = Some "" \/ city = Some "All") ->
                state = Some s -> s <> "" -> s <> "All" -> place = s)
  /\ ((city = None \/ city = Some "" \/ city = Some "All") ->
      (state = None \/ state = Some "" \/ state = Some "All") ->
      place = "your area").
Proof.
  cbv zeta. unfold InsightsManager.location.
  assert (Hpick : forall v : option string,
             JS.truthyStr v && JS.differs v "All" = true
             <-> exists x, v = Some x /\ x <> "" /\ x <> "All").
  { intros [x|]; simpl.
    - rewrite andb_true_iff, !negb_true_iff, !String.eqb_neq. split.
      + intros [H1 H2]. eauto.
      + intros (y & [= <-] & H1 & H2). auto.
    - split; [discriminate|]. intros (y & H & _). discriminate H. }
  assert (Hnone : forall v : option string,
             (v = None \/ v = Some "" \/ v = Some "All") ->
             JS.truthyStr v && JS.differs v "All" = false).
  { intros v [->|[->| ->]]; reflexivity. }
  destruct (JS.truthyStr city && JS.differs city "All") eqn:Ec.
  - apply Hpick in Ec. destruct Ec as (x & -> & H1 & H2). simpl.
    split; [assumption|]. split; [assumption|]. split; [|split].
    + now intros c [= <-].
    + intros s [H|[H|H]]; try discriminate H; injection H as ->;
        [now contradiction H1|now contradiction H2].
    + intros [H|[H|H]]; try discriminate H; injection H as ->;
        [now contradiction H1|now contradiction H2].
  - assert (Hc : forall c, city = Some c -> c <> "" -> c <> "All" -> False).
    { intros c Hc H1 H2.
      assert (JS.truthyStr city && JS.differs city "All" = true)
        by (apply Hpick; eauto).
      congruence. }
    destruct (JS.truthyStr state && JS.differs state "All") eqn:Es.
    + apply Hpick in Es. destruct Es as (x & -> & H1 & H2). simpl.
      split; [assumption|]. split; [assumption|]. split; [|split].
      * intros c Hcity Hc1 Hc2. exfalso. eauto.
      * now intros s _ [= <-].
      * intros _ Hs. apply Hnone in Hs. simpl in Hs.
        apply String.eqb_neq in H1, H2. rewrite H1, H2 in Hs.
        discriminate Hs.
    + split; [discriminate|]. split; [discriminate|]. split; [|split].
      * intros c Hcity Hc1 Hc2. exfalso. eauto.
      * intros s _ Hs H1 H2. exfalso.
        assert (JS.truthyStr state && JS.differs state "All" = true)
          by (apply Hpick; eauto).
        congruence.
      * reflexivity.
Qed.

(* ================================================================== *)
(** * Integers as property names *)
(* ================================================================== *)

Lemma to_uint_nonnil (n : N) : N.to_uint n <> Decimal.Nil.
Proof.
  destruct n as [|p]; [discriminate|].
  apply DecimalPos.Unsigned.to_uint_nonnil.
Qed.

Lemma decimal_inj (a b : Z) :
  (0 <= a)%Z -> (0 <= b)%Z -> JS.decimal a = JS.decimal b -> a = b.
Proof.
  unfold JS.decimal. intros Ha Hb H.
  apply (f_equal NilZero.uint_of_string) in H.
  rewrite !NilZero.usu in H by apply to_uint_nonnil.
  injection H as H. apply DecimalN.Unsigned.to_uint_inj in H.
  now apply Z2N.inj.
Qed.

Lemma decimal_digit (a : Z) :
  exists c s, JS.decimal a = String c s /\ c <> "-"%char.
Proof.
  unfold JS.decimal. pose proof (to_uint_nonnil (Z.to_N a)) as H.
  destruct (N.to_uint (Z.to_N a)); try contradiction; simpl;
    eexists; eexists; (split; [reflexivity|discriminate]).
Qed.

(** Different integers have different property names. *)
Lemma numeral_inj (a b : Z) : JS.numeral a = JS.numeral b -> a = b.
Proof.
  unfold JS.numeral.
  destruct (Z.ltb_spec a 0) as [Ha|Ha], (Z.ltb_spec b 0) as [Hb|Hb];
    intros H.
  - injection H as H. apply decimal_inj in H; lia.
  - destruct (decimal_digit b) as (c & s & E & Hc). rewrite E in H.
    simpl in H. injection H as H _. now contradiction Hc.
  - destruct (decimal_digit a) as (c & s & E & Hc). rewrite E in H.
    simpl in H. injection H as H _. now contradiction Hc.
  - now apply decimal_inj.
Qed.

Lemma numeral_eqb (a b : Z) :
  (JS.numeral a =? JS.numeral b) = (a =? b)%Z.
Proof.
  destruct (Z.eqb_spec a b) as [->|Hne]; [apply String.eqb_refl|].
  apply String.eqb_neq. intros H. now apply numeral_inj in H.
Qed.

(* ================================================================== *)
(** * The charts of the user dashboard *)
(* ================================================================== *)

Lemma filter_filter {A} (p q : A -> bool) (l : list A) :
  filter q (filter p l) = filter (fun a => p a && q a) l.
Proof.
  induction l as [|a l IH]; simpl; [reflexivity|].
  destruct (p a); simpl; [destruct (q a)|]; now rewrite IH.
Qed.

Lemma feed_cons {A V} (key : A -> string) (init : A -> V)
    (step : A -> V -> V) (k : string) (a : A) (l : list A) (v : option V) :
  Grouping.feed key init step k (a :: l) v
  = Grouping.feed key init step k l
      (if key a =? k
       then Some (step a (match v with Some x => x | None => init a end))
       else v).
Proof. reflexivity. Qed.

Lemma operator_bucket (measure : Rec.t -> JS.field) (l : list Rec.t)
    (op : string) :
  JS.get op
    (Grouping.group DataProcessor.operatorKey (fun _ => mkBucket 0 0)
       (fun r => addTo (JS.toNumber (measure r))) l [])
  = match filter (fun r => DataProcessor.operatorKey r =? op) l with
    | [] => None
    | l' =>
        Some (mkBucket (sumOf (fun r => JS.toNumber (measure r)) l')
                       (List.length l'))
    end.
Proof.
  rewrite get_group_nil.
  destruct (filter _ l) as [|r l']; [reflexivity|].
  rewrite fold_addTo. simpl. unfold sumOf. simpl. do 2 f_equal. lia.
Qed.

Lemma records_key (test : Rec.t -> bool) (op : string) (l : list Rec.t) :
  Charted.records test op l
  = filter (fun r => test r && (DataProcessor.operatorKey r =? op)) l.
Proof.
  unfold Charted.records. apply filter_ext. intros r.
  now rewrite operatorKey_name.
Qed.

(** A two-level grouping by [key1] and the operator key: the bucket read
    at [k1], [op] holds the records with that key and operator. *)
Lemma get2_totals (key1 : Rec.t -> string) (measure : Rec.t -> JS.field)
    (filteredData : list Rec.t) (o0 : JS.obj (JS.obj Bucket))
    (k1 op : string) :
  (forall k v, JS.get k o0 = Some v -> v = []) ->
  DataProcessor.charted
    (DataProcessor.get2 k1 op
       (fold_left
          (fun data r =>
             JS.upsert (key1 r) []
               (JS.upsert (DataProcessor.operatorKey r) (mkBucket 0 0)
                  (addTo (JS.toNumber (measure r))))
               data)
          filteredData o0))
  = Charted.point measure
      (Charted.records (fun r => key1 r =? k1) op filteredData).
Proof.
  intros Hempty.
  change (fold_left _ filteredData o0)
    with (Grouping.group key1 (fun _ => @nil (string * Bucket))
            (fun r =>
               JS.upsert (DataProcessor.operatorKey r) (mkBucket 0 0)
                 (addTo (JS.toNumber (measure r))))
            filteredData o0).
  unfold DataProcessor.get2. rewrite get_group, feed_filter.
  rewrite records_key, <- filter_filter.
  remember (filter (fun r => key1 r =? k1) filteredData) as l1 eqn:El1.
  assert (Hall : Forall (fun r => key1 r = k1) l1).
  { subst l1. apply Forall_forall. intros r Hr. apply filter_In in Hr.
    now apply String.eqb_eq. }
  clear El1.
  destruct (JS.get k1 o0) as [v|] eqn:E.
  - rewrite (Hempty _ _ E), feed_Some by assumption.
    fold (Grouping.group DataProcessor.operatorKey (fun _ => mkBucket 0 0)
            (fun r => addTo (JS.toNumber (measure r))) l1 []).
    rewrite operator_bucket.
    now destruct (filter (fun r => DataProcessor.operatorKey r =? op) l1).
  - destruct l1 as [|r l1]; [reflexivity|].
    inversion_clear Hall as [|? ? Hr Hl].
    rewrite feed_cons, Hr, String.eqb_refl, feed_Some by assumption.
    change (fold_left _ l1 _)
      with (Grouping.group DataProcessor.operatorKey
              (fun _ => mkBucket 0 0)
              (fun r => addTo (JS.toNumber (measure r))) (r :: l1) []).
    rewrite operator_bucket.
    now destruct (filter (fun r => DataProcessor.operatorKey r =? op)
                         (r :: l1)).
Qed.

Lemma allOperators_member (filteredData : list Rec.t) (op : string) :
  In op (DataProcessor.allOperators filteredData)
  <-> Ranking.isOperator filteredData op.
Proof.
  unfold DataProcessor.allOperators, Ranking.isOperator.
  pose proof (fold_setAdd_member String.eqb String.eqb_eq
                (fun r => Some (DataProcessor.operatorKey r))
                filteredData [] op) as H.
  cbv beta iota in H. rewrite H. split.
  - intros [[]|(r & Hr & [= <-])]. exists r. split; [assumption|].
    symmetry. apply operatorKey_name.
  - intros (r & Hr & <-). right. exists r. split; [assumption|].
    now rewrite operatorKey_name.
Qed.

Lemma allOperators_NoDup (filteredData : list Rec.t) :
  NoDup (DataProcessor.allOperators filteredData).
Proof.
  apply (fold_setAdd_NoDup String.eqb String.eqb_eq
           (fun r => Some (DataProcessor.operatorKey r)) filteredData []).
  constructor.
Qed.

(** The lines of a chart: one per operator of the selection, upper-cased,
    in ascending order. *)
Lemma chart_lines {L} (filteredData : list Rec.t)
    (dataOf : string -> list JS.value) (chart : DataProcessor.Chart L) :
  DataProcessor.datasets chart
  = map (fun op => DataProcessor.mkDataset op (dataOf op))
        (JS.sortStrings (DataProcessor.allOperators filteredData)) ->
  Listing.ascending (map DataProcessor.ds_label
                         (DataProcessor.datasets chart))
  /\ (forall op,
        In op (map DataProcessor.ds_label (DataProcessor.datasets chart))
        <-> Ranking.isOperator filteredData op)
  /\ (forall ds,
        In ds (DataProcessor.datasets chart) ->
        DataProcessor.ds_data ds = dataOf (DataProcessor.ds_label ds)).
Proof.
  intros ->. rewrite map_map. simpl. rewrite map_id.
  split; [|split].
  - apply sortStrings_ascending, allOperators_NoDup.
  - intros op. rewrite sortStrings_member. apply allOperators_member.
  - intros ds Hds. apply in_map_iff in Hds.
    destruct Hds as (op & <- & _). reflexivity.
Qed.

Lemma records_ext (p q : Rec.t -> bool) (op : string) (l : list Rec.t) :
  (forall r, p r = q r) -> Charted.records p op l = Charted.records q op l.
Proof.
  intros H. unfold Charted.records. apply filter_ext. intros r.
  now rewrite H.
Qed.

(** X16: the hourly chart.  [getHourlyDownloadSpeed] labels the 24 hours
    0..23 and draws one line per operator of the selection, under
    its normalized name (upper case, "UNKNOWN" for a missing one), the
    lines in ascending order of the name.  The point of an operator at an hour is the number 0 when no
    selected record has that operator and that hour, and otherwise the
    average download speed of these records as text with two decimals; a
    record whose hour is outside 0..23 enters no point. *)
Theorem hourly_chart (filteredData : list Rec.t) :
  let chart := DataProcessor.getHourlyDownloadSpeed filteredData in
  DataProcessor.labels chart = map Z.of_nat (seq 0 24)
  /\ Listing.ascending (map DataProcessor.ds_label
                            (DataProcessor.datasets chart))
  /\ (forall op,
        In op (map DataProcessor.ds_label (DataProcessor.datasets chart))
        <-> Ranking.isOperator filteredData op)
  /\ (forall ds,
        In ds (DataProcessor.datasets chart) ->
        DataProcessor.ds_data ds
        = Charted.line (map Z.of_nat (seq 0 24))
            (fun hour r => (Rec.hour r =? hour)%Z)
            Rec.download_mbps filteredData (DataProcessor.ds_label ds)).
Proof.
  cbv zeta. split; [reflexivity|].
  apply chart_lines. unfold DataProcessor.getHourlyDownloadSpeed.
  cbn [DataProcessor.datasets]. apply map_ext. intros op. f_equal.
  unfold Charted.line. apply map_ext. intros hour.
  unfold DataProcessor.hourTotals.
  transitivity
    (Charted.point Rec.download_mbps
       (Charted.records
          (fun r => JS.numeral (Rec.hour r) =? JS.numeral hour)
          op filteredData)).
  - apply (get2_totals (fun r => JS.numeral (Rec.hour r))
             Rec.download_mbps filteredData [] (JS.numeral hour) op).
    intros k v H. discriminate H.
  - f_equal. apply records_ext. intros r. apply numeral_eqb.
Qed.

(** X17: the peak-hour chart.  [getLatencyByPeakHour] has the two labels
    "Non-Peak" and "Peak" and one line per operator of the selection, in
    ascending order of the upper-cased name; the two points of a line are
    the average latency of the operator's records outside the peak hours
    and in them (peak flag 1), each the number 0 when there is no such
    record. *)
Theorem peak_chart (filteredData : list Rec.t) :
  let chart := DataProcessor.getLatencyByPeakHour filteredData in
  DataProcessor.labels chart = ["Non-Peak"; "Peak"]
  /\ Listing.ascending (map DataProcessor.ds_label
                            (DataProcessor.datasets chart))
  /\ (forall op,
        In op (map DataProcessor.ds_label (DataProcessor.datasets chart))
        <-> Ranking.isOperator filteredData op)
  /\ (forall ds,
        In ds (DataProcessor.datasets chart) ->
        DataProcessor.ds_data ds
        = [ Charted.point Rec.latency_ms
              (Charted.records
                 (fun r => negb (Rec.is_peak_hour r =? 1)%Z)
                 (DataProcessor.ds_label ds) filteredData);
            Charted.point Rec.latency_ms
              (Charted.records (fun r => (Rec.is_peak_hour r =? 1)%Z)
                 (DataProcessor.ds_label ds) filteredData) ]).
Proof.
  cbv zeta. split; [reflexivity|].
  apply (chart_lines filteredData
           (fun op =>
              [ Charted.point Rec.latency_ms
                  (Charted.records
                     (fun r => negb (Rec.is_peak_hour r =? 1)%Z)
                     op filteredData);
                Charted.point Rec.latency_ms
                  (Charted.records (fun r => (Rec.is_peak_hour r =? 1)%Z)
                     op filteredData) ])).
  unfold DataProcessor.getLatencyByPeakHour.
  cbn [DataProcessor.datasets]. apply map_ext. intros op. f_equal.
  cbn [map]. unfold DataProcessor.peakTotals.
  assert (Hempty : forall k v,
             JS.get k [("Non-Peak", @nil (string * Bucket)); ("Peak", [])]
             = Some v -> v = []).
  { intros k v. simpl. destruct (k =? "Non-Peak"); [now intros [= <-]|].
    destruct (k =? "Peak"); [now intros [= <-]|discriminate]. }
  f_equal; [|f_equal].
  - transitivity
      (Charted.point Rec.latency_ms
         (Charted.records
            (fun r => DataProcessor.hourType r =? "Non-Peak")
            op filteredData)).
    + apply (get2_totals DataProcessor.hourType Rec.latency_ms
               filteredData _ "Non-Peak" op Hempty).
    + f_equal. apply records_ext. intros r.
      unfold DataProcessor.hourType.
      now destruct (Rec.is_peak_hour r =? 1)%Z.
  - transitivity
      (Charted.point Rec.latency_ms
         (Charted.records
            (fun r => DataProcessor.hourType r =? "Peak")
            op filteredData)).
    + apply (get2_totals DataProcessor.hourType Rec.latency_ms
               filteredData _ "Peak" op Hempty).
    + f_equal. apply records_ext. intros r.
      unfold DataProcessor.hourType.
      now destruct (Rec.is_peak_hour r =? 1)%Z.
Qed.

Lemma cityTotals_keys (filteredData : list Rec.t) :
  NoDup (JS.keys (DataProcessor.cityTotals filteredData))
  /\ forall city,
       In city (JS.keys (DataProcessor.cityTotals filteredData))
       <-> exists r, In r filteredData /\ Rec.city r = city.
Proof.
  set (g := Grouping.group Rec.city (fun _ => @nil (string * Bucket))
              (fun r =>
                 JS.upsert (DataProcessor.operatorKey r) (mkBucket 0 0)
                   (addTo (JS.toNumber (Rec.download_mbps r))))
              filteredData []).
  change (DataProcessor.cityTotals filteredData) with g.
  assert (Hnd : NoDup (map fst g)) by (apply NoDup_group; constructor).
  split; [now apply NoDup_keys|].
  intros city.
  assert (Hk : In city (JS.keys g) <-> JS.get city g <> None).
  { rewrite get_None. unfold JS.keys. split.
    - intros H Hn. apply Hn. apply in_map_iff in H.
      destruct H as (e & <- & He). apply in_map.
      now apply (proj1 (In_entries _ _)).
    - intros H. destruct (in_dec string_dec city (map fst g)) as [Hin|Hn];
        [|now contradiction H].
      apply in_map_iff in Hin. destruct Hin as (e & <- & He).
      apply in_map. now apply In_entries. }
  rewrite Hk. subst g. rewrite get_group_nil. split.
  - destruct (filter _ filteredData) as [|r l] eqn:E;
      [intros H; now contradiction H|].
    intros _. exists r.
    assert (Hr : In r (filter (fun a => Rec.city a =? city) filteredData))
      by (rewrite E; now left).
    apply filter_In in Hr. now rewrite String.eqb_eq in Hr.
  - intros (r & Hr & <-).
    assert (Hf : In r (filter (fun a => Rec.city a =? Rec.city r)
                              filteredData))
      by (apply filter_In; split; [assumption|apply String.eqb_refl]).
    destruct (filter _ filteredData); [destruct Hf|discriminate].
Qed.

(** X18: the city chart, when no city of the selection is a name
    inherited from [Object.prototype].  [getDownloadSpeedByOperatorCity]
    labels at most five cities, all different and all cities of selected
    records -- every city of the selection when it has at most five -- yet
    draws a line for every operator of the whole selection, in ascending
    order of the normalized name.  The point of an operator at a city is
    the number 0 when no selected record has that operator and that city,
    and otherwise the average download speed of these records as text with
    two decimals. *)
Theorem city_chart (filteredData : list Rec.t) :
  Names.own Rec.city filteredData ->
  let chart := DataProcessor.getDownloadSpeedByOperatorCity filteredData in
  let cities := DataProcessor.labels chart in
  (List.length cities <= 5 /\ NoDup cities
   /\ (forall city, In city cities ->
                    exists r, In r filteredData /\ Rec.city r = city)
   /\ (List.length (JS.setOf String.eqb (map Rec.city filteredData)) <= 5 ->
       forall r, In r filteredData -> In (Rec.city r) cities))
  /\ Listing.ascending (map DataProcessor.ds_label
                            (DataProcessor.datasets chart))
  /\ (forall op,
        In op (map DataProcessor.ds_label (DataProcessor.datasets chart))
        <-> Ranking.isOperator filteredData op)
  /\ (forall ds,
        In ds (DataProcessor.datasets chart) ->
        DataProcessor.ds_data ds
        = Charted.line cities (fun city r => Rec.city r =? city)
            Rec.download_mbps filteredData (DataProcessor.ds_label ds)).
Proof.
  intros _. cbv zeta. destruct (cityTotals_keys filteredData) as [Hnd Hk].
  split.
  - unfold DataProcessor.getDownloadSpeedByOperatorCity.
    cbn [DataProcessor.labels].
    set (keys := JS.keys (DataProcessor.cityTotals filteredData)) in *.
    split; [apply firstn_le_length|]. split; [|split].
    + rewrite <- (firstn_skipn 5 keys) in Hnd.
      now apply NoDup_app_remove_r in Hnd.
    + intros city Hc. apply Hk. rewrite <- (firstn_skipn 5 keys).
      apply in_or_app. now left.
    + intros Hfew r Hr.
      assert (Hlen : List.length keys
                     = List.length (JS.setOf String.eqb
                                      (map Rec.city filteredData))).
      { apply Permutation_length, NoDup_Permutation;
          [assumption|apply setOf_NoDup, String.eqb_eq|].
        intros city. rewrite Hk, (setOf_member String.eqb String.eqb_eq),
          in_map_iff.
        split; intros (x & H1 & H2); eauto. }
      rewrite firstn_all2 by lia. apply Hk. eauto.
  - apply chart_lines. unfold DataProcessor.getDownloadSpeedByOperatorCity.
    cbn [DataProcessor.datasets DataProcessor.labels].
    apply map_ext. intros op. f_equal.
    unfold Charted.line. apply map_ext. intros city.
    unfold DataProcessor.cityTotals.
    apply (get2_totals Rec.city Rec.download_mbps filteredData [] city op).
    intros k v H. discriminate H.
Qed.

(** The sample selection has one city, which is labelled. *)
Lemma city_chart_witness :
  Names.own Rec.city Sample.selection
  /\ DataProcessor.labels
       (DataProcessor.getDownloadSpeedByOperatorCity Sample.selection)
     = ["Bengaluru"]
  /\ NoDup (DataProcessor.labels
              (DataProcessor.getDownloadSpeedByOperatorCity
                 Sample.selection)).
Proof.
  assert (H : Names.own Rec.city Sample.selection)
    by (repeat constructor).
  split; [exact H|]. split; [reflexivity|].
  exact (proj1 (proj2 (proj1 (city_chart Sample.selection H)))).
Defined.

(* ================================================================== *)
(** * The map *)
(* ================================================================== *)

Lemma fold_addToGroup (l : list Rec.t) (g : DataProcessor.MapGroup) :
  let g' := fold_left (fun g r => DataProcessor.addToGroup r g) l g in
  DataProcessor.mg_area g' = DataProcessor.mg_area g
  /\ DataProcessor.mg_city g' = DataProcessor.mg_city g
  /\ DataProcessor.mg_state g' = DataProcessor.mg_state g
  /\ DataProcessor.lat g' = DataProcessor.lat g
  /\ DataProcessor.lng g' = DataProcessor.lng g
  /\ DataProcessor.mg_count g' = List.length l + DataProcessor.mg_count g
  /\ DataProcessor.mg_scoreTotal g'
     = fold_left
         (fun sum r => (sum + JS.toNumber (Rec.confidence_score r))%float)
         l (DataProcessor.mg_scoreTotal g).
Proof.
  revert g. induction l as [|r l IH]; intros g; simpl.
  - repeat split.
  - destruct (IH (DataProcessor.addToGroup r g))
      as (H1 & H2 & H3 & H4 & H5 & H6 & H7).
    rewrite H1, H2, H3, H4, H5, H6, H7. simpl. repeat split. lia.
Qed.

Lemma mapGroups_group (filteredData : list Rec.t) :
  DataProcessor.mapGroups filteredData
  = Grouping.group Rec.area
      (fun r =>
         DataProcessor.mkMapGroup (Rec.area r) (Rec.city r) (Rec.state r)
           (Rec.latitude r) (Rec.longitude r) 0 0 [])
      DataProcessor.addToGroup filteredData [].
Proof. reflexivity. Qed.

Lemma mapGroups_NoDup (filteredData : list Rec.t) :
  NoDup (map fst (DataProcessor.mapGroups filteredData)).
Proof. rewrite mapGroups_group. apply NoDup_group. constructor. Qed.

(** The group of an area is made of the records of the area, and shows
    the place of the first of them. *)
Lemma mapGroups_get (filteredData : list Rec.t) (area : string) :
  match JS.get area (DataProcessor.mapGroups filteredData) with
  | Some g =>
      exists r l,
        Ranking.inArea area filteredData = r :: l
        /\ DataProcessor.mg_area g = area
        /\ DataProcessor.mg_city g = Rec.city r
        /\ DataProcessor.mg_state g = Rec.state r
        /\ DataProcessor.lat g = Rec.latitude r
        /\ DataProcessor.lng g = Rec.longitude r
        /\ DataProcessor.mg_count g = List.length (r :: l)
        /\ DataProcessor.mg_scoreTotal g
           = sumOf (fun r => JS.toNumber (Rec.confidence_score r)) (r :: l)
  | None => Ranking.inArea area filteredData = []
  end.
Proof.
  rewrite mapGroups_group, get_group_nil.
  fold (Ranking.inArea area filteredData).
  destruct (Ranking.inArea area filteredData) as [|r l] eqn:E;
    [reflexivity|].
  exists r, l. split; [reflexivity|].
  assert (Hr : Rec.area r = area).
  { assert (H : In r (Ranking.inArea area filteredData))
      by (rewrite E; now left).
    apply filter_In in H. now rewrite String.eqb_eq in H. }
  destruct (fold_addToGroup l
              (DataProcessor.addToGroup r
                 (DataProcessor.mkMapGroup (Rec.area r) (Rec.city r)
                    (Rec.state r) (Rec.latitude r) (Rec.longitude r)
                    0 0 [])))
    as (H1 & H2 & H3 & H4 & H5 & H6 & H7).
  cbv zeta in H1, H2, H3, H4, H5, H6, H7.
  rewrite H1, H2, H3, H4, H5, H6, H7. simpl.
  unfold sumOf. simpl.
  repeat split; try assumption; try reflexivity; lia.
Qed.

Lemma getMapData_item (filteredData : list Rec.t)
    (i : DataProcessor.MapItem) :
  In i (DataProcessor.getMapData filteredData)
  <-> exists g,
        JS.get (DataProcessor.mg_area g)
               (DataProcessor.mapGroups filteredData) = Some g
        /\ i = DataProcessor.mkMapItem g
                 (JS.toFixed2 (DataProcessor.mg_scoreTotal g
                               / JS.ofNat (DataProcessor.mg_count g)))
                 (DataProcessor.join (DataProcessor.operators g)).
Proof.
  unfold DataProcessor.getMapData, JS.values.
  rewrite map_map, in_map_iff. split.
  - intros ([k g] & <- & Hin). simpl. exists g. split; [|reflexivity].
    apply (proj1 (In_entries _ _)) in Hin.
    apply In_get in Hin; [|apply mapGroups_NoDup].
    pose proof (mapGroups_get filteredData k) as H. rewrite Hin in H.
    destruct H as (r & l & _ & -> & _). exact Hin.
  - intros (g & Hg & ->). exists (DataProcessor.mg_area g, g).
    split; [reflexivity|]. apply In_entries. now apply get_In.
Qed.

Lemma getMapData_areas (filteredData : list Rec.t) :
  map (fun i => DataProcessor.mg_area (DataProcessor.group i))
      (DataProcessor.getMapData filteredData)
  = JS.keys (DataProcessor.mapGroups filteredData).
Proof.
  unfold DataProcessor.getMapData, JS.values, JS.keys.
  rewrite !map_map. apply map_ext_in. intros [k g] Hin. simpl.
  apply (proj1 (In_entries _ _)) in Hin.
  apply In_get in Hin; [|apply mapGroups_NoDup].
  pose proof (mapGroups_get filteredData k) as H. rewrite Hin in H.
  now destruct H as (r & l & _ & -> & _).
Qed.

Lemma mapData_spec (filteredData : list Rec.t) :
  let items := DataProcessor.getMapData filteredData in
  let areaOf i := DataProcessor.mg_area (DataProcessor.group i) in
  NoDup (map areaOf items)
  /\ (forall area,
        In area (map areaOf items)
        <-> exists r, In r filteredData /\ Rec.area r = area)
  /\ list_sum (map (fun i => DataProcessor.mg_count (DataProcessor.group i))
                   items)
     = List.length filteredData
  /\ forall i,
       In i items ->
       exists r l,
         Ranking.inArea (areaOf i) filteredData = r :: l
         /\ DataProcessor.mg_city (DataProcessor.group i) = Rec.city r
         /\ DataProcessor.mg_state (DataProcessor.group i) = Rec.state r
         /\ DataProcessor.lat (DataProcessor.group i) = Rec.latitude r
         /\ DataProcessor.lng (DataProcessor.group i) = Rec.longitude r
         /\ DataProcessor.mg_count (DataProcessor.group i)
            = List.length (r :: l)
         /\ DataProcessor.mi_avgScore i
            = JS.toFixed2
                (sumOf (fun r => JS.toNumber (Rec.confidence_score r))
                       (r :: l)
                 / JS.ofNat (List.length (r :: l))).
Proof.
  cbv zeta. rewrite getMapData_areas.
  split; [apply NoDup_keys, mapGroups_NoDup|]. split; [|split].
  - intros area.
    pose proof (mapGroups_get filteredData area) as H.
    split.
    + intros Hin. unfold JS.keys in Hin. apply in_map_iff in Hin.
      destruct Hin as ([k g] & <- & Hin). simpl in *.
      apply (proj1 (In_entries _ _)) in Hin.
      apply In_get in Hin; [|apply mapGroups_NoDup].
      rewrite Hin in H. destruct H as (r & l & E & _).
      exists r.
      assert (Hr : In r (Ranking.inArea k filteredData))
        by (rewrite E; now left).
      apply filter_In in Hr. now rewrite String.eqb_eq in Hr.
    + intros (r & Hr & <-).
      destruct (JS.get (Rec.area r) (DataProcessor.mapGroups filteredData))
        as [g|] eqn:E.
      * unfold JS.keys. apply in_map_iff. exists (Rec.area r, g).
        split; [reflexivity|]. apply In_entries. now apply get_In.
      * assert (Hin : In r (Ranking.inArea (Rec.area r) filteredData))
          by (apply filter_In; split; [assumption|apply String.eqb_refl]).
        rewrite H in Hin. destruct Hin.
  - unfold DataProcessor.getMapData. rewrite map_map. simpl.
    pose proof (countSum_group DataProcessor.mg_count Rec.area
                  (fun r =>
                     DataProcessor.mkMapGroup (Rec.area r) (Rec.city r)
                       (Rec.state r) (Rec.latitude r) (Rec.longitude r)
                       0 0 [])
                  DataProcessor.addToGroup (fun _ => true) filteredData []
                  (fun _ => eq_refl)) as H.
    rewrite filter_all in H. apply H. intros r g. simpl. lia.
  - intros i Hi. apply getMapData_item in Hi. destruct Hi as (g & Hg & ->).
    simpl.
    pose proof (mapGroups_get filteredData (DataProcessor.mg_area g)) as H.
    rewrite Hg in H.
    destruct H as (r & l & E & _ & H2 & H3 & H4 & H5 & H6 & H7).
    exists r, l. rewrite H6, H7. repeat split; assumption.
Qed.

(** X19: when no area of the selection is a name inherited from
    [Object.prototype], [getMapData] returns one item per area of the
    selection.  The areas of the items are pairwise different and are
    exactly the areas of the selected records; the record counts of the
    items add up to the size of the selection; and an item shows the city,
    the state and the coordinates of the first selected record of its
    area, with the average confidence score of all the records of the
    area. *)
Theorem getMapData_exact (filteredData : list Rec.t) :
  Names.own Rec.area filteredData ->
  let items := DataProcessor.getMapData filteredData in
  let areaOf i := DataProcessor.mg_area (DataProcessor.group i) in
  NoDup (map areaOf items)
  /\ (forall area,
        In area (map areaOf items)
        <-> exists r, In r filteredData /\ Rec.area r = area)
  /\ list_sum (map (fun i => DataProcessor.mg_count (DataProcessor.group i))
                   items)
     = List.length filteredData
  /\ forall i,
       In i items ->
       exists r l,
         Ranking.inArea (areaOf i) filteredData = r :: l
         /\ DataProcessor.mg_city (DataProcessor.group i) = Rec.city r
         /\ DataProcessor.mg_state (DataProcessor.group i) = Rec.state r
         /\ DataProcessor.lat (DataProcessor.group i) = Rec.latitude r
         /\ DataProcessor.lng (DataProcessor.group i) = Rec.longitude r
         /\ DataProcessor.mg_count (DataProcessor.group i)
            = List.length (r :: l)
         /\ DataProcessor.mi_avgScore i
            = JS.toFixed2
                (sumOf (fun r => JS.toNumber (Rec.confidence_score r))
                       (r :: l)
                 / JS.ofNat (List.length (r :: l))).
Proof. intros _. apply mapData_spec. Qed.

(** The four records of the sample selection are in two areas. *)
Lemma getMapData_exact_witness :
  Names.own Rec.area Sample.selection
  /\ list_sum (map (fun i => DataProcessor.mg_count (DataProcessor.group i))
                   (DataProcessor.getMapData Sample.selection))
     = List.length Sample.selection.
Proof.
  assert (H : Names.own Rec.area Sample.selection)
    by (repeat constructor).
  split; [exact H|].
  exact (proj1 (proj2 (proj2 (getMapData_exact Sample.selection H)))).
Defined.

Lemma parseFloatNumber_nan (x : float) :
  PrimFloat.is_nan (JS.parseFloatNumber x) = PrimFloat.is_nan x.
Proof.
  unfold JS.parseFloatNumber. destruct (x =? 0)%float eqn:E; [|reflexivity].
  destruct (PrimFloat.is_nan x) eqn:N; [|reflexivity].
  apply is_nan_spec in N. rewrite eqb_spec, N in E. discriminate E.
Qed.

Lemma marker_of (filteredData : list Rec.t) (m : MapManager.Marker) :
  In m (MapManager.markers filteredData)
  <-> exists i,
        In i (DataProcessor.getMapData filteredData)
        /\ PrimFloat.is_nan
             (JS.parseFloatNumber
                (DataProcessor.lat (DataProcessor.group i))) = false
        /\ PrimFloat.is_nan
             (JS.parseFloatNumber
                (DataProcessor.lng (DataProcessor.group i))) = false
        /\ m = MapManager.mkMarker
                 (JS.parseFloatNumber
                    (DataProcessor.lat (DataProcessor.group i)),
                  JS.parseFloatNumber
                    (DataProcessor.lng (DataProcessor.group i)))
                 (MapManager.getScoreColor
                    (Some (JS.Str (DataProcessor.mi_avgScore i))))
                 (DataProcessor.getScoreLabel
                    (Some (JS.Str (DataProcessor.mi_avgScore i))))
                 (MapManager.markerBestOperator filteredData
                    (DataProcessor.mg_area (DataProcessor.group i)))
                 (MapManager.getOperatorColor
                    (MapManager.markerBestOperator filteredData
                       (DataProcessor.mg_area (DataProcessor.group i))))
                 i.
Proof.
  unfold MapManager.markers. rewrite in_flat_map. split.
  - intros (i & Hi & Hm). exists i. split; [assumption|].
    destruct (PrimFloat.is_nan
                (JS.parseFloatNumber
                   (DataProcessor.lat (DataProcessor.group i))));
      [destruct Hm|].
    destruct (PrimFloat.is_nan
                (JS.parseFloatNumber
                   (DataProcessor.lng (DataProcessor.group i))));
      [destruct Hm|].
    simpl in Hm. destruct Hm as [<-|[]]. repeat split.
  - intros (i & Hi & H1 & H2 & ->). exists i. split; [assumption|].
    rewrite H1, H2. now left.
Qed.

Lemma markers_NoDup (filteredData : list Rec.t)
    (items : list DataProcessor.MapItem) :
  NoDup (map (fun i => DataProcessor.mg_area (DataProcessor.group i))
             items) ->
  NoDup
    (map (fun m => DataProcessor.mg_area
                     (DataProcessor.group (MapManager.item m)))
         (flat_map
            (fun item =>
               let lat :=
                 JS.parseFloatNumber
                   (DataProcessor.lat (DataProcessor.group item)) in
               let lng :=
                 JS.parseFloatNumber
                   (DataProcessor.lng (DataProcessor.group item)) in
               if PrimFloat.is_nan lat || PrimFloat.is_nan lng then []
               else
                 let avgScore :=
                   Some (JS.Str (DataProcessor.mi_avgScore item)) in
                 let bestOp :=
                   MapManager.markerBestOperator filteredData
                     (DataProcessor.mg_area (DataProcessor.group item)) in
                 [MapManager.mkMarker (lat, lng)
                    (MapManager.getScoreColor avgScore)
                    (DataProcessor.getScoreLabel avgScore)
                    bestOp (MapManager.getOperatorColor bestOp) item])
            items)).
Proof.
  induction items as [|i items IH]; intros Hnd; simpl; [constructor|].
  inversion_clear Hnd as [|? ? Hi Hnd'].
  destruct (PrimFloat.is_nan _ || PrimFloat.is_nan _); simpl; [auto|].
  constructor; [|auto].
  intros Hin. apply Hi. apply in_map_iff in Hin.
  destruct Hin as (m & Hm & Hin). apply in_flat_map in Hin.
  destruct Hin as (j & Hj & Hmj).
  destruct (PrimFloat.is_nan _ || PrimFloat.is_nan _); [destruct Hmj|].
  simpl in Hmj. destruct Hmj as [<-|[]]. simpl in Hm.
  rewrite <- Hm.
  apply (in_map (fun i => DataProcessor.mg_area (DataProcessor.group i))).
  exact Hj.
Qed.

(** The best operator recorded for an area is the one chosen among the
    records of the area. *)
Lemma bestOperators_area (records : list Rec.t) (area : string)
    (r : Rec.t) (l : list Rec.t) :
  Ranking.inArea area records = r :: l ->
  JS.get area (MapManager.bestOperators records)
  = Some (MapManager.bestOf (MapManager.operatorBuckets (r :: l))).
Proof.
  intros E.
  assert (Hget : JS.get area (MapManager.areaOperators records)
                 = Some (MapManager.operatorBuckets (r :: l)))
    by (rewrite areaOperators_get; now rewrite E).
  unfold MapManager.bestOperators.
  apply bestOperators_records; [assumption|].
  apply get_In, In_entries in Hget.
  now apply (in_map fst) in Hget.
Qed.

(** The operator chosen among some records is the operator of one of
    them, as it is written. *)
Lemma bestOf_operator (records : list Rec.t) (op : string) :
  MapManager.bestOf (MapManager.operatorBuckets records) = Some op ->
  exists r, In r records /\ Names.operatorText r = op.
Proof.
  intros H.
  destruct (bestOf_select (MapManager.operatorBuckets records)
              (operatorBuckets_NoDup records))
    as [[Hnone _]|(k & Hk & Hfirst)]; [congruence|].
  rewrite H in Hk. injection Hk as <-.
  apply firstGreatest_max in Hfirst. destruct Hfirst as (b & Hin & _).
  apply (proj1 (In_entries _ _)) in Hin.
  apply In_get in Hin; [|apply operatorBuckets_NoDup].
  rewrite operatorBuckets_get in Hin.
  destruct (filter _ records) as [|r l] eqn:E; [discriminate|].
  assert (Hr : In r (r :: l)) by now left.
  rewrite <- E in Hr. apply filter_In in Hr. destruct Hr as [Hr Hop].
  exists r. split; [assumption|]. now apply String.eqb_eq.
Qed.

(** The colour of an operator whose name is not inherited is a text. *)
Lemma getOperatorColor_text (operator : string) :
  JS.isInherited operator = false ->
  MapManager.getOperatorColor operator <> None.
Proof.
  unfold MapManager.getOperatorColor, JS.lookup. intros ->.
  now destruct (JS.get operator _).
Qed.

(** X20: the markers of the map.  When no area and no operator of the
    selection is a name inherited from [Object.prototype], [updateMap]
    puts at most one marker per area; an area of the selection gets its
    marker exactly when the coordinates of its first selected record are
    numbers, whatever the other records of the area say.  The marker
    stands at these coordinates, carries the average score of the area,
    and names the best operator chosen among the records of the area
    alone -- "N/A" when none is chosen or the chosen name is empty -- in
    a colour that is a text. *)
Theorem markers_exact (filteredData : list Rec.t) :
  Names.own Rec.area filteredData ->
  Names.own Names.operatorText filteredData ->
  let markers := MapManager.markers filteredData in
  let areaOf m :=
    DataProcessor.mg_area (DataProcessor.group (MapManager.item m)) in
  NoDup (map areaOf markers)
  /\ (forall area,
        In area (map areaOf markers)
        <-> exists r l,
              Ranking.inArea area filteredData = r :: l
              /\ PrimFloat.is_nan (Rec.latitude r) = false
              /\ PrimFloat.is_nan (Rec.longitude r) = false)
  /\ forall m,
       In m markers ->
       exists r l,
         Ranking.inArea (areaOf m) filteredData = r :: l
         /\ MapManager.position m
            = (JS.parseFloatNumber (Rec.latitude r),
               JS.parseFloatNumber (Rec.longitude r))
         /\ DataProcessor.mi_avgScore (MapManager.item m)
            = JS.toFixed2
                (sumOf (fun r => JS.toNumber (Rec.confidence_score r))
                       (r :: l)
                 / JS.ofNat (List.length (r :: l)))
         /\ MapManager.bestOp m
            = match MapManager.bestOf
                      (MapManager.operatorBuckets (r :: l)) with
              | Some op => if op =? "" then "N/A" else op
              | None => "N/A"
              end
         /\ MapManager.opColor m <> None.
Proof.
  intros _ Hown. cbv zeta.
  destruct (mapData_spec filteredData) as (Hnd & Hareas & _ & Hitems).
  cbv zeta in Hnd, Hareas, Hitems.
  split; [now apply markers_NoDup|]. split.
  - intros area. rewrite in_map_iff. split.
    + intros (m & <- & Hm). apply marker_of in Hm.
      destruct Hm as (i & Hi & H1 & H2 & ->). simpl.
      destruct (Hitems i Hi) as (r & l & E & _ & _ & Hlat & Hlng & _).
      exists r, l. rewrite <- Hlat, <- Hlng.
      rewrite parseFloatNumber_nan in H1, H2. auto.
    + intros (r & l & E & H1 & H2).
      assert (Ha : In area
                     (map (fun i => DataProcessor.mg_area
                                      (DataProcessor.group i))
                          (DataProcessor.getMapData filteredData))).
      { apply Hareas. exists r.
        assert (Hr : In r (Ranking.inArea area filteredData))
          by (rewrite E; now left).
        apply filter_In in Hr. now rewrite String.eqb_eq in Hr. }
      apply in_map_iff in Ha. destruct Ha as (i & Hia & Hi).
      destruct (Hitems i Hi) as (r' & l' & E' & _ & _ & Hlat & Hlng & _).
      rewrite Hia, E in E'. injection E' as <- <-.
      eexists. split; [|apply marker_of; exists i; repeat split;
                        [assumption| |]].
      * exact Hia.
      * rewrite parseFloatNumber_nan. congruence.
      * rewrite parseFloatNumber_nan. congruence.
  - intros m Hm. apply marker_of in Hm.
    destruct Hm as (i & Hi & H1 & H2 & ->). simpl.
    destruct (Hitems i Hi) as (r & l & E & _ & _ & Hlat & Hlng & _ & Hs).
    exists r, l. rewrite Hlat, Hlng.
    assert (Hbest : MapManager.markerBestOperator filteredData
                      (DataProcessor.mg_area (DataProcessor.group i))
                    = match MapManager.bestOf
                              (MapManager.operatorBuckets (r :: l)) with
                      | Some op => if op =? "" then "N/A" else op
                      | None => "N/A"
                      end).
    { unfold MapManager.markerBestOperator.
      now rewrite (bestOperators_area _ _ _ _ E). }
    repeat split; try assumption.
    apply getOperatorColor_text. rewrite Hbest.
    destruct (MapManager.bestOf (MapManager.operatorBuckets (r :: l)))
      as [op|] eqn:Eop; [|reflexivity].
    destruct (op =? ""); [reflexivity|].
    destruct (bestOf_operator _ _ Eop) as (r0 & Hr0 & <-).
    unfold Names.own in Hown. rewrite Forall_forall in Hown.
    apply Hown.
    assert (Hin : In r0 (Ranking.inArea
                           (DataProcessor.mg_area (DataProcessor.group i))
                           filteredData))
      by now rewrite E.
    apply filter_In in Hin. tauto.
Qed.

(** In the sample selection no area and no operator has an inherited
    name; its markers stand for different areas. *)
Lemma markers_exact_witness :
  Names.own Rec.area Sample.selection
  /\ Names.own Names.operatorText Sample.selection
  /\ NoDup
       (map (fun m => DataProcessor.mg_area
                        (DataProcessor.group (MapManager.item m)))
            (MapManager.markers Sample.selection)).
Proof.
  assert (Ha : Names.own Rec.area Sample.selection)
    by (repeat constructor).
  assert (Ho : Names.own Names.operatorText Sample.selection)
    by (repeat constructor).
  split; [exact Ha|]. split; [exact Ho|].
  exact (proj1 (markers_exact Sample.selection Ha Ho)).
Defined.

(* ================================================================== *)
(** * The sign of a difference, in general *)
(* ================================================================== *)

Lemma SFcompare_opp (x y : spec_float) (c : comparison) :
  SFcompare x y = Some c -> SFcompare y x = Some (CompOpp c).
Proof.
  destruct x as [sx|sx| |sx mx ex], y as [sy|sy| |sy my ey]; simpl;
    try discriminate;
    try (destruct sx); try (destruct sy); intros [= <-]; try reflexivity.
  - rewrite (Z.compare_antisym ex ey).
    destruct (ex ?= ey)%Z; simpl; try reflexivity.
    change (Pos.compare_cont Eq mx my) with (Pos.compare mx my).
    change (Pos.compare_cont Eq my mx) with (Pos.compare my mx).
    rewrite (Pos.compare_antisym mx my). now destruct (mx ?= my)%positive.
  - rewrite (Z.compare_antisym ex ey).
    destruct (ex ?= ey)%Z; simpl; try reflexivity.
    change (Pos.compare_cont Eq mx my) with (Pos.compare mx my).
    change (Pos.compare_cont Eq my mx) with (Pos.compare my mx).
    rewrite (Pos.compare_antisym mx my). now destruct (mx ?= my)%positive.
Qed.

Lemma SFcompare_None (x y : spec_float) :
  SFcompare x y = None -> x = S754_nan \/ y = S754_nan.
Proof.
  destruct x as [sx|sx| |sx mx ex], y as [sy|sy| |sy my ey]; simpl;
    try discriminate; auto.
Qed.

(** The difference of two equal numbers is a zero, or not a number. *)
Lemma SFsub_Eq (x y : spec_float) :
  SFcompare x y = Some Eq ->
  match SF64sub x y with
  | S754_zero _ | S754_nan => True
  | _ => False
  end.
Proof.
  destruct x as [sx|sx| |sx mx ex], y as [sy|sy| |sy my ey]; simpl;
    try discriminate;
    try (destruct sx); try (destruct sy); try discriminate;
    try (intros _; exact I).
  - destruct (Z.compare_spec ex ey) as [->|H|H]; try discriminate.
    change (Pos.compare_cont Eq mx my) with (Pos.compare mx my).
    destruct (Pos.compare_spec mx my) as [->|H|H]; try discriminate.
    intros _. unfold SF64sub, SFsub. rewrite Z.min_id.
    now rewrite Z.sub_diag.
  - destruct (Z.compare_spec ex ey) as [->|H|H]; try discriminate.
    change (Pos.compare_cont Eq mx my) with (Pos.compare mx my).
    destruct (Pos.compare_spec mx my) as [->|H|H]; try discriminate.
    intros _. unfold SF64sub, SFsub. rewrite Z.min_id.
    now rewrite Z.sub_diag.
Qed.

Lemma mul_unit_zero (su : bool) (z : spec_float) :
  match z with S754_zero _ | S754_nan => True | _ => False end ->
  match SF64mul (S754_finite su 4503599627370496 (-52)) z with
  | S754_zero _ | S754_nan => True
  | _ => False
  end.
Proof.
  unfold SF64mul, SFmul.
  destruct z; intros H; try contradiction; exact I.
Qed.

Lemma not_positive (f : float) :
  match Prim2SF f with S754_zero _ | S754_nan => True | _ => False end ->
  (0 <? f)%float = false.
Proof.
  rewrite ltb_spec. change (Prim2SF 0) with (S754_zero false).
  unfold SFltb. destruct (Prim2SF f); simpl; tauto.
Qed.

(** For all numbers, [NaN] and the infinities included: a difference is
    above zero exactly when the first number is above the second, and the
    products of the difference by 1 and by -1 follow. *)
Lemma difference_sign (a b : float) :
  (0 <? a - b)%float = (b <? a)%float
  /\ (0 <? 1 * (a - b))%float = (b <? a)%float
  /\ (0 <? (-1) * (a - b))%float = (a <? b)%float.
Proof.
  destruct (SFcompare (Prim2SF a) (Prim2SF b)) as [[]|] eqn:E.
  - (* equal *)
    pose proof (SFcompare_opp _ _ _ E) as E'. simpl in E'.
    pose proof (SFsub_Eq _ _ E) as Hz. rewrite <- sub_spec in Hz.
    pose proof (mul_unit_zero false _ Hz) as H1.
    pose proof (mul_unit_zero true _ Hz) as H2.
    change (S754_finite false 4503599627370496 (-52)) with (Prim2SF 1) in H1.
    change (S754_finite true 4503599627370496 (-52)) with (Prim2SF (-1))
      in H2.
    rewrite <- mul_spec in H1, H2.
    rewrite !not_positive by assumption.
    rewrite !ltb_spec. unfold SFltb. now rewrite E, E'.
  - (* a < b *)
    assert (Hlt : (a <? b)%float = true)
      by (rewrite ltb_spec; unfold SFltb; now rewrite E).
    destruct (comparator_sign a b Hlt) as (H1 & _ & H3 & _).
    rewrite H1, H3, Hlt, (ltb_asym _ _ Hlt).
    destruct (SFsub_signed _ _ (Prim2SF_valid a) (Prim2SF_valid b) E)
      as [Hab _].
    rewrite <- sub_spec in Hab.
    now rewrite (proj2 (positive_test (a - b)) Hab).
  - (* b < a *)
    pose proof (SFcompare_opp _ _ _ E) as E'. simpl in E'.
    assert (Hlt : (b <? a)%float = true)
      by (rewrite ltb_spec; unfold SFltb; now rewrite E').
    destruct (comparator_sign b a Hlt) as (_ & H2 & _ & H4).
    rewrite H2, H4, Hlt, (ltb_asym _ _ Hlt).
    destruct (SFsub_signed _ _ (Prim2SF_valid b) (Prim2SF_valid a) E')
      as [_ Hab].
    rewrite <- sub_spec in Hab.
    now rewrite (proj1 (positive_test (a - b)) Hab).
  - (* not a number *)
    assert (Hn : Prim2SF (a - b) = S754_nan).
    { rewrite sub_spec. apply SFcompare_None in E.
      destruct E as [-> | ->]; [reflexivity|].
      now destruct (Prim2SF a). }
    assert (E' : SFcompare (Prim2SF b) (Prim2SF a) = None).
    { destruct (SFcompare (Prim2SF b) (Prim2SF a)) eqn:E2; [|reflexivity].
      apply SFcompare_opp in E2. congruence. }
    assert (Hz : match Prim2SF (a - b) with
                 | S754_zero _ | S754_nan => True
                 | _ => False
                 end) by now rewrite Hn.
    pose proof (mul_unit_zero false _ Hz) as H1.
    pose proof (mul_unit_zero true _ Hz) as H2.
    change (S754_finite false 4503599627370496 (-52)) with (Prim2SF 1) in H1.
    change (S754_finite true 4503599627370496 (-52)) with (Prim2SF (-1))
      in H2.
    rewrite <- mul_spec in H1, H2.
    rewrite !not_positive by assumption.
    rewrite !ltb_spec. unfold SFltb. now rewrite E, E'.
Qed.

(** ** Numbers that are not [NaN] are totally ordered *)

Lemma compare_number (a b : float) :
  PrimFloat.is_nan a = false -> PrimFloat.is_nan b = false ->
  exists c, SFcompare (Prim2SF a) (Prim2SF b) = Some c.
Proof.
  intros Ha Hb.
  destruct (SFcompare (Prim2SF a) (Prim2SF b)) eqn:E; [eauto|].
  apply SFcompare_None in E. destruct E as [E|E];
    apply is_nan_spec in E; congruence.
Qed.

Lemma not_ltb_leb (a b : float) :
  PrimFloat.is_nan a = false -> PrimFloat.is_nan b = false ->
  (a <? b)%float = false -> (b <=? a)%float = true.
Proof.
  intros Ha Hb. destruct (compare_number a b Ha Hb) as [c E].
  rewrite ltb_spec, leb_spec. unfold SFltb, SFleb.
  rewrite E, (SFcompare_opp _ _ _ E). now destruct c.
Qed.

Lemma eqb_number (a b : float) :
  (a =? b)%float = true ->
  PrimFloat.is_nan a = false /\ PrimFloat.is_nan b = false.
Proof.
  rewrite eqb_spec. unfold SFeqb. intros H.
  split.
  - destruct (PrimFloat.is_nan a) eqn:N; [|reflexivity].
    apply is_nan_spec in N. now rewrite N in H.
  - destruct (PrimFloat.is_nan b) eqn:N; [|reflexivity].
    apply is_nan_spec in N. rewrite N in H. now destruct (Prim2SF a).
Qed.

Lemma leb_cases (a b : float) :
  (a <=? b)%float = true ->
  (a <? b)%float = true \/ (a =? b)%float = true.
Proof.
  rewrite leb_spec, ltb_spec, eqb_spec. unfold SFleb, SFltb, SFeqb.
  destruct (SFcompare (Prim2SF a) (Prim2SF b)) as [[]|]; auto.
Qed.

Lemma leb_trans (a b c : float) :
  (a <=? b)%float = true -> (b <=? c)%float = true -> (a <=? c)%float = true.
Proof.
  intros Hab Hbc. destruct (leb_cases _ _ Hab) as [Hlt|Heq].
  - apply ltb_leb. now apply ltb_leb_trans with b.
  - destruct (leb_cases _ _ Hbc) as [Hlt|Heq'].
    + apply ltb_leb. now rewrite <- (eqb_ltb_l a b c Heq).
    + destruct (eqb_number _ _ Heq) as [Na _].
      destruct (eqb_number _ _ Heq') as [_ Nc].
      apply not_ltb_leb; try assumption.
      rewrite <- (eqb_ltb_r a b c Heq), (eqb_ltb_l b c b Heq').
      apply ltb_irrefl.
Qed.

(* ================================================================== *)
(** * The order of the table *)
(* ================================================================== *)

Lemma insertBy_bestFirst (x : DataProcessor.AreaSummary)
    (l : list DataProcessor.AreaSummary) :
  PrimFloat.is_nan (TableManager.score x) = false ->
  Tabled.numericScores l -> Tabled.bestFirst l ->
  Tabled.bestFirst
    (JS.insertBy
       (fun a b =>
          (JS.parseFloat (DataProcessor.avgScore b)
           - JS.parseFloat (DataProcessor.avgScore a))%float)
       x l).
Proof.
  intros Nx Nl Hs. induction Hs as [|y l Hs IH Hy]; simpl.
  - constructor; constructor.
  - inversion_clear Nl as [|? ? Ny Nl'].
    fold (TableManager.score x). fold (TableManager.score y).
    rewrite (proj1 (difference_sign _ _)).
    destruct (TableManager.score x <? TableManager.score y)%float eqn:E.
    + constructor; [now apply IH|].
      apply Forall_forall. intros z Hz.
      apply (Permutation_in _ (insertBy_Permutation _ x l)) in Hz.
      destruct Hz as [<-|Hz]; [now apply ltb_leb|].
      rewrite Forall_forall in Hy. now apply Hy.
    + assert (Hyx : (TableManager.score y <=? TableManager.score x)%float
                    = true) by now apply not_ltb_leb.
      constructor; [now constructor|].
      constructor; [assumption|].
      rewrite Forall_forall in *. intros z Hz.
      apply leb_trans with (TableManager.score y); auto.
Qed.

Lemma sort_bestFirst (l : list DataProcessor.AreaSummary) :
  Tabled.numericScores l ->
  Tabled.bestFirst
    (JS.sort
       (fun a b =>
          (JS.parseFloat (DataProcessor.avgScore b)
           - JS.parseFloat (DataProcessor.avgScore a))%float)
       l).
Proof.
  induction l as [|x l IH]; intros Nl; simpl; [constructor|].
  inversion_clear Nl as [|? ? Nx Nl'].
  apply insertBy_bestFirst; auto.
  apply Forall_forall. intros z Hz.
  apply (Permutation_in _ (sort_Permutation _ l)) in Hz.
  unfold Tabled.numericScores in Nl'. rewrite Forall_forall in Nl'. auto.
Qed.

(** Rows that are best first are left in place by the descending sort of
    the score column. *)
Lemma sort_in_place (l : list DataProcessor.AreaSummary) :
  Tabled.bestFirst l ->
  JS.sort
    (fun a b =>
       ((-1) * (TableManager.score a - TableManager.score b))%float)
    l = l.
Proof.
  induction 1 as [|x l Hs IH Hx]; simpl; [reflexivity|].
  fold (JS.sort
          (fun a b =>
             ((-1) * (TableManager.score a - TableManager.score b))%float)
          l).
  rewrite IH. destruct l as [|y l]; [reflexivity|]. simpl.
  rewrite (proj2 (proj2 (difference_sign _ _))).
  inversion_clear Hx as [|? ? Hy _].
  destruct (TableManager.score x <? TableManager.score y)%float eqn:E;
    [|reflexivity].
  now rewrite (ltb_not_leb _ _ E) in Hy.
Qed.

Lemma applySorting_score (direction : string)
    (rows : list DataProcessor.AreaSummary) :
  TableManager.applySorting (TableManager.mk "score" direction rows)
  = Some (TableManager.mk "score" direction
            (JS.sort
               (fun a b =>
                  (TableManager.multiplier direction
                   * (TableManager.score a - TableManager.score b))%float)
               rows)).
Proof.
  unfold TableManager.applySorting. simpl.
  change (TableManager.comparator "score"
            (TableManager.multiplier direction))
    with (fun a b : DataProcessor.AreaSummary =>
            Some (TableManager.multiplier direction
                  * (TableManager.score a - TableManager.score b))%float).
  now rewrite sortM_total.
Qed.

(** X21: the table as it is first shown.  When every row of
    [getAreaWiseData] has a score that is a number, the rows come best
    first -- no row scores higher than a row listed before it -- and
    [updateTable], which sorts them once more by the initial sort state
    (score, descending), shows them in exactly this order. *)
Theorem table_initial_order (filteredData : list Rec.t) :
  Tabled.numericScores (DataProcessor.getAreaWiseData filteredData) ->
  Tabled.bestFirst (DataProcessor.getAreaWiseData filteredData)
  /\ TableManager.updateTable filteredData TableManager.initial
     = Some (TableManager.mk "score" "desc"
               (DataProcessor.getAreaWiseData filteredData)).
Proof.
  intros Hn.
  assert (Hb : Tabled.bestFirst (DataProcessor.getAreaWiseData filteredData)).
  { unfold DataProcessor.getAreaWiseData in *. apply sort_bestFirst.
    unfold Tabled.numericScores in *. rewrite Forall_forall in *.
    intros z Hz. apply Hn.
    now apply (Permutation_in _ (Permutation_sym (sort_Permutation _ _))). }
  split; [exact Hb|].
  unfold TableManager.updateTable, TableManager.initial.
  cbn [TableManager.column TableManager.direction].
  rewrite applySorting_score. do 2 f_equal.
  change (TableManager.multiplier "desc") with (-1)%float.
  now apply sort_in_place.
Qed.

Lemma table_initial_order_witness :
  Tabled.numericScores (DataProcessor.getAreaWiseData Sample.selection)
  /\ TableManager.updateTable Sample.selection TableManager.initial
     = Some (TableManager.mk "score" "desc"
               (DataProcessor.getAreaWiseData Sample.selection)).
Proof.
  assert (H : Tabled.numericScores
                (DataProcessor.getAreaWiseData Sample.selection)).
  { apply Forall_forall. intros row Hin.
    assert (Hb : forallb
                   (fun row => negb (PrimFloat.is_nan (TableManager.score row)))
                   (DataProcessor.getAreaWiseData Sample.selection) = true)
      by (vm_compute; reflexivity).
    rewrite forallb_forall in Hb. apply Hb in Hin.
    now destruct (PrimFloat.is_nan _). }
  split; [exact H|].
  exact (proj2 (table_initial_order Sample.selection H)).
Defined.

(* ================================================================== *)
(** * Sorting by a header *)
(* ================================================================== *)

Lemma insertByM_Permutation {A} (cmp : A -> A -> option float) (x : A)
    (l l' : list A) :
  JS.insertByM cmp x l = Some l' -> Permutation (x :: l) l'.
Proof.
  revert l'. induction l as [|y l IH]; intros l'; simpl.
  - now intros [= <-].
  - destruct (cmp x y) as [c|]; [|discriminate].
    destruct (0 <? c)%float.
    + destruct (JS.insertByM cmp x l) as [l0|]; [|discriminate].
      intros [= <-]. rewrite perm_swap. constructor. now apply IH.
    + now intros [= <-].
Qed.

Lemma sortM_Permutation {A} (cmp : A -> A -> option float) (l l' : list A) :
  JS.sortM cmp l = Some l' -> Permutation l l'.
Proof.
  revert l'. induction l as [|x l IH]; intros l'; simpl.
  - now intros [= <-].
  - destruct (JS.sortM cmp l) as [sorted|]; [|discriminate].
    intros H. apply insertByM_Permutation in H.
    rewrite <- H. constructor. now apply IH.
Qed.

Lemma insertByM_None {A} (cmp : A -> A -> option float) (x : A)
    (l : list A) :
  JS.insertByM cmp x l = None -> exists y, In y l /\ cmp x y = None.
Proof.
  induction l as [|y l IH]; simpl; [discriminate|].
  destruct (cmp x y) as [c|] eqn:E; [|intros _; eauto].
  destruct (0 <? c)%float; [|discriminate].
  destruct (JS.insertByM cmp x l); [discriminate|].
  intros _. destruct (IH eq_refl) as (z & Hz & Hc). eauto.
Qed.

Lemma sortM_None {A} (cmp : A -> A -> option float) (l : list A) :
  JS.sortM cmp l = None ->
  exists x y, In x l /\ In y l /\ cmp x y = None.
Proof.
  induction l as [|x l IH]; simpl; [discriminate|].
  destruct (JS.sortM cmp l) as [sorted|] eqn:E.
  - intros H. apply insertByM_None in H. destruct H as (y & Hy & Hc).
    exists x, y. repeat split; auto. right.
    apply sortM_Permutation in E.
    now apply (Permutation_in _ (Permutation_sym E)).
  - intros _. destruct (IH eq_refl) as (a & b & Ha & Hb & Hc).
    exists a, b. auto.
Qed.

Lemma comparator_None (column : string) (multiplier : float)
    (a b : DataProcessor.AreaSummary) :
  TableManager.comparator column multiplier a b = None ->
  column = "operator"
  /\ (DataProcessor.as_operator a = None
      \/ DataProcessor.as_operator b = None).
Proof.
  unfold TableManager.comparator.
  destruct (column =? "area"); [discriminate|].
  destruct (String.eqb_spec column "operator") as [->|_].
  - destruct (DataProcessor.as_operator a), (DataProcessor.as_operator b);
      try discriminate; auto.
  - destruct (column =? "download"); [discriminate|].
    destruct (column =? "upload"); [discriminate|].
    destruct (column =? "score"); discriminate.
Qed.

Lemma sort_constant {A} (l : list A) : JS.sort (fun _ _ => 0%float) l = l.
Proof.
  induction l as [|x l IH]; simpl; [reflexivity|].
  fold (JS.sort (fun _ _ : A => 0%float) l). rewrite IH.
  now destruct l.
Qed.

(** X22: a click on a table header.  [sortTable] makes the clicked column
    the sort column; the direction becomes "desc" for a new column and is
    toggled for the current one.  The rows are rearranged and never lost
    or repeated; for a column [applySorting] does not know they stay as
    they are.  The only failure is the exception raised in the operator
    column when some row has no operator. *)
Theorem sortTable_click (col : string) (tm : TableManager.t) :
  let direction' :=
    if TableManager.column tm =? col
    then (if TableManager.direction tm =? "asc" then "desc" else "asc")
    else "desc" in
  (forall tm',
     TableManager.sortTable col tm = Some tm' ->
     TableManager.column tm' = col
     /\ TableManager.direction tm' = direction'
     /\ Permutation (TableManager.tableData tm)
                    (TableManager.tableData tm'))
  /\ (TableManager.sortTable col tm = None ->
      col = "operator"
      /\ exists row, In row (TableManager.tableData tm)
                     /\ DataProcessor.as_operator row = None)
  /\ (Tabled.sortable col = false ->
      TableManager.sortTable col tm
      = Some (TableManager.mk col direction' (TableManager.tableData tm))).
Proof.
  cbv zeta. unfold TableManager.sortTable, TableManager.applySorting.
  set (d := if TableManager.column tm =? col
            then (if TableManager.direction tm =? "asc" then "desc"
                  else "asc")
            else "desc").
  assert (Hst : (if TableManager.column tm =? col
                 then TableManager.mk (TableManager.column tm)
                        (if TableManager.direction tm =? "asc"
                         then "desc" else "asc")
                        (TableManager.tableData tm)
                 else TableManager.mk col "desc" (TableManager.tableData tm))
                = TableManager.mk col d (TableManager.tableData tm)).
  { subst d. destruct (String.eqb_spec (TableManager.column tm) col)
      as [->|_]; reflexivity. }
  rewrite Hst. cbn [TableManager.column TableManager.direction
                    TableManager.tableData].
  split; [|split].
  - intros tm' H.
    destruct (JS.sortM _ (TableManager.tableData tm)) as [rows|] eqn:E;
      [|discriminate].
    injection H as <-. simpl. repeat split.
    now apply sortM_Permutation in E.
  - intros H.
    destruct (JS.sortM _ (TableManager.tableData tm)) as [rows|] eqn:E;
      [discriminate|].
    apply sortM_None in E. destruct E as (a & b & Ha & Hb & Hc).
    apply comparator_None in Hc. destruct Hc as [-> [Hc|Hc]]; eauto.
  - unfold Tabled.sortable. rewrite !orb_false_iff.
    intros ((((H1 & H2) & H3) & H4) & H5).
    change (TableManager.comparator col (TableManager.multiplier d))
      with (fun a b : DataProcessor.AreaSummary =>
              TableManager.comparator col (TableManager.multiplier d) a b).
    unfold TableManager.comparator. rewrite H1, H2, H3, H4, H5.
    rewrite (sortM_total (fun _ _ => 0%float)). simpl.
    now rewrite sort_constant.
Qed.

(* ================================================================== *)
(** * The totals row *)
(* ================================================================== *)

Lemma add_nan (x y : float) :
  PrimFloat.is_nan x = true \/ PrimFloat.is_nan y = true ->
  PrimFloat.is_nan (x + y) = true.
Proof.
  rewrite !is_nan_spec, add_spec. unfold SF64add, SFadd.
  intros [-> | ->]; [reflexivity|]. now destruct (Prim2SF x).
Qed.

Lemma div_nan (x y : float) :
  PrimFloat.is_nan x = true -> PrimFloat.is_nan (x / y) = true.
Proof.
  rewrite !is_nan_spec, div_spec. unfold SF64div, SFdiv.
  now intros ->.
Qed.

Lemma toFixed2_nan (x : float) :
  PrimFloat.is_nan x = true -> JS.toFixed2 x = "NaN".
Proof. rewrite is_nan_spec. unfold JS.toFixed2. now intros ->. Qed.

Lemma sum_nan {A} (f : A -> float) (l : list A) (s : float) :
  PrimFloat.is_nan s = true \/ (exists a, In a l /\ PrimFloat.is_nan (f a) = true) ->
  PrimFloat.is_nan (fold_left (fun sum r => (sum + f r)%float) l s) = true.
Proof.
  revert s. induction l as [|a l IH]; intros s; simpl.
  - intros [H|(a & [] & _)]. exact H.
  - intros [H|(b & [<-|Hb] & Hn)]; apply IH.
    + left. apply add_nan. now left.
    + left. apply add_nan. now right.
    + right. eauto.
Qed.

(** X23: the totals row.  For an empty table [calculateTotals] returns the
    three texts "0.00".  Otherwise one row whose average is not a number
    -- the text "NaN" that [getAreaWiseData] prints for a group with a
    missing measure -- is enough to make the total of that column the
    text "NaN", however many rows the table has. *)
Theorem totals_not_a_number (tableData : list DataProcessor.AreaSummary) :
  TableManager.calculateTotals []
  = TableManager.mkTotals "0.00" "0.00" "0.00"
  /\ ((exists row, In row tableData
                   /\ PrimFloat.is_nan
                        (JS.parseFloat (DataProcessor.avgDownload row))
                      = true) ->
      TableManager.tot_avgDownload
        (TableManager.calculateTotals tableData) = "NaN")
  /\ ((exists row, In row tableData
                   /\ PrimFloat.is_nan
                        (JS.parseFloat (DataProcessor.avgUpload row))
                      = true) ->
      TableManager.tot_avgUpload
        (TableManager.calculateTotals tableData) = "NaN")
  /\ ((exists row, In row tableData
                   /\ PrimFloat.is_nan
                        (JS.parseFloat (DataProcessor.avgScore row))
                      = true) ->
      TableManager.tot_avgScore
        (TableManager.calculateTotals tableData) = "NaN")
  /\ JS.parseFloat "NaN" = PrimFloat.nan.
Proof.
  split; [reflexivity|].
  assert (H : forall f : DataProcessor.AreaSummary -> float,
             (exists row, In row tableData
                          /\ PrimFloat.is_nan (f row) = true) ->
             JS.toFixed2 (sumOf f tableData
                          / JS.ofNat (List.length tableData)) = "NaN").
  { intros f Hex. apply toFixed2_nan, div_nan. unfold sumOf.
    apply sum_nan. now right. }
  repeat split; try reflexivity;
    intros Hex; pose proof Hex as (row & Hin & _);
    (destruct tableData as [|r l]; [destruct Hin|]);
    simpl; now apply H.
Qed.

(* ================================================================== *)
(** * Signing up, logging in, logging out *)
(* ================================================================== *)

Lemma get_remove_same {V} (k : string) (o : JS.obj V) :
  JS.get k (JS.remove k o) = None.
Proof.
  unfold JS.remove. induction o as [|[k' v] o IH]; simpl; [reflexivity|].
  destruct (String.eqb_spec k' k) as [->|Hne]; simpl; [assumption|].
  apply not_eq_sym, String.eqb_neq in Hne. now rewrite Hne.
Qed.

Lemma get_remove_other {V} (k k' : string) (o : JS.obj V) :
  k <> k' -> JS.get k' (JS.remove k o) = JS.get k' o.
Proof.
  intros Hne. unfold JS.remove.
  induction o as [|[k0 v] o IH]; simpl; [reflexivity|].
  destruct (String.eqb_spec k0 k) as [->|Hne0]; simpl.
  - apply not_eq_sym, String.eqb_neq in Hne. now rewrite Hne.
  - now rewrite IH.
Qed.

Lemma validatePassword_nonempty (password : string) :
  Auth.validatePassword password = true -> password <> "".
Proof. now intros H ->. Qed.

(** X24: signing up and logging in.  A sign-up with a name, an e-mail
    address and a password that meets the policy stores the registration
    and sends the browser to the login page; logging in with the same
    address and password then succeeds whatever else the storage held: the
    session is marked logged in with the role "user", the registered name
    and address, and the browser is sent to the user dashboard. *)
Theorem signup_then_login (name email password : string)
    (ls : Auth.Storage) :
  name <> "" -> email <> "" ->
  Auth.validatePassword password = true ->
  let registered := Auth.signup name email password ls in
  let session := Auth.login email password (fst registered) in
  snd registered
  = [Auth.Alert "Registration successful! Please login.";
     Auth.Redirect "login.html"]
  /\ snd session = [Auth.Redirect "dashboards/user-dashboard.html"]
  /\ JS.get "userLoggedIn" (fst session) = Some "true"
  /\ JS.get "userRole" (fst session) = Some "user"
  /\ JS.get "userName" (fst session) = Some name
  /\ JS.get "userEmail" (fst session) = Some email
  /\ Auth.isLoggedIn (fst session) = true.
Proof.
  intros Hn He Hv. cbv zeta.
  pose proof (validatePassword_nonempty _ Hv) as Hp.
  assert (Hadmin : (password =? "admin123") = false).
  { apply String.eqb_neq. intros ->. discriminate Hv. }
  unfold Auth.signup.
  apply String.eqb_neq in Hn, He, Hp. rewrite Hn, He, Hp, Hv. simpl.
  unfold Auth.login. rewrite Hadmin, andb_false_r, Hv. simpl.
  unfold Auth.stored.
  rewrite get_set_same.
  rewrite (get_set_other "registeredPassword" "registeredEmail")
    by discriminate.
  rewrite get_set_same, !String.eqb_refl. simpl.
  rewrite (get_set_other "registeredPassword" "registeredName")
    by discriminate.
  rewrite (get_set_other "registeredEmail" "registeredName")
    by discriminate.
  rewrite get_set_same. simpl.
  unfold Auth.isLoggedIn, Auth.flag.
  rewrite !get_set_same.
  rewrite !(get_set_other "userEmail" "userName") by discriminate.
  rewrite !(get_set_other "userEmail" "userRole") by discriminate.
  rewrite !(get_set_other "userEmail" "userLoggedIn") by discriminate.
  rewrite !get_set_same.
  rewrite !(get_set_other "userName" "userRole") by discriminate.
  rewrite !(get_set_other "userName" "userLoggedIn") by discriminate.
  rewrite !get_set_same.
  rewrite !(get_set_other "userRole" "userLoggedIn") by discriminate.
  rewrite !get_set_same. repeat split.
Qed.

Lemma signup_then_login_witness :
  "Asha" <> "" /\ "asha@example.com" <> ""
  /\ Auth.validatePassword "Secret#1" = true
  /\ JS.get "userName"
       (fst (Auth.login "asha@example.com" "Secret#1"
               (fst (Auth.signup "Asha" "asha@example.com" "Secret#1" []))))
     = Some "Asha".
Proof.
  assert (H1 : "Asha" <> "") by discriminate.
  assert (H2 : "asha@example.com" <> "") by discriminate.
  assert (H3 : Auth.validatePassword "Secret#1" = true) by reflexivity.
  repeat (split; [assumption|]).
  exact (proj1 (proj2 (proj2 (proj2 (proj2
           (signup_then_login "Asha" "asha@example.com" "Secret#1" []
              H1 H2 H3)))))).
Defined.

(** X25: who gets in.  A login leaves the storage untouched and shows an
    alert unless it is the built-in administrator pair, or the password
    meets the policy and address and password are the registered ones.
    The administrator password itself does not meet the policy: it is
    accepted because that branch is taken before the policy is checked.
    A user login never sets the administrator flag, and never clears it
    either. *)
Theorem login_outcomes (email password : string) (ls : Auth.Storage) :
  let session := Auth.login email password ls in
  let admin := (email =? "admin@gmail.com") && (password =? "admin123") in
  let registered :=
    Auth.validatePassword password
    && Auth.stored "registeredEmail" email ls
    && Auth.stored "registeredPassword" password ls in
  Auth.validatePassword "admin123" = false
  /\ (admin = true ->
      snd session = [Auth.Redirect "dashboards/admin-dashboard.html"]
      /\ JS.get "adminLoggedIn" (fst session) = Some "true"
      /\ JS.get "userRole" (fst session) = Some "admin")
  /\ (admin = false -> registered = true ->
      snd session = [Auth.Redirect "dashboards/user-dashboard.html"]
      /\ JS.get "userLoggedIn" (fst session) = Some "true"
      /\ JS.get "userRole" (fst session) = Some "user"
      /\ JS.get "adminLoggedIn" (fst session) = JS.get "adminLoggedIn" ls)
  /\ (admin = false -> registered = false ->
      fst session = ls
      /\ exists message, snd session = [Auth.Alert message]).
Proof.
  cbv zeta. unfold Auth.login. split; [reflexivity|].
  destruct ((email =? "admin@gmail.com") && (password =? "admin123")).
  - split; [|split; discriminate]. intros _. simpl.
    rewrite (get_set_other "userEmail" "adminLoggedIn") by discriminate.
    rewrite (get_set_other "userName" "adminLoggedIn") by discriminate.
    rewrite (get_set_other "userRole" "adminLoggedIn") by discriminate.
    rewrite get_set_same.
    rewrite (get_set_other "userEmail" "userRole") by discriminate.
    rewrite (get_set_other "userName" "userRole") by discriminate.
    rewrite get_set_same. repeat split.
  - split; [discriminate|].
    destruct (Auth.validatePassword password); simpl.
    + destruct (Auth.stored "registeredEmail" email ls
                && Auth.stored "registeredPassword" password ls).
      * split; [|intros _; discriminate]. intros _ _. simpl.
        rewrite (get_set_other "userEmail" "userLoggedIn") by discriminate.
        rewrite (get_set_other "userName" "userLoggedIn") by discriminate.
        rewrite (get_set_other "userRole" "userLoggedIn") by discriminate.
        rewrite get_set_same.
        rewrite (get_set_other "userEmail" "userRole") by discriminate.
        rewrite (get_set_other "userName" "userRole") by discriminate.
        rewrite get_set_same.
        rewrite (get_set_other "userEmail" "adminLoggedIn") by discriminate.
        rewrite (get_set_other "userName" "adminLoggedIn") by discriminate.
        rewrite (get_set_other "userRole" "adminLoggedIn") by discriminate.
        rewrite (get_set_other "userLoggedIn" "adminLoggedIn")
          by discriminate.
        repeat split.
      * split; [intros _; discriminate|]. intros _ _. simpl. eauto.
    + split; [intros _; discriminate|]. intros _ _. simpl. eauto.
Qed.

(** X26: logging out.  After [auth.logout] nobody is logged in and the
    guard sends a dashboard page to the login page, whatever the storage
    held; the registration survives.  The [logout] of the user dashboard
    removes the user flag only: a storage that also holds the
    administrator flag still counts as logged in afterwards. *)
Theorem logout_clears (pathname : string) (ls : Auth.Storage) :
  let after := fst (Auth.logout pathname ls) in
  Auth.isLoggedIn after = false
  /\ Auth.guard "/dashboards/user-dashboard.html" after
     = Some "../login.html"
  /\ JS.get "registeredEmail" after = JS.get "registeredEmail" ls
  /\ JS.get "registeredPassword" after = JS.get "registeredPassword" ls
  /\ Auth.isLoggedIn (fst (Auth.dashboardLogout ls))
     = Auth.flag "adminLoggedIn" ls.
Proof.
  cbv zeta.
  assert (H : Auth.isLoggedIn (fst (Auth.logout pathname ls)) = false).
  { unfold Auth.isLoggedIn, Auth.flag, Auth.logout. simpl.
    rewrite (get_remove_other "userEmail" "userLoggedIn") by discriminate.
    rewrite (get_remove_other "userName" "userLoggedIn") by discriminate.
    rewrite (get_remove_other "userRole" "userLoggedIn") by discriminate.
    rewrite (get_remove_other "adminLoggedIn" "userLoggedIn")
      by discriminate.
    rewrite get_remove_same.
    rewrite (get_remove_other "userEmail" "adminLoggedIn") by discriminate.
    rewrite (get_remove_other "userName" "adminLoggedIn") by discriminate.
    rewrite (get_remove_other "userRole" "adminLoggedIn") by discriminate.
    now rewrite get_remove_same. }
  split; [exact H|]. split; [|split; [|split]].
  - unfold Auth.guard. rewrite H. reflexivity.
  - unfold Auth.logout. simpl.
    now rewrite !get_remove_other by discriminate.
  - unfold Auth.logout. simpl.
    now rewrite !get_remove_other by discriminate.
  - unfold Auth.isLoggedIn, Auth.flag, Auth.dashboardLogout. simpl.
    rewrite get_remove_same.
    now rewrite (get_remove_other "userLoggedIn" "adminLoggedIn")
      by discriminate.
Qed.

(** X27: the guards of a page.  The two guards never work against each
    other.  Somebody logged in is sent away from the login and sign-up
    pages only -- to the administrator's dashboard if the administrator
    flag is set, else to the user dashboard -- and nobody else is sent
    anywhere but from a dashboard page to the login page.  The role is
    never looked at: whoever is logged in, a plain user too, stays on the
    administrator's dashboard. *)
Theorem guard_outcomes (pathname : string) (ls : Auth.Storage) :
  Auth.guard pathname ls
  = (if Auth.isLoggedIn ls
     then
       if JS.includes "login.html" pathname
          || JS.includes "signup.html" pathname
       then Some (if Auth.flag "adminLoggedIn" ls
                  then "dashboards/admin-dashboard.html"
                  else "dashboards/user-dashboard.html")
       else None
     else
       if JS.includes "dashboard.html" pathname
       then Some ((if JS.includes "/dashboards/" pathname then "../"
                   else "") ++ "login.html")
       else None)
  /\ (Auth.isLoggedIn ls = true ->
      Auth.guard "/dashboards/admin-dashboard.html" ls = None)
  /\ (Auth.isLoggedIn ls = false ->
      Auth.guard "/dashboards/admin-dashboard.html" ls
      = Some "../login.html").
Proof.
  unfold Auth.guard. split; [|split].
  - destruct (Auth.isLoggedIn ls),
             (JS.includes "login.html" pathname
              || JS.includes "signup.html" pathname),
             (JS.includes "dashboard.html" pathname); reflexivity.
  - now intros ->.
  - now intros ->.
Qed.

(* ================================================================== *)
(** * The dropdowns of the user dashboard *)
(* ================================================================== *)

Lemma updateFilter_rawData (filterName value : string)
    (dp : DataProcessor.t) :
  DataProcessor.rawData (DataProcessor.updateFilter filterName value dp)
  = DataProcessor.rawData dp.
Proof. reflexivity. Qed.

Lemma handle_rawData (c : DashboardController.t) (p : Session.Pick) :
  DataProcessor.rawData (DashboardController.processor (Session.handle c p))
  = DataProcessor.rawData (DashboardController.processor c).
Proof. destruct p; reflexivity. Qed.

Lemma run_rawData (picks : list Session.Pick) (c : DashboardController.t) :
  DataProcessor.rawData (DashboardController.processor (Session.run picks c))
  = DataProcessor.rawData (DashboardController.processor c).
Proof.
  unfold Session.run. revert c.
  induction picks as [|p picks IH]; intros c; simpl; [reflexivity|].
  now rewrite IH, handle_rawData.
Qed.

Lemma populate_All (element : DashboardController.Select)
    (values : list string) :
  DashboardController.value element = "All" ->
  DashboardController.populateDropdown element values
  = DashboardController.mkSelect "All" values.
Proof.
  unfold DashboardController.populateDropdown. intros ->.
  now destruct (existsb _ values).
Qed.

Lemma filter_keeps_all (l : list Rec.t) :
  filter (DataProcessor.keeps DataProcessor.initialFilters) l = l.
Proof. induction l as [|r l IH]; simpl; [reflexivity|]. now rewrite IH. Qed.

(** X28: [resetFilters] undoes everything.  After any sequence of picks
    in the four dropdowns, a reset leaves the processor as it was when the
    data had just been loaded -- all filters "All", every record selected
    -- with the four dropdowns showing "All", every city offered in the
    city dropdown and every area in the area dropdown. *)
Theorem resetFilters_restores (picks : list Session.Pick)
    (c : DashboardController.t) :
  let c' := DashboardController.resetFilters (Session.run picks c) in
  let dp := DashboardController.processor c in
  DashboardController.processor c'
  = DataProcessor.loaded (DataProcessor.rawData dp)
  /\ DashboardController.value (DashboardController.stateSelect c') = "All"
  /\ DashboardController.value (DashboardController.networkSelect c') = "All"
  /\ DashboardController.citySelect c'
     = DashboardController.mkSelect "All"
         (DataProcessor.getUniqueValues Rec.city dp)
  /\ DashboardController.areaSelect c'
     = DashboardController.mkSelect "All"
         (DataProcessor.getUniqueValues Rec.area dp).
Proof.
  cbv zeta. pose proof (run_rawData picks c) as Hraw.
  set (c1 := Session.run picks c) in *. clearbody c1.
  unfold DashboardController.resetFilters,
    DashboardController.populateAreaFilter,
    DashboardController.populateCityFilter.
  cbn [DashboardController.processor DashboardController.stateSelect
       DashboardController.citySelect DashboardController.areaSelect
       DashboardController.networkSelect DataProcessor.filters
       DataProcessor.state DataProcessor.city].
  rewrite !populate_All by reflexivity.
  unfold DataProcessor.applyFilters, DataProcessor.loaded.
  cbn [DataProcessor.rawData DataProcessor.filters DashboardController.value
       DashboardController.pick].
  fold DataProcessor.initialFilters. rewrite filter_keeps_all, Hraw.
  unfold DataProcessor.getCitiesForState, DataProcessor.getAreasForCity,
    DataProcessor.getUniqueValues.
  cbn [DataProcessor.rawData]. simpl. repeat split.
Qed.

Lemma handle_state_network (c : DashboardController.t) (p : Session.Pick) :
  DashboardController.value (DashboardController.stateSelect c)
  = DataProcessor.state (DataProcessor.filters (DashboardController.processor c)) ->
  DashboardController.value (DashboardController.networkSelect c)
  = DataProcessor.network
      (DataProcessor.filters (DashboardController.processor c)) ->
  let c' := Session.handle c p in
  DashboardController.value (DashboardController.stateSelect c')
  = DataProcessor.state
      (DataProcessor.filters (DashboardController.processor c'))
  /\ DashboardController.value (DashboardController.networkSelect c')
     = DataProcessor.network
         (DataProcessor.filters (DashboardController.processor c')).
Proof.
  intros Hs Hn. destruct p; simpl; split; assumption || reflexivity.
Qed.

(** X29: what the dropdowns show and what the data are filtered by.
    Through any sequence of picks the state and the network dropdown show
    the state and the network the data are filtered by, if they did so at
    the start.  The city and the area dropdown need not: a state change
    resets the city and the area filter to "All", but it keeps the city
    shown whenever that city is also offered for the new state, and it
    does not touch the area dropdown at all. *)
Theorem dropdowns_and_filters (picks : list Session.Pick)
    (c : DashboardController.t) :
  DashboardController.value (DashboardController.stateSelect c)
  = DataProcessor.state
      (DataProcessor.filters (DashboardController.processor c)) ->
  DashboardController.value (DashboardController.networkSelect c)
  = DataProcessor.network
      (DataProcessor.filters (DashboardController.processor c)) ->
  let c' := Session.run picks c in
  (DashboardController.value (DashboardController.stateSelect c')
   = DataProcessor.state
       (DataProcessor.filters (DashboardController.processor c'))
   /\ DashboardController.value (DashboardController.networkSelect c')
      = DataProcessor.network
          (DataProcessor.filters (DashboardController.processor c')))
  /\ forall v,
       let c'' := DashboardController.onStateChange v c' in
       let filters'' :=
         DataProcessor.filters (DashboardController.processor c'') in
       DataProcessor.city filters'' = "All"
       /\ DataProcessor.area filters'' = "All"
       /\ DashboardController.areaSelect c''
          = DashboardController.areaSelect c'
       /\ (In (DashboardController.value (DashboardController.citySelect c'))
              (DataProcessor.getCitiesForState v
                 (DashboardController.processor c'')) ->
           DashboardController.value (DashboardController.citySelect c'')
           = DashboardController.value (DashboardController.citySelect c')).
Proof.
  cbv zeta. intros Hs Hn. split.
  - unfold Session.run. revert c Hs Hn.
    induction picks as [|p picks IH]; intros c Hs Hn; simpl;
      [now split|].
    destruct (handle_state_network c p Hs Hn) as [Hs' Hn'].
    now apply IH.
  - intros v. repeat split.
    intros Hin. unfold DashboardController.onStateChange,
      DashboardController.populateCityFilter,
      DashboardController.populateDropdown in *.
    cbn [DashboardController.citySelect DashboardController.value
         DashboardController.processor] in *.
    cbn [DataProcessor.filters DataProcessor.state
         DataProcessor.updateFilter] in *.
    match goal with
    | |- (if existsb ?f ?l then _ else _) = _ =>
        assert (Hex : existsb f l = true); [|now rewrite Hex]
    end.
    apply existsb_exists. eexists. split; [exact Hin|].
    apply String.eqb_refl.
Qed.

(** In the sample, after the picks "Karnataka", "Bengaluru", "Whitefield"
    a second pick of "Karnataka" leaves the dropdowns showing "Bengaluru"
    and "Whitefield" while the data are filtered by the state alone. *)
Lemma dropdowns_and_filters_witness :
  let blank := DashboardController.mkSelect "All" [] in
  let c :=
    DashboardController.initializeFilters
      (DashboardController.mk (DataProcessor.loaded Sample.selection)
                              blank blank blank blank) in
  let c' :=
    Session.run [Session.State "Karnataka"; Session.City "Bengaluru";
                 Session.Area "Whitefield"] c in
  let c'' := DashboardController.onStateChange "Karnataka" c' in
  (DashboardController.value (DashboardController.stateSelect c)
   = DataProcessor.state
       (DataProcessor.filters (DashboardController.processor c))
   /\ DashboardController.value (DashboardController.networkSelect c)
      = DataProcessor.network
          (DataProcessor.filters (DashboardController.processor c)))
  /\ DataProcessor.city
       (DataProcessor.filters (DashboardController.processor c'')) = "All"
  /\ DataProcessor.area
       (DataProcessor.filters (DashboardController.processor c'')) = "All"
  /\ DashboardController.value (DashboardController.citySelect c'')
     = "Bengaluru"
  /\ DashboardController.value (DashboardController.areaSelect c'')
     = "Whitefield".
Proof.
  cbv zeta.
  set (c := DashboardController.initializeFilters _).
  assert (Hs : DashboardController.value (DashboardController.stateSelect c)
               = DataProcessor.state
                   (DataProcessor.filters (DashboardController.processor c)))
    by reflexivity.
  assert (Hn : DashboardController.value
                 (DashboardController.networkSelect c)
               = DataProcessor.network
                   (DataProcessor.filters (DashboardController.processor c)))
    by reflexivity.
  split; [now split|].
  destruct (proj2 (dropdowns_and_filters
                     [Session.State "Karnataka"; Session.City "Bengaluru";
                      Session.Area "Whitefield"] c Hs Hn) "Karnataka")
    as (Hcity & Harea & Hsel & Hkeep).
  split; [exact Hcity|]. split; [exact Harea|].
  split.
  - rewrite Hkeep; [reflexivity|]. vm_compute. auto.
  - rewrite Hsel. reflexivity.
Defined.

(* ================================================================== *)
(** * The round trip of the score sort *)
(* ================================================================== *)

Lemma eqb_sym (a b : float) : (a =? b)%float = (b =? a)%float.
Proof.
  rewrite !eqb_spec. unfold SFeqb.
  destruct (SFcompare (Prim2SF a) (Prim2SF b)) as [c|] eqn:E.
  - rewrite (SFcompare_opp _ _ _ E). now destruct c.
  - destruct (SFcompare (Prim2SF b) (Prim2SF a)) as [c|] eqn:E';
      [|reflexivity].
    apply SFcompare_opp in E'. congruence.
Qed.

(** Two numbers that are not equal are strictly ordered. *)
Lemma different_apart (a b : DataProcessor.AreaSummary) :
  PrimFloat.is_nan (TableManager.score a) = false ->
  PrimFloat.is_nan (TableManager.score b) = false ->
  (TableManager.score a =? TableManager.score b)%float = false ->
  Sorting.apart a b = true.
Proof.
  intros Na Nb Hne. unfold Sorting.apart.
  destruct (TableManager.score a <? TableManager.score b)%float eqn:E;
    [reflexivity|].
  apply (not_ltb_leb _ _ Na Nb) in E.
  destruct (leb_cases _ _ E) as [Hlt|Heq]; [now rewrite Hlt|].
  rewrite eqb_sym in Heq. congruence.
Qed.

Lemma different_distinct (rows : list DataProcessor.AreaSummary) :
  Tabled.numericScores rows -> Sorting.differentScores rows ->
  Sorting.distinctScores rows = true.
Proof.
  unfold Tabled.numericScores, Sorting.differentScores.
  intros Hnum Hdiff.
  induction Hdiff as [|a l Ha Hl IH]; [reflexivity|].
  inversion_clear Hnum as [|? ? Na Nl]. simpl.
  apply andb_true_iff. split; [|now apply IH].
  apply forallb_forall. intros b Hb.
  rewrite Forall_forall in Ha, Nl.
  apply different_apart; auto.
Qed.

(** C8, as stated, fails: the two rows of the table for a record with the
    score 0.5 and a record of another area without score have the
    different score values "0.50" and "NaN"; the comparator returns
    [NaN] for them, which every engine takes as "equal", so that the
    stable sort leaves them in their order in both directions and the
    ascending order is not the reversed descending one. *)
Lemma score_sort_not_a_number :
  let rows := DataProcessor.getAreaWiseData [Sample.jio; Sample.unscored] in
  map DataProcessor.avgScore rows = ["0.50"; "NaN"]
  /\ Sorting.differentScores rows
  /\ Sorting.byScore "desc" rows = Some rows
  /\ Sorting.byScore "asc" rows = Some rows
  /\ rows <> rev rows.
Proof.
  cbv zeta.
  assert (E : DataProcessor.getAreaWiseData [Sample.jio; Sample.unscored]
              = [ DataProcessor.mkAreaSummary "Indiranagar" (Some "Jio")
                    "40.00" "10.00" "0.50";
                  DataProcessor.mkAreaSummary "Whitefield" (Some "Airtel")
                    "40.00" "10.00" "NaN" ])
    by (vm_compute; reflexivity).
  rewrite E. split; [reflexivity|]. split.
  - repeat constructor.
  - split; [vm_compute; reflexivity|].
    split; [vm_compute; reflexivity|discriminate].
Qed.

(** C8, amended: when the scores of the rows are numbers, no two of them
    equal, sorting by score in descending direction rearranges the rows
    into the strictly descending order, which is unique, and sorting the
    result by score in ascending direction -- by [applySorting], or by the
    click on the score header that toggles the direction -- yields
    exactly the reversed descending order. *)
Theorem score_sort_round_trip (rows : list DataProcessor.AreaSummary) :
  Tabled.numericScores rows -> Sorting.differentScores rows ->
  exists sorted,
    Sorting.byScore "desc" rows = Some sorted
    /\ Permutation rows sorted
    /\ Sorting.descending sorted
    /\ (forall l, Permutation rows l -> Sorting.descending l -> l = sorted)
    /\ Sorting.byScore "asc" sorted = Some (rev sorted)
    /\ Sorting.afterClick "desc" sorted = Some (rev sorted).
Proof.
  intros Hnum Hdiff.
  pose proof (different_distinct rows Hnum Hdiff) as Hd.
  eexists. split; [apply byScore_sort|].
  split; [symmetry; apply sort_Permutation|].
  split.
  { apply (sort_descending rows Hd); [apply incl_refl|].
    apply (distinctScores_spec rows Hd). }
  split.
  { intros l Hp Hl. apply (sort_unique rows l Hd); [|assumption].
    now symmetry. }
  assert (H : Sorting.byScore "asc"
                (JS.sort
                   (fun a b =>
                      (TableManager.multiplier "desc"
                       * (TableManager.score a - TableManager.score b))%float)
                   rows)
              = Some (rev (JS.sort
                   (fun a b =>
                      (TableManager.multiplier "desc"
                       * (TableManager.score a - TableManager.score b))%float)
                   rows))).
  { rewrite byScore_sort. f_equal.
    now apply (sorted_round_trip rows Hd). }
  split; [exact H|exact H].
Qed.

(** The three sample rows have the scores 0.5, 0.75 and 0.25; sorted best
    first and then worst first they come out reversed. *)
Lemma score_sort_round_trip_witness :
  Tabled.numericScores Sample.rows
  /\ Sorting.differentScores Sample.rows
  /\ exists sorted,
       Sorting.byScore "desc" Sample.rows = Some sorted
       /\ Permutation Sample.rows sorted
       /\ Sorting.byScore "asc" sorted = Some (rev sorted).
Proof.
  assert (Hnum : Tabled.numericScores Sample.rows)
    by (repeat constructor).
  assert (Hdiff : Sorting.differentScores Sample.rows)
    by (repeat constructor).
  split; [exact Hnum|]. split; [exact Hdiff|].
  destruct (score_sort_round_trip Sample.rows Hnum Hdiff)
    as (sorted & H1 & H2 & _ & _ & H3 & _).
  exists sorted. repeat split; assumption.
Defined.

(* ================================================================== *)
(** * Letter case in the three groupings *)
(* ================================================================== *)

(** The key of the KPI grouping is the operator's name in upper case. *)
Lemma operatorKey_named (r : Rec.t) (s : string) :
  Rec.operator r = Some s -> s <> "" ->
  DataProcessor.operatorKey r = JS.toUpperCase s.
Proof.
  unfold DataProcessor.operatorKey. intros -> Hs. simpl.
  now destruct (String.eqb_spec s "").
Qed.

Lemma operatorKey_unnamed (r : Rec.t) :
  Rec.operator r = None \/ Rec.operator r = Some "" ->
  DataProcessor.operatorKey r = "UNKNOWN".
Proof. unfold DataProcessor.operatorKey. now intros [->| ->]. Qed.

(** No upper-case text is a name inherited from [Object.prototype]: the
    keys of the KPI grouping are own properties. *)
Lemma upper_not_inherited (s : string) :
  JS.isInherited (JS.toUpperCase s) = false.
Proof.
  destruct (JS.isInherited (JS.toUpperCase s)) eqn:E; [|reflexivity].
  unfold JS.isInherited in E. apply existsb_exists in E.
  destruct E as (k & Hk & Heq). apply String.eqb_eq in Heq.
  assert (Hup : JS.toUpperCase k = k)
    by (rewrite <- Heq; apply toUpperCase_idem).
  simpl in Hk.
  repeat (destruct Hk as [<-|Hk]; [discriminate Hup|]).
  destruct Hk.
Qed.

(** The item of the map for the area of a record lists the record's
    operator as it is written. *)
Lemma getMapData_operator (records : list Rec.t) (r : Rec.t) :
  In r records ->
  exists item,
    In item (DataProcessor.getMapData records)
    /\ DataProcessor.mg_area (DataProcessor.group item) = Rec.area r
    /\ In (Rec.operator r)
          (DataProcessor.operators (DataProcessor.group item)).
Proof.
  intros Hin. destruct (mapGroups_operator records r Hin) as (g & Hg & Hop).
  pose proof (mapGroups_get records (Rec.area r)) as H. rewrite Hg in H.
  destruct H as (r0 & l & _ & Harea & _).
  eexists. split; [|split].
  - apply getMapData_item. exists g. split; [|reflexivity].
    now rewrite Harea.
  - exact Harea.
  - exact Hop.
Qed.

(** C10: [calculateKPIs] groups a record under its operator's name in
    upper case, under "UNKNOWN" when it has none, so that two records
    whose operator names differ only in letter case feed one bucket, and
    the best operator of the snapshot is always an upper-case string: "N/A"
    or the normalized name of an operator.  The area-wise table and the
    map group by the name as it is written, so that the same two records
    fall into two different rows and give two different operator entries
    on the map.  (The row keys and the areas are property names there:
    none of them is to be a name inherited from [Object.prototype].) *)
Theorem operator_case_handling (records : list Rec.t) (r1 r2 : Rec.t)
    (s1 s2 : string) :
  Names.own DataProcessor.areaKey records ->
  Names.own Rec.area records ->
  In r1 records -> In r2 records ->
  Rec.operator r1 = Some s1 -> Rec.operator r2 = Some s2 ->
  Casing.differInCaseOnly s1 s2 ->
  ((forall r s, Rec.operator r = Some s -> s <> "" ->
                DataProcessor.operatorKey r = JS.toUpperCase s)
   /\ (forall r, Rec.operator r = None \/ Rec.operator r = Some "" ->
                 DataProcessor.operatorKey r = "UNKNOWN"))
  /\ (let k := JS.toUpperCase s1 in
      DataProcessor.operatorKey r1 = k
      /\ DataProcessor.operatorKey r2 = k
      /\ In r1 (Ranking.recordsOf k records)
      /\ In r2 (Ranking.recordsOf k records)
      /\ JS.get k (DataProcessor.operatorScores records)
         = Some (mkBucket
                   (sumOf (fun r => JS.orZero (Rec.confidence_score r))
                          (Ranking.recordsOf k records))
                   (List.length (Ranking.recordsOf k records))))
  /\ (exists best,
         JS.get "bestOperator" (DataProcessor.calculateKPIs records)
         = Some (JS.Str best)
         /\ Casing.isUpperCase best
         /\ (best = "N/A" \/ Ranking.isOperator records best))
  /\ (exists row1 row2,
         In row1 (DataProcessor.getAreaWiseData records)
         /\ In row2 (DataProcessor.getAreaWiseData records)
         /\ Casing.rowKey row1 = Rec.area r1 ++ "_" ++ s1
         /\ Casing.rowKey row2 = Rec.area r2 ++ "_" ++ s2
         /\ row1 <> row2)
  /\ (exists item1 item2,
         In item1 (DataProcessor.getMapData records)
         /\ In item2 (DataProcessor.getMapData records)
         /\ DataProcessor.mg_area (DataProcessor.group item1) = Rec.area r1
         /\ DataProcessor.mg_area (DataProcessor.group item2) = Rec.area r2
         /\ In (Some s1)
               (DataProcessor.operators (DataProcessor.group item1))
         /\ In (Some s2)
               (DataProcessor.operators (DataProcessor.group item2))
         /\ Some s1 <> Some s2).
Proof.
  intros _ _ Hin1 Hin2 Hop1 Hop2 Hcase.
  assert (Hs1 : s1 <> "").
  { intros ->. destruct Hcase as [Hne Hup]. symmetry in Hup.
    apply toUpperCase_empty in Hup. congruence. }
  assert (Hs2 : s2 <> "").
  { intros ->. destruct Hcase as [Hne Hup].
    apply toUpperCase_empty in Hup. congruence. }
  assert (Hk1 : DataProcessor.operatorKey r1 = JS.toUpperCase s1)
    by now apply operatorKey_named.
  assert (Hk2 : DataProcessor.operatorKey r2 = JS.toUpperCase s1).
  { rewrite (proj2 Hcase). now apply operatorKey_named. }
  split; [split; [apply operatorKey_named|apply operatorKey_unnamed]|].
  split; [|split; [|split]].
  - cbv zeta.
    assert (H1 : In r1 (Ranking.recordsOf (JS.toUpperCase s1) records)).
    { rewrite recordsOf_key. apply filter_In.
      split; [assumption|]. now apply String.eqb_eq. }
    assert (H2 : In r2 (Ranking.recordsOf (JS.toUpperCase s1) records)).
    { rewrite recordsOf_key. apply filter_In.
      split; [assumption|]. now apply String.eqb_eq. }
    repeat split; try assumption.
    rewrite operatorScores_get.
    destruct (Ranking.recordsOf _ records); [destruct H1|reflexivity].
  - exists (DataProcessor.bestOperator records).
    split; [apply calculateKPIs_bestOperator|].
    split; [apply bestOperator_upper|].
    destruct (bestOperator_cases records) as [[Hna _]|[Hop _]]; auto.
  - destruct (getAreaWiseData_row records r1 Hin1) as (row1 & Hr1 & Hkey1).
    destruct (getAreaWiseData_row records r2 Hin2) as (row2 & Hr2 & Hkey2).
    exists row1, row2.
    unfold DataProcessor.areaKey in Hkey1, Hkey2.
    rewrite Hop1 in Hkey1. rewrite Hop2 in Hkey2. simpl in Hkey1, Hkey2.
    repeat split; try assumption.
    intros ->. apply (areaKey_case r1 r2 s1 s2); try assumption.
    unfold DataProcessor.areaKey. rewrite Hop1, Hop2. simpl. congruence.
  - destruct (getMapData_operator records r1 Hin1) as (i1 & Hi1 & Ha1 & Ho1).
    destruct (getMapData_operator records r2 Hin2) as (i2 & Hi2 & Ha2 & Ho2).
    exists i1, i2. rewrite Hop1 in Ho1. rewrite Hop2 in Ho2.
    repeat split; try assumption.
    intros [= H]. now apply (proj1 Hcase).
Qed.

(** "Jio" and "JIO" in the sample selection differ only in case; they
    share the bucket "JIO" of the KPIs. *)
Lemma operator_case_handling_witness :
  Names.own DataProcessor.areaKey Sample.selection
  /\ Names.own Rec.area Sample.selection
  /\ In Sample.jio Sample.selection
  /\ In Sample.jioUpper Sample.selection
  /\ Rec.operator Sample.jio = Some "Jio"
  /\ Rec.operator Sample.jioUpper = Some "JIO"
  /\ Casing.differInCaseOnly "Jio" "JIO"
  /\ DataProcessor.operatorKey Sample.jio = "JIO"
  /\ DataProcessor.operatorKey Sample.jioUpper = "JIO".
Proof.
  assert (Hk : Names.own DataProcessor.areaKey Sample.selection)
    by (repeat constructor).
  assert (Ha : Names.own Rec.area Sample.selection)
    by (repeat constructor).
  assert (H1 : In Sample.jio Sample.selection) by (simpl; auto).
  assert (H2 : In Sample.jioUpper Sample.selection) by (simpl; auto).
  assert (H3 : Casing.differInCaseOnly "Jio" "JIO")
    by (split; [discriminate|reflexivity]).
  do 7 (split; [assumption || reflexivity|]).
  destruct (proj1 (proj2
              (operator_case_handling Sample.selection Sample.jio
                 Sample.jioUpper "Jio" "JIO" Hk Ha H1 H2
                 eq_refl eq_refl H3)))
    as (E1 & E2 & _).
  split; [exact E1|exact E2].
Defined.
